(** * The trace filter of HAProxy (src/flt_trace.c)

    A shallow embedding of the data path of the trace filter: the hex dumper
    ([trace_hexdump], [trace_raw_hexdump], [trace_htx_hexdump]), the five
    data hooks ([trace_http_payload], [trace_http_data],
    [trace_http_forward_data], [trace_tcp_data], [trace_tcp_forward_data])
    and the parser of the configuration keyword ([parse_trace_flt]).

    Integers are mathematical integers with the conversions of C written
    out (LP64: [int] and [unsigned int] have 32 bits, [size_t], [long] and
    [unsigned long long] 64).  What C leaves undefined (a division by zero, an
    overflowing signed addition, a read outside the storage area of a
    buffer) makes the embedded function return [None]. *)

From Stdlib Require Import ZArith List Bool Lia.
From Stdlib Require Import Strings.String Strings.Ascii Strings.Byte.
Import ListNotations.

Local Open Scope string_scope.
Local Open Scope Z_scope.

(* ===================================================================== *)
(** * Machine integers *)
(* ===================================================================== *)

Definition INT_MAX : Z := 2147483647.
Definition INT_MIN : Z := -2147483648.
Definition UINT_MOD : Z := 4294967296.
Definition SIZE_MOD : Z := 18446744073709551616.

(** [random()] returns a [long] between 0 and [RAND_MAX]. *)
Definition RAND_MAX : Z := 2147483647.

(** Conversion to [unsigned int]. *)
Definition to_uint (x : Z) : Z := x mod UINT_MOD.

(** Conversion to [size_t] (and to [unsigned long long]). *)
Definition to_size (x : Z) : Z := x mod SIZE_MOD.

(** Conversion to [int]: the value modulo 2^32 that lies in
    [INT_MIN .. INT_MAX]. *)
Definition to_int (x : Z) : Z :=
  let u := to_uint x in
  if u <=? INT_MAX then u else u - UINT_MOD.

(* ===================================================================== *)
(** * Text output *)
(* ===================================================================== *)

Definition TAB : ascii := ascii_of_nat 9.
Definition NL : ascii := ascii_of_nat 10.

Definition hex_digit (d : N) : ascii :=
  match d with
  | 0%N => "0" | 1%N => "1" | 2%N => "2" | 3%N => "3"
  | 4%N => "4" | 5%N => "5" | 6%N => "6" | 7%N => "7"
  | 8%N => "8" | 9%N => "9" | 10%N => "a" | 11%N => "b"
  | 12%N => "c" | 13%N => "d" | 14%N => "e" | _ => "f"
  end%char.

(** The digits of [n] in base sixteen, most significant first, put in front
    of [acc]. *)
Fixpoint hex_digits (fuel : nat) (n : N) (acc : string) : string :=
  match fuel with
  | O => acc
  | S fuel' =>
      let acc' := String (hex_digit (n mod 16)) acc in
      if (n / 16 =? 0)%N then acc' else hex_digits fuel' (n / 16) acc'
  end.

Fixpoint zeros (n : nat) : string :=
  match n with
  | O => ""
  | S n' => String "0" (zeros n')
  end.

(** [printf("%0<w>x", n)]: at least [w] digits, padded with zeros on the
    left. *)
Definition fmt_0x (w : nat) (n : Z) : string :=
  let v := Z.to_N (to_uint n) in
  let ds := hex_digits (S (N.size_nat v)) v "" in
  zeros (w - String.length ds) ++ ds.

(** [printf("%02x ", (unsigned char)c)]. *)
Definition fmt_byte (b : byte) : string :=
  let v := Byte.to_N b in
  String (hex_digit (v / 16)) (String (hex_digit (v mod 16)) " ").

(** [isprint] in the C locale. *)
Definition isprint (b : byte) : bool :=
  let v := Byte.to_N b in
  ((32 <=? v) && (v <=? 126))%N.

(** [printf("%c", isprint(c) ? c : '.')]. *)
Definition fmt_char (b : byte) : ascii :=
  if isprint b then ascii_of_byte b else "."%char.

(** A [for] loop that prints: [for (i = start; cond(i); i++) body(i)], the
    text of the iterations one after the other.  [fuel] bounds the number of
    iterations. *)
Fixpoint for_loop (fuel : nat) (cond : Z -> bool) (body : Z -> string)
    (i : Z) : string :=
  match fuel with
  | O => ""
  | S fuel' =>
      if cond i then body i ++ for_loop fuel' cond body (i + 1) else ""
  end.

(* ===================================================================== *)
(** * The hex dumper *)
(* ===================================================================== *)

(** An [ist] is the list of the bytes it points to; [ist.len] is the length
    of the list and [*(ist.ptr+i)] its [i]-th byte. *)
Definition ist := list byte.

Definition ist_len (s : ist) : Z := Z.of_nat (List.length s).

Definition ist_at (s : ist) (i : Z) : byte := nth (Z.to_nat i) s x00.

(** The ASCII column of the row that ends at index [i]:
    [for (j = i - 15; j <= i && j < ist.len; j++)]. *)
Definition hexdump_ascii (s : ist) (i : Z) : string :=
  for_loop 16 (fun j => (j <=? i) && (j <? ist_len s))
    (fun j => String (fmt_char (ist_at s j)) "") (i - 15).

(** One iteration of the loop of [trace_hexdump]. *)
Definition hexdump_step (s : ist) (i : Z) : string :=
  (if i mod 16 =? 0 then String TAB ("0x" ++ fmt_0x 6 i ++ ": ")
   else if i mod 8 =? 0 then "  "
   else "")
  ++ (if i <? ist_len s then fmt_byte (ist_at s i) else "   ")
  ++ (if i mod 16 =? 15
      then "  |" ++ hexdump_ascii s i ++ String "|" (String NL "")
      else "").

(** [trace_hexdump]: the text written to the diagnostic stream.  The counter
    [i] of the source is an [int] compared with a [size_t]; it stays in range
    for every window shorter than [INT_MAX - 15] bytes, and the callers build
    no longer one (an array of [int] length on the stack, the value of a
    block). *)
Definition trace_hexdump (s : ist) : string :=
  let len := ist_len s in
  let padding := if len mod 16 =? 0 then 0 else 16 - len mod 16 in
  for_loop (Z.to_nat (len + padding)) (fun i => i <? len + padding)
    (hexdump_step s) 0.

(* ===================================================================== *)
(** * Structured messages *)
(* ===================================================================== *)

Inductive htx_blk_type :=
| HTX_BLK_REQ_SL | HTX_BLK_RES_SL | HTX_BLK_HDR | HTX_BLK_PHDR
| HTX_BLK_EOH | HTX_BLK_DATA | HTX_BLK_EOD | HTX_BLK_TLR
| HTX_BLK_EOM | HTX_BLK_OOB | HTX_BLK_UNUSED.

Definition is_data (t : htx_blk_type) : bool :=
  match t with HTX_BLK_DATA => true | _ => false end.

(** Modelled from the spec: the blocks of [common/htx.h], which is not among
    the sources.  A message is the ordered sequence of its typed blocks; a
    block carries what the accessors [htx_get_blk_type], [htx_get_blksz] and
    [htx_get_blk_value] return for it. *)
Record htx_blk := {
  htx_get_blk_type : htx_blk_type;
  htx_get_blksz : Z;
  htx_get_blk_value : list byte
}.

Definition htx := list htx_blk.

(* ===================================================================== *)
(** * Ring buffers *)
(* ===================================================================== *)

(** Modelled from the spec: the ring buffer of [common/buf.h], which is not
    among the sources.  A buffer is a storage area of [b_size] bytes that
    holds [b_data] bytes from the offset [b_head] on, wrapping at the
    physical end of the area; a pointer into the area is the offset from its
    origin.  The accessors below ([b_orig], [b_wrap], [b_peek],
    [b_contig_data]) are the ones [trace_raw_hexdump] calls, or those they
    rest on.  [b_htx] is the block list that [htxbuf] finds in the area when
    the buffer holds a structured message. *)
Record buffer := {
  b_size : Z;
  b_area : list byte;
  b_head : Z;
  b_data : Z;
  b_htx : htx
}.

Definition htxbuf (b : buffer) : htx := b_htx b.

(** The origin of the storage area and its physical end. *)
Definition b_orig (b : buffer) : Z := 0.
Definition b_wrap (b : buffer) : Z := b_size b.

(** The place of the byte at the logical offset [ofs] from the head. *)
Definition b_peek (b : buffer) (ofs : Z) : Z :=
  let p := b_head b + ofs in
  if p >=? b_size b then p - b_size b else p.

(** The count of bytes that can be read in one go from the logical offset
    [start]: up to the physical end of the area or up to the last byte
    present, whichever comes first. *)
Definition b_contig_data (b : buffer) (start : Z) : Z :=
  let data := to_size (b_wrap b - b_peek b start) in
  let limit := to_size (b_data b - start) in
  if data >? limit then limit else data.

Definition buffer_wf (b : buffer) : Prop :=
  Z.of_nat (List.length (b_area b)) = b_size b /\
  0 <= b_head b < b_size b /\
  0 <= b_data b <= b_size b /\
  b_size b <= INT_MAX.

(** [memcpy(dst, area + ofs, n)]: the [n] bytes read, [None] when the read
    leaves the storage area. *)
Definition memcpy (area : list byte) (ofs n : Z) : option (list byte) :=
  if (0 <=? ofs) && (0 <=? n) && (ofs + n <=? Z.of_nat (List.length area))
  then Some (firstn (Z.to_nat n) (skipn (Z.to_nat ofs) area))
  else None.

(** [trace_raw_hexdump(buf, len, out)]; [len] and [out] are [int]s.  The
    array [p] has [len] bytes, so a negative [len] is undefined. *)
Definition trace_raw_hexdump (buf : buffer) (len out : Z) : option string :=
  if len <? 0 then None
  else
    let contig := b_contig_data buf (to_size out) in
    let block1 := if to_size len >? contig then to_int contig else len in
    let block2 := to_int (len - block1) in
    match memcpy (b_area buf) (b_head buf) (to_size block1) with
    | None => None
    | Some p1 =>
        match memcpy (b_area buf) (b_orig buf) (to_size block2) with
        | None => None
        | Some p2 => Some (trace_hexdump (p1 ++ p2)%list)
        end
    end.

(** The [len] bytes at the logical offsets [out], [out + 1], ... of the
    buffer, unwrapped: the window that the dump is about. *)
Definition b_window (buf : buffer) (out len : Z) : list byte :=
  map (fun k =>
         nth (Z.to_nat (b_peek buf (out + Z.of_nat k))) (b_area buf) x00)
      (seq 0 (Z.to_nat len)).

(* ===================================================================== *)
(** * Walks over the blocks *)
(* ===================================================================== *)

(** A payload block is as long as its value, and a size is a [uint32_t]
    that fits in an [int]. *)
Definition blk_wf (blk : htx_blk) : Prop :=
  0 <= htx_get_blksz blk <= INT_MAX /\
  (htx_get_blk_type blk = HTX_BLK_DATA ->
   htx_get_blksz blk = ist_len (htx_get_blk_value blk)).

Definition htx_wf (h : htx) : Prop := Forall blk_wf h.

Definition data_blk (bytes : list byte) : htx_blk :=
  {| htx_get_blk_type := HTX_BLK_DATA;
     htx_get_blksz := ist_len bytes;
     htx_get_blk_value := bytes |}.

(** The value [v] of a block after [v.ptr += offset; v.len -= offset] and
    the cut to [len]: the bytes from [v.ptr] on and the length [v.len]. *)
Definition htx_slice (blk : htx_blk) (offset len : Z) : list byte * Z :=
  let v := htx_get_blk_value blk in
  let vlen := to_size (ist_len v - offset) in
  (skipn (Z.to_nat offset) v, if vlen >? len then len else vlen).

(** The bytes that [trace_hexdump(v)] reads: [v.len] bytes from [v.ptr]. *)
Definition ist_bytes (v : list byte * Z) : ist :=
  firstn (Z.to_nat (snd v)) (fst v).

(** [trace_htx_hexdump(htx, offset, len)]: the loop over the blocks, from the
    first one, while a block is left and [len] is not zero. *)
Fixpoint trace_htx_hexdump (h : htx) (offset len : Z) : string :=
  match h with
  | [] => ""
  | blk :: rest =>
      if len =? 0 then ""
      else
        let sz := htx_get_blksz blk in
        if offset >=? sz then trace_htx_hexdump rest (to_uint (offset - sz)) len
        else
          let v := htx_slice blk offset len in
          (if is_data (htx_get_blk_type blk) then trace_hexdump (ist_bytes v)
           else "")
          ++ trace_htx_hexdump rest 0 (to_uint (len - snd v))
  end.

(** The same walk, keeping the runs handed to [trace_hexdump] instead of
    their dumps. *)
Fixpoint htx_runs (h : htx) (offset len : Z) : list ist :=
  match h with
  | [] => []
  | blk :: rest =>
      if len =? 0 then []
      else
        let sz := htx_get_blksz blk in
        if offset >=? sz then htx_runs rest (to_uint (offset - sz)) len
        else
          let v := htx_slice blk offset len in
          ((if is_data (htx_get_blk_type blk) then [ist_bytes v] else [])
           ++ htx_runs rest 0 (to_uint (len - snd v)))%list
  end.

(** The spec's [payloadBytesIn]: the sum of the lengths of the sliced
    runs. *)
Definition payloadBytesIn (h : htx) (offset len : Z) : Z :=
  fold_right (fun run acc => ist_len run + acc) 0 (htx_runs h offset len).

(** The count [data] that [trace_http_payload] takes before it draws: the
    loop over the blocks, left at the first block that is no payload. *)
Fixpoint payload_data (h : htx) (off data len : Z) : Z :=
  match h with
  | [] => data
  | blk :: rest =>
      if negb (is_data (htx_get_blk_type blk)) then data
      else
        let sz := htx_get_blksz blk in
        if off >=? sz then payload_data rest (to_uint (off - sz)) data len
        else
          let data' := to_uint (data + (sz - off)) in
          if data' >? len then len else payload_data rest 0 data' len
  end.

(* ===================================================================== *)
(** * Channels, filters and the effects of a hook *)
(* ===================================================================== *)

(** A channel: its buffer, the count [output] of bytes scheduled for
    output, and the flag [CF_ISRESP]. *)
Record channel := {
  chn_buf : buffer;
  chn_output : Z;
  chn_isresp : bool
}.

Definition co_data (c : channel) : Z := chn_output c.
Definition ci_data (c : channel) : Z := to_size (b_data (chn_buf c) - co_data c).

Definition channel_label (c : channel) : string :=
  if chn_isresp c then "RESPONSE" else "REQUEST".

(** The flags of a stream that the diagnostic line reads. *)
Record stream := {
  strm_be_assigned : bool;
  strm_http : bool;
  strm_htx : bool
}.

Definition proxy_mode (s : stream) : string :=
  if strm_http s then (if strm_htx s then "HTX" else "HTTP") else "TCP".

Definition stream_pos (s : stream) : string :=
  if strm_be_assigned s then "backend" else "frontend".

(** [struct trace_config]; the three [int]s are used as booleans. *)
Record trace_config := {
  conf_proxy : string;
  conf_name : option string;
  rand_parsing : bool;
  rand_forwarding : bool;
  hexdump : bool
}.

(** A filter instance: its configuration and its two offsets on each
    channel, request first. *)
Record filter := {
  FLT_CONF : trace_config;
  flt_next : Z * Z;
  flt_fwd : Z * Z
}.

Definition FLT_NXT (f : filter) (c : channel) : Z :=
  if chn_isresp c then snd (flt_next f) else fst (flt_next f).

Definition FLT_FWD (f : filter) (c : channel) : Z :=
  if chn_isresp c then snd (flt_fwd f) else fst (flt_fwd f).

(** The two fields of [struct http_msg] that [trace_http_data] reads. *)
Record http_msg := {
  chunk_len : Z;
  msg_next : Z
}.

(** What reaches the diagnostic stream: the line of [STRM_TRACE] (hook,
    channel, mode, side, and the numbers it prints, in order) or the text
    of a hex dump. *)
Inductive diag :=
| Line (hook label mode pos : string) (fields : list (string * Z))
| Dump (text : string).

(** The state a hook runs in: the channel it is called on, the diagnostic
    stream (oldest first) and the count of wake-ups of the stream's task. *)
Record world := {
  w_chn : channel;
  w_diag : list diag;
  w_wakeups : nat
}.

(** State and failure. *)
Definition M (A : Type) : Type := world -> option (A * world).

Definition ret {A} (a : A) : M A := fun w => Some (a, w).

Definition bind {A B} (m : M A) (k : A -> M B) : M B :=
  fun w => match m w with
           | None => None
           | Some (a, w') => k a w'
           end.

Definition lift {A} (o : option A) : M A :=
  fun w => match o with None => None | Some a => Some (a, w) end.

Notation "x <- m ;; k" := (bind m (fun x => k))
  (at level 61, m at next level, right associativity).
Notation "m ;; k" := (bind m (fun _ => k))
  (at level 61, right associativity).

Definition get_chn : M channel := fun w => Some (w_chn w, w).

Definition put_chn (c : channel) : M unit :=
  fun w => Some (tt, {| w_chn := c; w_diag := w_diag w; w_wakeups := w_wakeups w |}).

Definition emit (d : diag) : M unit :=
  fun w => Some (tt, {| w_chn := w_chn w; w_diag := (w_diag w ++ [d])%list;
                        w_wakeups := w_wakeups w |}).

Definition task_wakeup : M unit :=
  fun w => Some (tt, {| w_chn := w_chn w; w_diag := w_diag w;
                        w_wakeups := S (w_wakeups w) |}).

Definition when (b : bool) (m : M unit) : M unit := if b then m else ret tt.

(** Modelled from the spec: [c_adv] and [c_rew] of [proto/channel.h], which
    is not among the sources.  They move the boundary between output and
    input: [c_adv] adds to the count [output], [c_rew] takes off it; the
    buffer is not touched. *)
Definition c_adv (adv : Z) : M unit :=
  c <- get_chn ;;
  put_chn {| chn_buf := chn_buf c; chn_output := to_size (chn_output c + adv);
             chn_isresp := chn_isresp c |}.

Definition c_rew (adv : Z) : M unit :=
  c <- get_chn ;;
  put_chn {| chn_buf := chn_buf c; chn_output := to_size (chn_output c - adv);
             chn_isresp := chn_isresp c |}.

Definition STRM_TRACE (s : stream) (hook : string) (fields : list (string * Z))
  : M unit :=
  c <- get_chn ;;
  emit (Line hook (channel_label c) (proxy_mode s) (stream_pos s) fields).

(** [random() % (ret + 1)] for an [int ret] and the draw [r]: the addition
    is undefined at [INT_MAX], the remainder when [ret + 1] is zero. *)
Definition rand_mod (r ret : Z) : option Z :=
  if ret =? INT_MAX then None
  else if ret + 1 =? 0 then None
  else Some (to_int (Z.rem r (ret + 1))).

(* ===================================================================== *)
(** * The data hooks *)
(* ===================================================================== *)

(** The hooks run in the state monad above, on the channel of the call.  In
    every hook [r] is the value that [random()] returns if the hook calls
    it; a hook calls it at most once. *)

(** [avail] in [trace_http_data]:
    [MIN(msg->chunk_len + msg->next, ci_data(msg->chn)) - FLT_NXT(filter, msg->chn)],
    computed on 64 bits and stored in an [int]. *)
Definition http_data_avail (f : filter) (msg : http_msg) (c : channel) : Z :=
  to_int (to_size (Z.min (to_size (chunk_len msg + msg_next msg)) (ci_data c)
                   - FLT_NXT f c)).

(** [avail] in [trace_tcp_data]: [ci_data(chn) - FLT_NXT(filter, chn)]. *)
Definition tcp_data_avail (f : filter) (c : channel) : Z :=
  to_int (to_size (ci_data c - FLT_NXT f c)).

(** [trace_http_payload(s, filter, msg, offset, len)], the payload hook of
    structured messages; [offset] and [len] are [unsigned int]s.  The count
    [ret] is compared with [data] and with [len] as an [unsigned int]. *)
Definition trace_http_payload (s : stream) (f : filter)
    (offset len : Z) (r : Z) : M Z :=
  let conf := FLT_CONF f in
  let ret0 := to_int len in
  ret1 <- (if negb (ret0 =? 0) && rand_forwarding conf then
             c <- get_chn ;;
             let data := payload_data (htxbuf (chn_buf c)) offset 0 len in
             d <- lift (rand_mod r ret0) ;;
             ret (if to_uint d >? data then to_int len else d)
           else ret ret0) ;;
  STRM_TRACE s "trace_http_payload"
    [("offset", offset); ("len", len); ("forward", ret1)] ;;
  when (hexdump conf)
    (c <- get_chn ;;
     emit (Dump (trace_htx_hexdump (htxbuf (chn_buf c)) offset len))) ;;
  when (negb (to_uint ret1 =? len)) task_wakeup ;;
  ret ret1.

(** [trace_http_data(s, filter, msg)], the body hook of legacy messages. *)
Definition trace_http_data (s : stream) (f : filter) (msg : http_msg)
    (r : Z) : M Z :=
  let conf := FLT_CONF f in
  c <- get_chn ;;
  let avail := http_data_avail f msg c in
  ret1 <- (if negb (avail =? 0) && rand_parsing conf
           then lift (rand_mod r avail) else ret avail) ;;
  STRM_TRACE s "trace_http_data"
    [("chunk_len", chunk_len msg); ("next", FLT_NXT f c);
     ("fwd", FLT_FWD f c); ("avail", avail); ("consume", ret1)] ;;
  when (negb (ret1 =? avail)) task_wakeup ;;
  ret ret1.

(** [trace_http_forward_data(s, filter, msg, len)].  With dumps on, the
    channel is advanced by what the filter has forwarded, the window that
    starts at the output is dumped, and the channel is rewound. *)
Definition trace_http_forward_data (s : stream) (f : filter)
    (len : Z) (r : Z) : M Z :=
  let conf := FLT_CONF f in
  let ret0 := to_int len in
  ret1 <- (if negb (ret0 =? 0) && rand_forwarding conf
           then lift (rand_mod r ret0) else ret ret0) ;;
  c <- get_chn ;;
  STRM_TRACE s "trace_http_forward_data"
    [("len", len); ("nxt", FLT_NXT f c); ("fwd", FLT_FWD f c);
     ("forward", ret1)] ;;
  when (hexdump conf)
    (c_adv (FLT_FWD f c) ;;
     c' <- get_chn ;;
     text <- lift (trace_raw_hexdump (chn_buf c') ret1 (to_int (co_data c'))) ;;
     emit (Dump text) ;;
     c_rew (FLT_FWD f c')) ;;
  c'' <- get_chn ;;
  when (negb (to_uint ret1 =? len)
        || negb (FLT_NXT f c'' =? to_uint (FLT_FWD f c'' + ret1)))
    task_wakeup ;;
  ret ret1.

(** [trace_tcp_data(s, filter, chn)]. *)
Definition trace_tcp_data (s : stream) (f : filter) (r : Z) : M Z :=
  let conf := FLT_CONF f in
  c <- get_chn ;;
  let avail := tcp_data_avail f c in
  ret1 <- (if negb (avail =? 0) && rand_parsing conf
           then lift (rand_mod r avail) else ret avail) ;;
  STRM_TRACE s "trace_tcp_data"
    [("next", FLT_NXT f c); ("avail", to_uint avail); ("consume", ret1)] ;;
  when (negb (ret1 =? avail)) task_wakeup ;;
  ret ret1.

(** [trace_tcp_forward_data(s, filter, chn, len)]. *)
Definition trace_tcp_forward_data (s : stream) (f : filter)
    (len : Z) (r : Z) : M Z :=
  let conf := FLT_CONF f in
  let ret0 := to_int len in
  ret1 <- (if negb (ret0 =? 0) && rand_forwarding conf
           then lift (rand_mod r ret0) else ret ret0) ;;
  c <- get_chn ;;
  STRM_TRACE s "trace_tcp_forward_data"
    [("len", len); ("fwd", FLT_FWD f c); ("forward", ret1)] ;;
  when (hexdump conf)
    (c_adv (FLT_FWD f c) ;;
     c' <- get_chn ;;
     text <- lift (trace_raw_hexdump (chn_buf c') ret1 (to_int (co_data c'))) ;;
     emit (Dump text) ;;
     c_rew (FLT_FWD f c')) ;;
  when (negb (to_uint ret1 =? len)) task_wakeup ;;
  ret ret1.

(* ===================================================================== *)
(** * The parser of the [trace] keyword *)
(* ===================================================================== *)

(** The heap, as far as the parser is concerned: the blocks handed out and
    not yet freed.  A block is named by the rank of the request that made
    it. *)
Record heap := {
  hp_next : nat;
  hp_live : list nat
}.

Definition free (p : nat) (h : heap) : heap :=
  {| hp_next := hp_next h;
     hp_live := List.filter (fun q => negb (Nat.eqb p q)) (hp_live h) |}.

(** What the caller hands over in [fconf] and finds there afterwards. *)
Record flt_conf := {
  fc_id : option string;
  fc_ops : option string;
  fc_conf : option (nat * trace_config)
}.

Definition trace_flt_id : string := "trace filter".

(** The locals of [parse_trace_flt] inside the loop. *)
Record pstate := {
  ps_pos : nat;
  ps_conf : trace_config;
  ps_name : option nat;
  ps_heap : heap
}.

(** The outcome of a call: the returned code, the message left in [*err],
    [*cur_arg], [fconf] and the heap. *)
Record presult := {
  pr_ret : Z;
  pr_err : option string;
  pr_cur_arg : nat;
  pr_fconf : flt_conf;
  pr_heap : heap
}.

Section Parser.

(** Whether the request of rank [n] for memory ([calloc], [strdup]) is
    served. *)
Variable alloc_ok : nat -> bool.

Definition alloc (h : heap) : option nat * heap :=
  let p := hp_next h in
  if alloc_ok p
  then (Some p, {| hp_next := S p; hp_live := p :: hp_live h |})
  else (None, {| hp_next := S p; hp_live := hp_live h |}).

(** [args[i]]: the array of the configuration line ends with empty
    strings. *)
Definition arg (args : list string) (i : nat) : string := nth i args "".

(** The block that [calloc] returns, and [conf->proxy = px]. *)
Definition zeroed_config : trace_config :=
  {| conf_proxy := ""; conf_name := None; rand_parsing := false;
     rand_forwarding := false; hexdump := false |}.

Definition set_proxy (c : trace_config) (px : string) : trace_config :=
  {| conf_proxy := px; conf_name := conf_name c;
     rand_parsing := rand_parsing c; rand_forwarding := rand_forwarding c;
     hexdump := hexdump c |}.

Definition set_name (c : trace_config) (n : option string) : trace_config :=
  {| conf_proxy := conf_proxy c; conf_name := n;
     rand_parsing := rand_parsing c; rand_forwarding := rand_forwarding c;
     hexdump := hexdump c |}.

Definition set_rand_parsing (c : trace_config) : trace_config :=
  {| conf_proxy := conf_proxy c; conf_name := conf_name c;
     rand_parsing := true; rand_forwarding := rand_forwarding c;
     hexdump := hexdump c |}.

Definition set_rand_forwarding (c : trace_config) : trace_config :=
  {| conf_proxy := conf_proxy c; conf_name := conf_name c;
     rand_parsing := rand_parsing c; rand_forwarding := true;
     hexdump := hexdump c |}.

Definition set_hexdump (c : trace_config) : trace_config :=
  {| conf_proxy := conf_proxy c; conf_name := conf_name c;
     rand_parsing := rand_parsing c; rand_forwarding := rand_forwarding c;
     hexdump := true |}.

Definition at_pos (st : pstate) (pos : nat) : pstate :=
  {| ps_pos := pos; ps_conf := ps_conf st; ps_name := ps_name st;
     ps_heap := ps_heap st |}.

Definition with_conf (st : pstate) (c : trace_config) : pstate :=
  {| ps_pos := ps_pos st; ps_conf := c; ps_name := ps_name st;
     ps_heap := ps_heap st |}.

(** The loop over the arguments, which runs while [args[pos]] is not the
    empty string: the locals when it is left, and the message when it is
    left by [goto error]. *)
Fixpoint parse_loop (fuel : nat) (args : list string) (kw : string)
    (st : pstate) : option string * pstate :=
  match fuel with
  | O => (None, st)
  | S fuel' =>
      let pos := ps_pos st in
      let a := arg args pos in
      if String.eqb a "" then (None, st)
      else if String.eqb a "name" then
        if String.eqb (arg args (pos + 1)) "" then
          (Some ("'" ++ kw ++ "' : '" ++ a ++ "' option without value"), st)
        else
          let (p, h) := alloc (ps_heap st) in
          let st' := {| ps_pos := pos;
                        ps_conf := set_name (ps_conf st)
                                     (match p with
                                      | Some _ => Some (arg args (pos + 1))
                                      | None => None
                                      end);
                        ps_name := p; ps_heap := h |} in
          match p with
          | None => (Some (kw ++ ": out of memory"), st')
          | Some _ => parse_loop fuel' args kw (at_pos st' (pos + 1 + 1))
          end
      else if String.eqb a "random-parsing" then
        parse_loop fuel' args kw
          (at_pos (with_conf st (set_rand_parsing (ps_conf st))) (pos + 1))
      else if String.eqb a "random-forwarding" then
        parse_loop fuel' args kw
          (at_pos (with_conf st (set_rand_forwarding (ps_conf st))) (pos + 1))
      else if String.eqb a "hexdump" then
        parse_loop fuel' args kw
          (at_pos (with_conf st (set_hexdump (ps_conf st))) (pos + 1))
      else (None, st)
  end.

(** [parse_trace_flt(args, cur_arg, px, fconf, err, private)]. *)
Definition parse_trace_flt (args : list string) (cur_arg : nat) (px : string)
    (fconf : flt_conf) (h : heap) : presult :=
  let kw := arg args cur_arg in
  match alloc h with
  | (None, h1) =>
      {| pr_ret := -1; pr_err := Some (kw ++ ": out of memory");
         pr_cur_arg := cur_arg; pr_fconf := fconf; pr_heap := h1 |}
  | (Some pc, h1) =>
      let conf := set_proxy zeroed_config px in
      if String.eqb (arg args cur_arg) "trace" then
        let st := {| ps_pos := cur_arg + 1; ps_conf := conf;
                     ps_name := None; ps_heap := h1 |} in
        match parse_loop (S (List.length args)) args kw st with
        | (Some msg, st') =>
            let h2 := match ps_name st' with
                      | Some pn => free pn (ps_heap st')
                      | None => ps_heap st'
                      end in
            {| pr_ret := -1; pr_err := Some msg; pr_cur_arg := cur_arg;
               pr_fconf := fconf; pr_heap := free pc h2 |}
        | (None, st') =>
            {| pr_ret := 0; pr_err := None; pr_cur_arg := ps_pos st';
               pr_fconf := {| fc_id := Some trace_flt_id;
                              fc_ops := Some "trace_ops";
                              fc_conf := Some (pc, ps_conf st') |};
               pr_heap := ps_heap st' |}
        end
      else
        {| pr_ret := 0; pr_err := None; pr_cur_arg := cur_arg;
           pr_fconf := {| fc_id := fc_id fconf; fc_ops := fc_ops fconf;
                          fc_conf := Some (pc, conf) |};
           pr_heap := h1 |}
  end.

End Parser.

(** The three flags of the keyword, and what each one sets. *)
Definition is_flag (tok : string) : bool :=
  String.eqb tok "random-parsing" || String.eqb tok "random-forwarding"
  || String.eqb tok "hexdump".

Definition apply_flag (c : trace_config) (tok : string) : trace_config :=
  if String.eqb tok "random-parsing" then set_rand_parsing c
  else if String.eqb tok "random-forwarding" then set_rand_forwarding c
  else if String.eqb tok "hexdump" then set_hexdump c
  else c.

(** The blocks alive were handed out before. *)
Definition heap_wf (h : heap) : Prop :=
  forall p, In p (hp_live h) -> (p < hp_next h)%nat.

(* ===================================================================== *)
(** * The layout of a dump, row by row *)
(* ===================================================================== *)

Fixpoint concat_str (l : list string) : string :=
  match l with
  | [] => ""
  | x :: l' => x ++ concat_str l'
  end.

Fixpoint blanks (n : nat) : string :=
  match n with
  | O => ""
  | S n' => "   " ++ blanks n'
  end.

(** Eight cells: a byte as two hex digits and a space, a missing byte as a
    blank cell. *)
Definition half_row (bs : list byte) : string :=
  concat_str (map fmt_byte bs) ++ blanks (8 - List.length bs).

(** The ASCII column: the bytes present, the printable ones as they are and
    the others as a dot. *)
Definition ascii_column (bs : list byte) : string :=
  string_of_list_ascii (map fmt_char bs).

(** A row of at most sixteen bytes that starts at the offset [base]: the
    offset, eight cells, two more spaces, eight cells, the ASCII column. *)
Definition dump_row (base : Z) (chunk : list byte) : string :=
  String TAB ("0x" ++ fmt_0x 6 base ++ ": ")
  ++ half_row (firstn 8 chunk) ++ "  " ++ half_row (skipn 8 chunk)
  ++ "  |" ++ ascii_column chunk ++ String "|" (String NL "").

(** The bytes cut in rows of sixteen, each with its offset; the last row
    may be short. *)
Fixpoint rows_of (fuel : nat) (base : Z) (s : list byte)
  : list (Z * list byte) :=
  match fuel with
  | O => []
  | S fuel' =>
      match s with
      | [] => []
      | _ => (base, firstn 16 s) :: rows_of fuel' (base + 16) (skipn 16 s)
      end
  end.

(** The text of [n] iterations from [i] on, and a cell of the hex part: a
    byte, or a blank cell past the end. *)
Fixpoint cat_range (n : nat) (body : Z -> string) (i : Z) : string :=
  match n with
  | O => ""
  | S n' => body i ++ cat_range n' body (i + 1)
  end.

Definition hexdump_cell (s : ist) (i : Z) : string :=
  if i <? ist_len s then fmt_byte (ist_at s i) else "   ".

(* ===================================================================== *)
(** * The calls the host makes *)
(* ===================================================================== *)

(** The window [out, out + len) of a buffer lies in the bytes present and
    starts before the physical end of the area. *)
Definition window_ok (b : buffer) (out len : Z) : Prop :=
  buffer_wf b /\ 0 <= out /\ 0 <= len /\ out + len <= b_data b /\
  b_head b + out < b_size b.

(** A forwarding call for [len] bytes: [len] is a count of bytes that an
    [int] holds, and when dumps are asked for, the bytes to forward are in
    the buffer behind the [output] and the forwarded ones. *)
Definition forward_call_ok (f : filter) (c : channel) (len : Z) : Prop :=
  0 <= len <= INT_MAX /\
  (hexdump (FLT_CONF f) = true ->
   0 <= chn_output c /\ 0 <= FLT_FWD f c /\
   window_ok (chn_buf c) (chn_output c + FLT_FWD f c) len).


(** The spec's [decideConsume]: the whole count, or the reduced draw when
    the flag is set and the count is not zero. *)
Definition decideConsume (available : Z) (randomize : bool) (r : Z)
  : option Z :=
  if negb (available =? 0) && randomize then rand_mod r available
  else Some available.

(** The wake-ups after a call that makes one when [b] holds. *)
Definition woken (b : bool) (n : nat) : nat := if b then S n else n.

(** The channel after [c_adv(chn, adv)] and then [c_rew(chn, adv)]. *)
Definition rewound (c : channel) (adv : Z) : channel :=
  {| chn_buf := chn_buf c;
     chn_output := to_size (to_size (chn_output c + adv) - adv);
     chn_isresp := chn_isresp c |}.

(** A count the hooks can draw below: it fits in an [int], and leaves room
    for the [+ 1] of the draw when a draw is made. *)
Definition count_ok (randomize : bool) (n : Z) : Prop :=
  0 <= n <= INT_MAX /\ (randomize = true -> n < INT_MAX).

(** What a call may change: it appends to the diagnostic stream and wakes
    the task up at most once; the channel, with its buffer and its offsets,
    is as before. *)
Definition only_traced (w w' : world) : Prop :=
  w_chn w' = w_chn w /\
  (exists printed, w_diag w' = (w_diag w ++ printed)%list) /\
  (w_wakeups w' = w_wakeups w \/ w_wakeups w' = S (w_wakeups w)).

(** The dumps among what was printed. *)
Fixpoint dumps (l : list diag) : list string :=
  match l with
  | [] => []
  | Dump text :: l' => text :: dumps l'
  | Line _ _ _ _ _ :: l' => dumps l'
  end.

(* ===================================================================== *)
(** * Sample data *)
(* ===================================================================== *)

Definition bytes (s : string) : list byte := list_byte_of_string s.

(** A header block ["h: v"]: its size counts the name and the value. *)
Definition sample_header : htx_blk :=
  {| htx_get_blk_type := HTX_BLK_HDR; htx_get_blksz := 2;
     htx_get_blk_value := bytes "v" |}.

Definition sample_eom : htx_blk :=
  {| htx_get_blk_type := HTX_BLK_EOM; htx_get_blksz := 1;
     htx_get_blk_value := [] |}.

(** The message of the spec's example: a header, the payload ["abc"] and
    ["defgh"], the end of the message. *)
Definition sample_htx : htx :=
  [sample_header; data_blk (bytes "abc"); data_blk (bytes "defgh"); sample_eom].

(** A buffer of eight bytes, full, that starts at its origin. *)
Definition sample_buffer : buffer :=
  {| b_size := 8; b_area := bytes "ABCDEFGH"; b_head := 0; b_data := 8;
     b_htx := sample_htx |}.

(** A request channel with two bytes scheduled for output. *)
Definition sample_channel : channel :=
  {| chn_buf := sample_buffer; chn_output := 2; chn_isresp := false |}.

Definition sample_world : world :=
  {| w_chn := sample_channel; w_diag := []; w_wakeups := 0 |}.

Definition sample_stream : stream :=
  {| strm_be_assigned := false; strm_http := true; strm_htx := true |}.

Definition sample_config (parsing forwarding dump : bool) : trace_config :=
  {| conf_proxy := "fe"; conf_name := Some "demo/fe";
     rand_parsing := parsing; rand_forwarding := forwarding;
     hexdump := dump |}.

(** A filter that has inspected three bytes of the request and forwarded
    none. *)
Definition sample_filter (parsing forwarding dump : bool) : filter :=
  {| FLT_CONF := sample_config parsing forwarding dump;
     flt_next := (3, 0); flt_fwd := (0, 0) |}.

Definition sample_msg : http_msg := {| chunk_len := 6; msg_next := 0 |}.

(** A message whose chunk ends at the offset one, behind what the sample
    filter has inspected. *)
Definition stale_msg : http_msg := {| chunk_len := 0; msg_next := 1 |}.


(** A wrapped buffer: eight bytes from the offset six on. *)
Definition wrapped_buffer : buffer :=
  {| b_size := 8; b_area := bytes "cdefghab"; b_head := 6; b_data := 8;
     b_htx := [] |}.

(** What the caller of the parser starts from: nothing in [fconf], nothing
    on the heap. *)
Definition empty_fconf : flt_conf :=
  {| fc_id := None; fc_ops := None; fc_conf := None |}.

Definition empty_heap : heap := {| hp_next := 0; hp_live := [] |}.

(** Memory that never runs out. *)
Definition plenty : nat -> bool := fun _ => true.

(* ===================================================================== *)
(** * What a call prints *)
(* ===================================================================== *)

Definition is_line (d : diag) : bool :=
  match d with
  | Line _ _ _ _ _ => true
  | Dump _ => false
  end.

(** What a call has appended to the diagnostic stream: one line of
    [STRM_TRACE], then the dumps listed. *)
Definition printed (w w' : world) (texts : list string) : Prop :=
  exists line,
    is_line line = true /\
    w_diag w' = (w_diag w ++ line :: map Dump texts)%list.

(* ===================================================================== *)
(** * Measures of a structured message *)
(* ===================================================================== *)

(** The bytes of the payload blocks at the head of the message, up to the
    first block that is no payload. *)
Fixpoint leading_payload (h : htx) : Z :=
  match h with
  | [] => 0
  | blk :: rest =>
      if is_data (htx_get_blk_type blk)
      then htx_get_blksz blk + leading_payload rest
      else 0
  end.

(** The sizes of all the blocks, and the values of all the blocks one
    after the other. *)
Definition htx_size (h : htx) : Z :=
  fold_right (fun blk acc => htx_get_blksz blk + acc) 0 h.

Definition htx_body (h : htx) : list byte :=
  List.concat (map htx_get_blk_value h).

(** A message made of payload blocks only. *)
Definition all_data (h : htx) : Prop :=
  Forall (fun blk => htx_get_blk_type blk = HTX_BLK_DATA) h.

(* ===================================================================== *)
(** * The options of the [trace] keyword *)
(* ===================================================================== *)

(** An option as the loop of [parse_trace_flt] takes it: [name] with its
    value, or one of the flags. *)
Inductive trace_opt :=
| opt_name (v : string)
| opt_flag (tok : string).

(** The arguments that an option takes on the line. *)
Definition opt_tokens (o : trace_opt) : list string :=
  match o with
  | opt_name v => ["name"; v]
  | opt_flag tok => [tok]
  end.

(** The value of [name] is not empty, and a flag is one of the three. *)
Definition opt_ok (o : trace_opt) : bool :=
  match o with
  | opt_name v => negb (String.eqb v "")
  | opt_flag tok => is_flag tok
  end.

Definition apply_opt (c : trace_config) (o : trace_opt) : trace_config :=
  match o with
  | opt_name v => set_name c (Some v)
  | opt_flag tok => apply_flag c tok
  end.

(** How many times [name] is given. *)
Fixpoint names (opts : list trace_opt) : nat :=
  match opts with
  | [] => 0
  | opt_name _ :: rest => S (names rest)
  | opt_flag _ :: rest => names rest
  end.

(** The words that the loop goes on at. *)
Definition is_keyword (tok : string) : bool :=
  String.eqb tok "name" || is_flag tok.

(** The [n] blocks handed out from the heap [h] on, the last one first. *)
Definition blocks_from (h : heap) (n : nat) : list nat :=
  rev (seq (hp_next h) n).

(* ===================================================================== *)
(** * Reading a dump back *)
(* ===================================================================== *)

(** The reader below is no part of the source: it reads the bytes back
    from the hex part of the text that [trace_hexdump] writes, and serves to
    show that the text holds them all. *)

(** The value of a hex digit in lower case. *)
Definition unhex (a : ascii) : option N :=
  let n := N_of_ascii a in
  if ((48 <=? n) && (n <=? 57))%N then Some (n - 48)%N
  else if ((97 <=? n) && (n <=? 102))%N then Some (n - 87)%N
  else None.

(** A cell of three characters: the byte it shows, if it shows one. *)
Definition read_cell (s : string) : option byte * string :=
  match s with
  | String a (String b (String _ s')) =>
      (match unhex a, unhex b with
       | Some h, Some l => Byte.of_N (16 * h + l)
       | _, _ => None
       end, s')
  | _ => (None, "")
  end.

Fixpoint read_cells (n : nat) (s : string) : list byte * string :=
  match n with
  | O => ([], s)
  | S n' =>
      let (c, s1) := read_cell s in
      let (bs, s2) := read_cells n' s1 in
      (match c with Some b => b :: bs | None => bs end, s2)
  end.

(** The text behind the first [c], and the text without its first [n]
    characters. *)
Fixpoint skip_to (c : ascii) (s : string) : string :=
  match s with
  | "" => ""
  | String a s' => if Ascii.eqb a c then s' else skip_to c s'
  end.

Fixpoint skip (n : nat) (s : string) : string :=
  match n, s with
  | S n', String _ s' => skip n' s'
  | _, _ => s
  end.

Fixpoint lacks (c : ascii) (s : string) : bool :=
  match s with
  | "" => true
  | String a s' => negb (Ascii.eqb a c) && lacks c s'
  end.

(** A row: behind the colon of the offset and a space, eight cells, two
    spaces, eight cells; the rest of the row up to the end of the line is
    passed over. *)
Definition undump_row (text : string) : list byte * string :=
  let (l, s1) := read_cells 8 (skip 1 (skip_to ":" text)) in
  let (r, s2) := read_cells 8 (skip 2 s1) in
  ((l ++ r)%list, skip_to NL s2).

Fixpoint undump (fuel : nat) (text : string) : list byte :=
  match fuel with
  | O => []
  | S fuel' =>
      match text with
      | "" => []
      | String _ _ =>
          let (row, rest) := undump_row text in
          (row ++ undump fuel' rest)%list
      end
  end.

(* ===================================================================== *)
(** * The layout of a dump, in the words of the specification *)
(* ===================================================================== *)

(** The definitions of this section are not translated from the source:
    they say what a dump looks like, and [trace_hexdump] is compared with
    them. *)

(** The sixteen hex digits, in lower case. *)
Definition hex_chars : string := "0123456789abcdef".

Definition digit_char (d : N) : ascii :=
  match String.get (N.to_nat d) hex_chars with
  | Some c => c
  | None => "?"%char
  end.

(** The last [k] hex digits of [n], the most significant first. *)
Fixpoint hex_fixed (k : nat) (n : N) : string :=
  match k with
  | O => ""
  | S k' => hex_fixed k' (n / 16) ++ String (digit_char (n mod 16)) ""
  end.

(** A cell: the two hex digits of the byte and a space. *)
Definition layout_cell (b : byte) : string :=
  hex_fixed 2 (Byte.to_N b) ++ " ".

(** A byte is printable when it lies between the space and the tilde. *)
Definition printable (b : byte) : bool :=
  ((N_of_ascii " " <=? Byte.to_N b) && (Byte.to_N b <=? N_of_ascii "~"))%N.

(** A printable byte as it is, another one as a dot. *)
Definition layout_char (b : byte) : ascii :=
  if printable b then ascii_of_byte b else "."%char.

(** Eight cells: the bytes present, then blank cells of three spaces. *)
Definition layout_cells (bs : list byte) : string :=
  concat_str (map layout_cell bs)
  ++ concat_str (repeat "   " (8 - List.length bs)).

(** A row of at most sixteen bytes whose first byte has the offset [base],
    with [gap] between the eighth cell and the ninth: a tab, the offset
    as [0x] and six hex digits, a colon and a space; eight cells, the gap,
    eight cells; two spaces and the ASCII column of the bytes present
    between two bars; the end of the line. *)
Definition layout_row_with (gap : string) (base : Z) (chunk : list byte)
  : string :=
  String TAB ("0x" ++ hex_fixed 6 (Z.to_N base) ++ ": ")
  ++ layout_cells (firstn 8 chunk) ++ gap ++ layout_cells (skipn 8 chunk)
  ++ "  |" ++ string_of_list_ascii (map layout_char chunk)
  ++ String "|" (String NL "").

(** The bytes in rows of sixteen, the last of which may be short. *)
Definition layout_with (gap : string) (s : list byte) : string :=
  concat_str (map (fun row => layout_row_with gap (fst row) (snd row))
                  (rows_of (List.length s) 0 s)).

(** The layout of the source, with two more spaces before the ninth
    byte, and the layout with the one more space of the specification. *)
Definition layout_spec (s : list byte) : string := layout_with "  " s.

Definition layout_one_space (s : list byte) : string := layout_with " " s.

(* ===================================================================== *)
(** * More sample data *)
(* ===================================================================== *)

(** The sample channel with another message in its buffer. *)
Definition world_of (h : htx) : world :=
  {| w_chn := {| chn_buf := {| b_size := 8; b_area := bytes "ABCDEFGH";
                               b_head := 0; b_data := 8; b_htx := h |};
                 chn_output := 2; chn_isresp := false |};
     w_diag := []; w_wakeups := 0 |}.

(** A message that begins with its payload: ["abc"], ["defgh"] and the
    end of the message. *)
Definition payload_htx : htx :=
  [data_blk (bytes "abc"); data_blk (bytes "defgh"); sample_eom].


(* ===================================================================== *)
(** * Facts on machine integers *)
(* ===================================================================== *)

Lemma to_uint_small x : 0 <= x < UINT_MOD -> to_uint x = x.
Proof. intros H. unfold to_uint. apply Z.mod_small. exact H. Qed.

Lemma to_uint_range x : 0 <= to_uint x < UINT_MOD.
Proof. unfold to_uint, UINT_MOD. apply Z.mod_pos_bound. lia. Qed.

Lemma to_size_small x : 0 <= x < SIZE_MOD -> to_size x = x.
Proof. intros H. unfold to_size. apply Z.mod_small. exact H. Qed.

Lemma to_int_small x : 0 <= x <= INT_MAX -> to_int x = x.
Proof.
  intros H. unfold to_int. rewrite to_uint_small.
  - destruct (Z.leb_spec x INT_MAX); lia.
  - unfold INT_MAX, UINT_MOD in *. lia.
Qed.

Lemma to_int_range x : INT_MIN <= to_int x <= INT_MAX.
Proof.
  unfold to_int. pose proof (to_uint_range x) as H.
  unfold INT_MIN, INT_MAX, UINT_MOD in *.
  destruct (Z.leb_spec (to_uint x) 2147483647); lia.
Qed.

(** Reading an [int] back as an [unsigned int] gives the value it was
    made from. *)
Lemma to_uint_to_int x : to_uint (to_int x) = to_uint x.
Proof.
  unfold to_int. pose proof (to_uint_range x) as H.
  destruct (Z.leb_spec (to_uint x) INT_MAX).
  - apply to_uint_small. exact H.
  - unfold to_uint at 1. unfold UINT_MOD in *.
    replace (to_uint x - 4294967296) with (to_uint x + (-1) * 4294967296) by lia.
    rewrite Z.mod_add by lia. apply Z.mod_small. exact H.
Qed.

Lemma to_uint_to_size x : to_uint (to_size x) = to_uint x.
Proof.
  unfold to_uint, to_size, UINT_MOD, SIZE_MOD.
  apply Z.mod_mod_divide. exists 4294967296. reflexivity.
Qed.

Lemma to_int_to_size x : to_int (to_size x) = to_int x.
Proof. unfold to_int. rewrite to_uint_to_size. reflexivity. Qed.

(** The draw, reduced: defined and within [0, a] for a positive count
    below [INT_MAX]. *)
Lemma rand_mod_bounds r a :
  0 <= r <= RAND_MAX -> 0 < a < INT_MAX ->
  exists d, rand_mod r a = Some d /\ d = Z.rem r (a + 1) /\ 0 <= d <= a.
Proof.
  intros Hr Ha. unfold rand_mod.
  destruct (Z.eqb_spec a INT_MAX) as [E|_]; [lia|].
  destruct (Z.eqb_spec (a + 1) 0) as [E|_]; [lia|].
  assert (Hb : 0 <= Z.rem r (a + 1) < a + 1) by (apply Z.rem_bound_pos; lia).
  exists (Z.rem r (a + 1)). split; [|split; [reflexivity|lia]].
  f_equal. apply to_int_small. unfold INT_MAX in *. lia.
Qed.

(* ===================================================================== *)
(** * Running a hook *)
(* ===================================================================== *)

Lemma channel_eta c :
  {| chn_buf := chn_buf c; chn_output := chn_output c;
     chn_isresp := chn_isresp c |} = c.
Proof. destruct c; reflexivity. Qed.

Lemma c_adv_c_rew_output o adv :
  0 <= o < SIZE_MOD -> to_size (to_size (o + adv) - adv) = o.
Proof.
  intros H. unfold to_size.
  rewrite Zminus_mod_idemp_l.
  replace (o + adv - adv) with o by lia.
  apply Z.mod_small. exact H.
Qed.

(** A dump of a window that is in the buffer reads inside the storage
    area, for the whole window and for every shorter one. *)
Lemma trace_raw_hexdump_defined b out len n :
  window_ok b out len -> 0 <= n <= len ->
  exists text, trace_raw_hexdump b n out = Some text.
Proof.
  intros (Hwf & Hout & Hlen & Hin & Hstart) Hn.
  destruct Hwf as (Harea & Hhead & Hdata & Hsize).
  unfold trace_raw_hexdump.
  destruct (Z.ltb_spec n 0) as [?|_]; [lia|].
  unfold INT_MAX in *.
  assert (Hso : to_size out = out) by (apply to_size_small; unfold SIZE_MOD; lia).
  assert (Hsn : to_size n = n) by (apply to_size_small; unfold SIZE_MOD; lia).
  rewrite Hso, Hsn.
  assert (Hc : 0 <= b_contig_data b out <= b_size b - b_head b - out /\
               (b_contig_data b out < n -> n - b_contig_data b out <= b_size b)).
  { unfold b_contig_data, b_peek, b_wrap.
    destruct (Z.geb_spec (b_head b + out) (b_size b)) as [?|_]; [lia|].
    rewrite (to_size_small (b_size b - (b_head b + out)))
      by (unfold SIZE_MOD; lia).
    rewrite (to_size_small (b_data b - out)) by (unfold SIZE_MOD; lia).
    destruct (Z.gtb_spec (b_size b - (b_head b + out)) (b_data b - out)); lia. }
  destruct Hc as (Hc1 & Hc2).
  set (block1 := if n >? b_contig_data b out
                 then to_int (b_contig_data b out) else n).
  assert (Hb1 : 0 <= block1 <= n /\ block1 <= b_size b - b_head b - out /\
                n - block1 <= b_size b).
  { subst block1. destruct (Z.gtb_spec n (b_contig_data b out)).
    - rewrite to_int_small by (unfold INT_MAX; lia). lia.
    - lia. }
  destruct Hb1 as (Hb1 & Hb2 & Hb3).
  rewrite (to_int_small (n - block1)) by (unfold INT_MAX; lia).
  rewrite (to_size_small block1) by (unfold SIZE_MOD; lia).
  rewrite (to_size_small (n - block1)) by (unfold SIZE_MOD; lia).
  unfold memcpy, b_orig.
  destruct (Z.leb_spec 0 (b_head b)); [|lia].
  destruct (Z.leb_spec 0 block1); [|lia].
  destruct (Z.leb_spec (b_head b + block1) (Z.of_nat (List.length (b_area b))));
    [|lia].
  destruct (Z.leb_spec 0 (n - block1)); [|lia].
  destruct (Z.leb_spec (0 + (n - block1)) (Z.of_nat (List.length (b_area b))));
    [|lia].
  simpl. eexists. reflexivity.
Qed.

Ltac run_hook :=
  unfold bind, ret, lift, when, STRM_TRACE, emit, get_chn, put_chn,
    task_wakeup, c_adv, c_rew, woken; simpl.

(** What [trace_tcp_data] does, given the count it settles on. *)
Lemma trace_tcp_data_run s f r w :
  let avail := tcp_data_avail f (w_chn w) in
  trace_tcp_data s f r w =
  match decideConsume avail (rand_parsing (FLT_CONF f)) r with
  | None => None
  | Some d =>
      Some (d, {| w_chn := w_chn w;
                  w_diag := (w_diag w ++
                    [Line "trace_tcp_data" (channel_label (w_chn w))
                       (proxy_mode s) (stream_pos s)
                       [("next", FLT_NXT f (w_chn w));
                        ("avail", to_uint avail); ("consume", d)]])%list;
                  w_wakeups := woken (negb (d =? avail)) (w_wakeups w) |})
  end.
Proof.
  intros avail. subst avail. unfold trace_tcp_data, decideConsume. run_hook.
  destruct (negb _ && _); simpl.
  - destruct (rand_mod _ _) as [d|]; [|reflexivity].
    destruct (negb (d =? _)); reflexivity.
  - destruct (negb (_ =? _)); reflexivity.
Qed.

(** What [trace_http_data] does, given the count it settles on. *)
Lemma trace_http_data_run s f msg r w :
  let avail := http_data_avail f msg (w_chn w) in
  trace_http_data s f msg r w =
  match decideConsume avail (rand_parsing (FLT_CONF f)) r with
  | None => None
  | Some d =>
      Some (d, {| w_chn := w_chn w;
                  w_diag := (w_diag w ++
                    [Line "trace_http_data" (channel_label (w_chn w))
                       (proxy_mode s) (stream_pos s)
                       [("chunk_len", chunk_len msg);
                        ("next", FLT_NXT f (w_chn w));
                        ("fwd", FLT_FWD f (w_chn w));
                        ("avail", avail); ("consume", d)]])%list;
                  w_wakeups := woken (negb (d =? avail)) (w_wakeups w) |})
  end.
Proof.
  intros avail. subst avail. unfold trace_http_data, decideConsume. run_hook.
  destruct (negb _ && _); simpl.
  - destruct (rand_mod _ _) as [d|]; [|reflexivity].
    destruct (negb (d =? _)); reflexivity.
  - destruct (negb (_ =? _)); reflexivity.
Qed.

(** The count [trace_http_payload] returns for the draw: the reduced draw,
    or the whole length when the reduced draw is above [data]. *)
Lemma trace_http_payload_run s f offset len r w :
  let conf := FLT_CONF f in
  let h := htxbuf (chn_buf (w_chn w)) in
  trace_http_payload s f offset len r w =
  match (if negb (to_int len =? 0) && rand_forwarding conf
         then match rand_mod r (to_int len) with
              | None => None
              | Some d =>
                  Some (if to_uint d >? payload_data h offset 0 len
                        then to_int len else d)
              end
         else Some (to_int len)) with
  | None => None
  | Some d =>
      Some (d, {| w_chn := w_chn w;
                  w_diag := (w_diag w ++
                    Line "trace_http_payload" (channel_label (w_chn w))
                      (proxy_mode s) (stream_pos s)
                      [("offset", offset); ("len", len); ("forward", d)]
                    :: (if hexdump conf
                        then [Dump (trace_htx_hexdump h offset len)]
                        else []))%list;
                  w_wakeups := woken (negb (to_uint d =? len)) (w_wakeups w) |})
  end.
Proof.
  intros conf h. subst conf h. unfold trace_http_payload. run_hook.
  destruct (negb _ && _); simpl.
  - destruct (rand_mod _ _) as [d|]; [|reflexivity].
    destruct (hexdump _); simpl;
      destruct (negb (to_uint _ =? len)); simpl;
      rewrite <- ?app_assoc; reflexivity.
  - destruct (hexdump _); simpl;
      destruct (negb (to_uint _ =? len)); simpl;
      rewrite <- ?app_assoc; reflexivity.
Qed.

(** What [trace_tcp_forward_data] does: the count it settles on, the line,
    and with dumps on the advance, the dump and the rewind. *)
Lemma trace_tcp_forward_data_run s f len r w :
  let c := w_chn w in
  trace_tcp_forward_data s f len r w =
  match decideConsume (to_int len) (rand_forwarding (FLT_CONF f)) r with
  | None => None
  | Some d =>
      let line := Line "trace_tcp_forward_data" (channel_label c)
                    (proxy_mode s) (stream_pos s)
                    [("len", len); ("fwd", FLT_FWD f c); ("forward", d)] in
      let n := woken (negb (to_uint d =? len)) (w_wakeups w) in
      if hexdump (FLT_CONF f) then
        match trace_raw_hexdump (chn_buf c) d
                (to_int (to_size (chn_output c + FLT_FWD f c))) with
        | None => None
        | Some text =>
            Some (d, {| w_chn := rewound c (FLT_FWD f c);
                        w_diag := (w_diag w ++ [line; Dump text])%list;
                        w_wakeups := n |})
        end
      else Some (d, {| w_chn := c; w_diag := (w_diag w ++ [line])%list;
                       w_wakeups := n |})
  end.
Proof.
  intros c. subst c. unfold trace_tcp_forward_data, decideConsume, rewound.
  run_hook. unfold co_data, FLT_FWD. simpl.
  destruct (negb _ && _); simpl.
  - destruct (rand_mod _ _) as [d|]; [|reflexivity].
    destruct (hexdump _); simpl.
    + destruct (trace_raw_hexdump _ _ _); [|reflexivity]. simpl.
      rewrite <- app_assoc. simpl.
      destruct (negb (to_uint _ =? len)); reflexivity.
    + destruct (negb (to_uint _ =? len)); reflexivity.
  - destruct (hexdump _); simpl.
    + destruct (trace_raw_hexdump _ _ _); [|reflexivity]. simpl.
      rewrite <- app_assoc. simpl.
      destruct (negb (to_uint _ =? len)); reflexivity.
    + destruct (negb (to_uint _ =? len)); reflexivity.
Qed.

(** What [trace_http_forward_data] does. *)
Lemma trace_http_forward_data_run s f len r w :
  let c := w_chn w in
  trace_http_forward_data s f len r w =
  match decideConsume (to_int len) (rand_forwarding (FLT_CONF f)) r with
  | None => None
  | Some d =>
      let line := Line "trace_http_forward_data" (channel_label c)
                    (proxy_mode s) (stream_pos s)
                    [("len", len); ("nxt", FLT_NXT f c);
                     ("fwd", FLT_FWD f c); ("forward", d)] in
      let n := woken (negb (to_uint d =? len)
                      || negb (FLT_NXT f c =? to_uint (FLT_FWD f c + d)))
                 (w_wakeups w) in
      if hexdump (FLT_CONF f) then
        match trace_raw_hexdump (chn_buf c) d
                (to_int (to_size (chn_output c + FLT_FWD f c))) with
        | None => None
        | Some text =>
            Some (d, {| w_chn := rewound c (FLT_FWD f c);
                        w_diag := (w_diag w ++ [line; Dump text])%list;
                        w_wakeups := n |})
        end
      else Some (d, {| w_chn := c; w_diag := (w_diag w ++ [line])%list;
                       w_wakeups := n |})
  end.
Proof.
  intros c. subst c. unfold trace_http_forward_data, decideConsume, rewound.
  run_hook. unfold co_data, FLT_FWD, FLT_NXT. simpl.
  destruct (negb _ && _); simpl.
  - destruct (rand_mod _ _) as [d|]; [|reflexivity].
    destruct (hexdump _); simpl.
    + destruct (trace_raw_hexdump _ _ _); [|reflexivity]. simpl.
      rewrite <- app_assoc. simpl.
      destruct (negb (to_uint _ =? len) || _); reflexivity.
    + destruct (negb (to_uint _ =? len) || _); reflexivity.
  - destruct (hexdump _); simpl.
    + destruct (trace_raw_hexdump _ _ _); [|reflexivity]. simpl.
      rewrite <- app_assoc. simpl.
      destruct (negb (to_uint _ =? len) || _); reflexivity.
    + destruct (negb (to_uint _ =? len) || _); reflexivity.
Qed.

(** The advance before a dump and the rewind after it cancel out. *)
Lemma rewound_id c adv :
  0 <= chn_output c < SIZE_MOD -> rewound c adv = c.
Proof.
  intros H. unfold rewound. rewrite c_adv_c_rew_output by exact H.
  apply channel_eta.
Qed.

(** The dump of a forwarding call that is in order is defined, for every
    count up to the length asked for. *)
Lemma forward_dump_defined f c len d :
  forward_call_ok f c len -> hexdump (FLT_CONF f) = true -> 0 <= d <= len ->
  exists text,
    trace_raw_hexdump (chn_buf c) d
      (to_int (to_size (chn_output c + FLT_FWD f c))) = Some text.
Proof.
  intros (Hlen & Hdump) Hx Hd.
  destruct (Hdump Hx) as (Ho & Hf & Hwin).
  pose proof Hwin as ((Harea & Hhead & Hdata & Hsize) & Hout & _ & Hin & _).
  rewrite to_size_small by (unfold SIZE_MOD, INT_MAX in *; lia).
  rewrite to_int_small by (unfold INT_MAX in *; lia).
  exact (trace_raw_hexdump_defined _ _ _ d Hwin Hd).
Qed.

(** The whole count when no draw is made. *)
Lemma decideConsume_off available r :
  decideConsume available false r = Some available.
Proof.
  unfold decideConsume. rewrite andb_false_r. reflexivity.
Qed.

(** A count within [0, available] when a draw is made or not. *)
Lemma decideConsume_bounds available randomize r :
  0 <= r <= RAND_MAX -> count_ok randomize available ->
  exists d, decideConsume available randomize r = Some d /\ 0 <= d <= available.
Proof.
  intros Hr (Ha & Hmax). unfold decideConsume.
  destruct (Z.eqb_spec available 0) as [->|Hne]; simpl.
  - exists 0. split; [reflexivity|lia].
  - destruct randomize.
    + destruct (rand_mod_bounds r available Hr) as (d & Hd & _ & Hb).
      { specialize (Hmax eq_refl). lia. }
      exists d. split; [exact Hd|exact Hb].
    + exists available. split; [reflexivity|lia].
Qed.

(** An [int] below a length that an [int] holds differs from it when both
    are compared as [unsigned int]s, as the hooks compare them. *)
Lemma short_as_unsigned d len :
  INT_MIN <= d <= INT_MAX -> 0 <= len <= INT_MAX -> d < len ->
  (to_uint d =? len) = false.
Proof.
  intros Hd Hlen Hlt. apply Z.eqb_neq. unfold to_uint, INT_MIN, INT_MAX, UINT_MOD in *.
  destruct (Z_lt_le_dec d 0).
  - replace d with (d + 4294967296 + (-1) * 4294967296) by lia.
    rewrite Z.mod_add by lia. rewrite Z.mod_small by lia. lia.
  - rewrite Z.mod_small by lia. lia.
Qed.

Lemma count_ok_to_int randomize len :
  count_ok randomize len -> to_int len = len.
Proof. intros (H & _). apply to_int_small. exact H. Qed.

(** The count [trace_http_payload] settles on lies within [0, len]. *)
Lemma payload_count_bounds h offset len randomize r :
  0 <= r <= RAND_MAX -> count_ok randomize len ->
  exists d,
    (if negb (to_int len =? 0) && randomize
     then match rand_mod r (to_int len) with
          | None => None
          | Some d =>
              Some (if to_uint d >? payload_data h offset 0 len
                    then to_int len else d)
          end
     else Some (to_int len)) = Some d /\ 0 <= d <= len.
Proof.
  intros Hr Hok. rewrite (count_ok_to_int _ _ Hok).
  destruct (decideConsume_bounds len randomize r Hr Hok) as (d & Hd & Hb).
  unfold decideConsume in Hd. destruct Hok as (Hlen & _).
  destruct (negb (len =? 0) && randomize).
  - rewrite Hd. eexists. split; [reflexivity|].
    destruct (to_uint d >? payload_data h offset 0 len); lia.
  - injection Hd as <-. exists len. split; [reflexivity|lia].
Qed.

(* ===================================================================== *)
(** * The counts the hooks return *)
(* ===================================================================== *)

(** C1.  Without randomisation every data hook returns the whole count:
    [trace_http_data] and [trace_tcp_data] return [avail] when
    [rand_parsing] is off; [trace_http_payload], [trace_http_forward_data]
    and [trace_tcp_forward_data] return [len], converted to [int] as the
    source does, when [rand_forwarding] is off.  The converted value reads
    back as [len], and is [len] itself when [len] fits in an [int]. *)
Theorem full_count_without_randomization s f msg offset len r w :
  0 <= len < UINT_MOD ->
  (rand_parsing (FLT_CONF f) = false ->
   (exists w', trace_http_data s f msg r w
               = Some (http_data_avail f msg (w_chn w), w')) /\
   (exists w', trace_tcp_data s f r w
               = Some (tcp_data_avail f (w_chn w), w')))
  /\
  (rand_forwarding (FLT_CONF f) = false ->
   (to_uint (to_int len) = len /\ (len <= INT_MAX -> to_int len = len)) /\
   (exists w', trace_http_payload s f offset len r w = Some (to_int len, w')) /\
   (forward_call_ok f (w_chn w) len ->
    (exists w', trace_http_forward_data s f len r w = Some (len, w')) /\
    (exists w', trace_tcp_forward_data s f len r w = Some (len, w'))) /\
   (forall d w', trace_http_forward_data s f len r w = Some (d, w') ->
                 d = to_int len) /\
   (forall d w', trace_tcp_forward_data s f len r w = Some (d, w') ->
                 d = to_int len)).
Proof.
  intros Hlen. split.
  - intros Hoff. split.
    + rewrite trace_http_data_run, Hoff, decideConsume_off. eexists. reflexivity.
    + rewrite trace_tcp_data_run, Hoff, decideConsume_off. eexists. reflexivity.
  - intros Hoff. split; [|split; [|split; [|split]]].
    + split.
      * rewrite to_uint_to_int. apply to_uint_small. exact Hlen.
      * intros Hmax. apply to_int_small. lia.
    + rewrite trace_http_payload_run, Hoff, andb_false_r. eexists. reflexivity.
    + intros Hcall. pose proof Hcall as (Hl & _).
      assert (Hd : 0 <= len <= len) by lia.
      split.
      * rewrite trace_http_forward_data_run, Hoff, decideConsume_off.
        rewrite (to_int_small len Hl). cbv zeta.
        destruct (hexdump (FLT_CONF f)) eqn:Hx; [|eexists; reflexivity].
        destruct (forward_dump_defined f _ len len Hcall Hx Hd) as [text ->].
        eexists. reflexivity.
      * rewrite trace_tcp_forward_data_run, Hoff, decideConsume_off.
        rewrite (to_int_small len Hl). cbv zeta.
        destruct (hexdump (FLT_CONF f)) eqn:Hx; [|eexists; reflexivity].
        destruct (forward_dump_defined f _ len len Hcall Hx Hd) as [text ->].
        eexists. reflexivity.
    + intros d w'. rewrite trace_http_forward_data_run, Hoff, decideConsume_off.
      cbv zeta. destruct (hexdump _).
      * destruct (trace_raw_hexdump _ _ _); [|discriminate].
        intros [= <- _]. reflexivity.
      * intros [= <- _]. reflexivity.
    + intros d w'. rewrite trace_tcp_forward_data_run, Hoff, decideConsume_off.
      cbv zeta. destruct (hexdump _).
      * destruct (trace_raw_hexdump _ _ _); [|discriminate].
        intros [= <- _]. reflexivity.
      * intros [= <- _]. reflexivity.
Qed.

(** The sample request channel, no randomisation, dumps on: the data hooks
    return the three bytes available, the forwarding hooks the four bytes
    asked for. *)
Lemma full_count_without_randomization_witness :
  (exists w', trace_tcp_data sample_stream (sample_filter false false true) 7
                sample_world = Some (3, w')) /\
  (exists w', trace_tcp_forward_data sample_stream
                (sample_filter false false true) 4 7 sample_world
              = Some (4, w')).
Proof.
  assert (Hlen : 0 <= 4 < UINT_MOD) by (split; [discriminate|reflexivity]).
  destruct (full_count_without_randomization sample_stream
              (sample_filter false false true) sample_msg 0 4 7 sample_world
              Hlen) as (Hparse & Hfwd).
  split.
  - exact (proj2 (Hparse eq_refl)).
  - destruct (Hfwd eq_refl) as (_ & _ & Hcall & _).
    apply Hcall. repeat split; try discriminate; reflexivity.
Defined.

(** The forwarding hooks return for a call in order, and a count within
    [0, len]. *)
Lemma returned_count_facts s f len r w :
  0 <= r <= RAND_MAX ->
  count_ok (rand_forwarding (FLT_CONF f)) len ->
  forward_call_ok f (w_chn w) len ->
  (exists d w', trace_http_forward_data s f len r w = Some (d, w') /\
                0 <= d <= len) /\
  (exists d w', trace_tcp_forward_data s f len r w = Some (d, w') /\
                0 <= d <= len).
Proof.
  intros Hr Hok Hcall.
  destruct (decideConsume_bounds _ _ r Hr Hok) as (d & Hd & Hb).
  rewrite <- (count_ok_to_int _ _ Hok) in Hd at 1.
  split.
  + rewrite trace_http_forward_data_run. cbv zeta. rewrite Hd.
    destruct (hexdump (FLT_CONF f)) eqn:Hx.
    * destruct (forward_dump_defined f _ len d Hcall Hx Hb) as [text ->].
      eexists. eexists. split; [reflexivity|exact Hb].
    * eexists. eexists. split; [reflexivity|exact Hb].
  + rewrite trace_tcp_forward_data_run. cbv zeta. rewrite Hd.
    destruct (hexdump (FLT_CONF f)) eqn:Hx.
    * destruct (forward_dump_defined f _ len d Hcall Hx Hb) as [text ->].
      eexists. eexists. split; [reflexivity|exact Hb].
    * eexists. eexists. split; [reflexivity|exact Hb].
Qed.

(** Whatever a hook settles on is an [int]. *)
Lemma decideConsume_int available randomize r d :
  INT_MIN <= available <= INT_MAX ->
  decideConsume available randomize r = Some d -> INT_MIN <= d <= INT_MAX.
Proof.
  intros Ha. unfold decideConsume, rand_mod.
  destruct (negb (available =? 0) && randomize).
  - destruct (available =? INT_MAX); [discriminate|].
    destruct (available + 1 =? 0); [discriminate|].
    intros [= <-]. apply to_int_range.
  - intros [= <-]. exact Ha.
Qed.

(** The data hooks return on every call in order. *)
Lemma data_hooks_return s f msg offset len r w :
  0 <= r <= RAND_MAX ->
  (count_ok (rand_parsing (FLT_CONF f)) (http_data_avail f msg (w_chn w)) ->
   exists d w', trace_http_data s f msg r w = Some (d, w'))
  /\
  (count_ok (rand_parsing (FLT_CONF f)) (tcp_data_avail f (w_chn w)) ->
   exists d w', trace_tcp_data s f r w = Some (d, w'))
  /\
  (count_ok (rand_forwarding (FLT_CONF f)) len ->
   exists d w', trace_http_payload s f offset len r w = Some (d, w'))
  /\
  (count_ok (rand_forwarding (FLT_CONF f)) len ->
   forward_call_ok f (w_chn w) len ->
   (exists d w', trace_http_forward_data s f len r w = Some (d, w')) /\
   (exists d w', trace_tcp_forward_data s f len r w = Some (d, w'))).
Proof.
  intros Hr. split; [|split; [|split]].
  - intros Hok. rewrite trace_http_data_run. cbv zeta.
    destruct (decideConsume_bounds _ _ r Hr Hok) as (d & -> & _).
    eexists. eexists. reflexivity.
  - intros Hok. rewrite trace_tcp_data_run. cbv zeta.
    destruct (decideConsume_bounds _ _ r Hr Hok) as (d & -> & _).
    eexists. eexists. reflexivity.
  - intros Hok. rewrite trace_http_payload_run. cbv zeta.
    destruct (payload_count_bounds (htxbuf (chn_buf (w_chn w))) offset len _ r
                Hr Hok) as (d & -> & _).
    eexists. eexists. reflexivity.
  - intros Hok Hcall.
    destruct (returned_count_facts s f len r w Hr Hok Hcall)
      as ((d1 & w1 & H1 & _) & (d2 & w2 & H2 & _)).
    split; [exists d1, w1; exact H1|exists d2, w2; exact H2].
Qed.







(* ===================================================================== *)
(** * The reschedule signal *)
(* ===================================================================== *)

(** C7.  A data hook that returns less than what was available, or than
    the length asked for, wakes the task of the stream up exactly once in
    that call.  Every call that returns obeys this, and the calls in order
    return.  The count returned is an [int] and [len] an [unsigned int]:
    "less" is the order of the integers for a length that an [int] holds,
    and the order of [unsigned int]s, in which the hooks compare the two,
    for every length. *)
Theorem short_return_wakes_once s f msg offset len r w :
  (forall d w',
     trace_http_data s f msg r w = Some (d, w') ->
     d < http_data_avail f msg (w_chn w) ->
     w_wakeups w' = S (w_wakeups w))
  /\
  (forall d w',
     trace_tcp_data s f r w = Some (d, w') ->
     d < tcp_data_avail f (w_chn w) ->
     w_wakeups w' = S (w_wakeups w))
  /\
  (forall d w',
     trace_http_payload s f offset len r w = Some (d, w') \/
     trace_http_forward_data s f len r w = Some (d, w') \/
     trace_tcp_forward_data s f len r w = Some (d, w') ->
     (0 <= len <= INT_MAX /\ d < len) \/ to_uint d < len ->
     w_wakeups w' = S (w_wakeups w))
  /\
  (0 <= r <= RAND_MAX ->
   (count_ok (rand_parsing (FLT_CONF f)) (http_data_avail f msg (w_chn w)) ->
    exists d w', trace_http_data s f msg r w = Some (d, w')) /\
   (count_ok (rand_parsing (FLT_CONF f)) (tcp_data_avail f (w_chn w)) ->
    exists d w', trace_tcp_data s f r w = Some (d, w')) /\
   (count_ok (rand_forwarding (FLT_CONF f)) len ->
    exists d w', trace_http_payload s f offset len r w = Some (d, w')) /\
   (count_ok (rand_forwarding (FLT_CONF f)) len ->
    forward_call_ok f (w_chn w) len ->
    (exists d w', trace_http_forward_data s f len r w = Some (d, w')) /\
    (exists d w', trace_tcp_forward_data s f len r w = Some (d, w')))).
Proof.
  split; [|split; [|split]].
  - intros d w'. rewrite trace_http_data_run. cbv zeta.
    destruct (decideConsume _ _ _) as [d0|]; [|discriminate].
    intros [= <- <-] Hlt. simpl.
    destruct (Z.eqb_spec d0 (http_data_avail f msg (w_chn w))); [lia|reflexivity].
  - intros d w'. rewrite trace_tcp_data_run. cbv zeta.
    destruct (decideConsume _ _ _) as [d0|]; [|discriminate].
    intros [= <- <-] Hlt. simpl.
    destruct (Z.eqb_spec d0 (tcp_data_avail f (w_chn w))); [lia|reflexivity].
  - intros d w' Hrun Hlt.
    assert (Hint : INT_MIN <= to_int len <= INT_MAX) by apply to_int_range.
    assert (Hshort : INT_MIN <= d <= INT_MAX -> (to_uint d =? len) = false).
    { intros Hd. destruct Hlt as [(Hlen & Hlt)|Hlt].
      - apply short_as_unsigned; assumption.
      - apply Z.eqb_neq. lia. }
    destruct Hrun as [Hrun|[Hrun|Hrun]]; revert Hrun.
    + rewrite trace_http_payload_run. cbv zeta.
      destruct (negb (to_int len =? 0) && rand_forwarding (FLT_CONF f)).
      * unfold rand_mod.
        destruct (to_int len =? INT_MAX); [discriminate|].
        destruct (to_int len + 1 =? 0); [discriminate|].
        intros [= <- <-]. simpl. rewrite Hshort; [reflexivity|].
        destruct (_ >? _); [exact Hint|apply to_int_range].
      * intros [= <- <-]. simpl. rewrite (Hshort Hint). reflexivity.
    + rewrite trace_http_forward_data_run. cbv zeta.
      destruct (decideConsume _ _ _) as [d0|] eqn:Hd0; [|discriminate].
      pose proof (decideConsume_int _ _ _ _ Hint Hd0) as Hd0i.
      destruct (hexdump _).
      * destruct (trace_raw_hexdump _ _ _); [|discriminate].
        intros [= <- <-]. simpl. rewrite (Hshort Hd0i). reflexivity.
      * intros [= <- <-]. simpl. rewrite (Hshort Hd0i). reflexivity.
    + rewrite trace_tcp_forward_data_run. cbv zeta.
      destruct (decideConsume _ _ _) as [d0|] eqn:Hd0; [|discriminate].
      pose proof (decideConsume_int _ _ _ _ Hint Hd0) as Hd0i.
      destruct (hexdump _).
      * destruct (trace_raw_hexdump _ _ _); [|discriminate].
        intros [= <- <-]. simpl. rewrite (Hshort Hd0i). reflexivity.
      * intros [= <- <-]. simpl. rewrite (Hshort Hd0i). reflexivity.
  - intros Hr. exact (data_hooks_return s f msg offset len r w Hr).
Qed.

(** The sample request channel, with randomisation: for the draw 7 the
    forwarding hook returns 2 of four bytes, and the task is woken up
    once. *)
Lemma short_return_wakes_once_witness :
  exists w',
    trace_tcp_forward_data sample_stream (sample_filter true true false) 4 7
      sample_world = Some (2, w') /\
    w_wakeups w' = 1%nat.
Proof.
  assert (Hlen : 0 <= 4 <= INT_MAX) by (split; discriminate).
  eexists. split; [vm_compute; reflexivity|].
  apply (proj1 (proj2 (proj2 (short_return_wakes_once sample_stream
                                (sample_filter true true false) sample_msg 0 4
                                7 sample_world)))
           2).
  - right. right. vm_compute. reflexivity.
  - left. split; [exact Hlen|reflexivity].
Defined.

(* ===================================================================== *)
(** * What a hook leaves untouched *)
(* ===================================================================== *)

Lemma woken_cases b n : woken b n = n \/ woken b n = S n.
Proof. destruct b; [right|left]; reflexivity. Qed.

Lemma only_traced_intro c diag n printed b :
  only_traced {| w_chn := c; w_diag := diag; w_wakeups := n |}
              {| w_chn := c; w_diag := (diag ++ printed)%list;
                 w_wakeups := woken b n |}.
Proof.
  split; [reflexivity|split; [exists printed; reflexivity|apply woken_cases]].
Qed.

Lemma world_eta w :
  {| w_chn := w_chn w; w_diag := w_diag w; w_wakeups := w_wakeups w |} = w.
Proof. destruct w; reflexivity. Qed.

(** C9.  A data hook changes neither the buffer of the channel nor its
    offsets: when the call returns the channel is the one it was called on
    (the advance made for the dump is undone by the rewind), and the call
    has only printed, returned its count and woken the task up at most
    once.  Every call that returns obeys this, and the calls in order
    return. *)
Theorem hooks_leave_channel_unchanged s f msg offset len r w :
  0 <= chn_output (w_chn w) < SIZE_MOD ->
  (forall d w',
     trace_http_data s f msg r w = Some (d, w') \/
     trace_tcp_data s f r w = Some (d, w') \/
     trace_http_payload s f offset len r w = Some (d, w') \/
     trace_http_forward_data s f len r w = Some (d, w') \/
     trace_tcp_forward_data s f len r w = Some (d, w') ->
     only_traced w w')
  /\
  (0 <= r <= RAND_MAX ->
   (count_ok (rand_parsing (FLT_CONF f)) (http_data_avail f msg (w_chn w)) ->
    exists d w', trace_http_data s f msg r w = Some (d, w')) /\
   (count_ok (rand_parsing (FLT_CONF f)) (tcp_data_avail f (w_chn w)) ->
    exists d w', trace_tcp_data s f r w = Some (d, w')) /\
   (count_ok (rand_forwarding (FLT_CONF f)) len ->
    exists d w', trace_http_payload s f offset len r w = Some (d, w')) /\
   (count_ok (rand_forwarding (FLT_CONF f)) len ->
    forward_call_ok f (w_chn w) len ->
    (exists d w', trace_http_forward_data s f len r w = Some (d, w')) /\
    (exists d w', trace_tcp_forward_data s f len r w = Some (d, w')))).
Proof.
  intros Ho. split.
  - intros d w' H. rewrite <- (world_eta w).
    destruct H as [H|[H|[H|[H|H]]]]; revert H.
    + rewrite trace_http_data_run. cbv zeta.
      destruct (decideConsume _ _ _); [|discriminate].
      intros [= _ <-]. apply only_traced_intro.
    + rewrite trace_tcp_data_run. cbv zeta.
      destruct (decideConsume _ _ _); [|discriminate].
      intros [= _ <-]. apply only_traced_intro.
    + rewrite trace_http_payload_run. cbv zeta.
      destruct (if negb _ && _ then _ else _); [|discriminate].
      intros [= _ <-]. apply only_traced_intro.
    + rewrite trace_http_forward_data_run. cbv zeta.
      destruct (decideConsume _ _ _); [|discriminate].
      destruct (hexdump _).
      * destruct (trace_raw_hexdump _ _ _); [|discriminate].
        intros [= _ <-]. simpl. rewrite rewound_id by exact Ho.
        apply only_traced_intro.
      * intros [= _ <-]. apply only_traced_intro.
    + rewrite trace_tcp_forward_data_run. cbv zeta.
      destruct (decideConsume _ _ _); [|discriminate].
      destruct (hexdump _).
      * destruct (trace_raw_hexdump _ _ _); [|discriminate].
        intros [= _ <-]. simpl. rewrite rewound_id by exact Ho.
        apply only_traced_intro.
      * intros [= _ <-]. apply only_traced_intro.
  - intros Hr. exact (data_hooks_return s f msg offset len r w Hr).
Qed.

(** The sample request channel, dumps on, two bytes scheduled for output:
    the forwarding hook advances by the output, dumps, rewinds, and the
    channel is as before. *)
Lemma hooks_leave_channel_unchanged_witness :
  exists d w',
    trace_tcp_forward_data sample_stream (sample_filter false true true) 4 7
      sample_world = Some (d, w') /\
    only_traced sample_world w'.
Proof.
  assert (Ho : 0 <= chn_output (w_chn sample_world) < SIZE_MOD)
    by (split; [discriminate|reflexivity]).
  eexists. eexists. split.
  - vm_compute. reflexivity.
  - apply (proj1 (hooks_leave_channel_unchanged sample_stream
                    (sample_filter false true true) sample_msg 0 4 7
                    sample_world Ho) 2).
    right. right. right. right. vm_compute. reflexivity.
Defined.

(* ===================================================================== *)
(** * The payload hook of structured messages *)
(* ===================================================================== *)


Lemma ist_len_slice (v : list byte) off n :
  0 <= off -> 0 <= n -> off + n <= ist_len v ->
  ist_len (firstn (Z.to_nat n) (skipn (Z.to_nat off) v)) = n.
Proof.
  unfold ist_len. intros Hoff Hn Hle.
  rewrite length_firstn, length_skipn. lia.
Qed.

(** A window that stays within the payload counted by [trace_http_payload]
    holds payload only: the runs sliced for it add up to its length. *)
Lemma payloadBytesIn_within_data h :
  htx_wf h ->
  forall off data len n,
    0 <= off < UINT_MOD -> 0 <= data -> len <= INT_MAX -> 0 <= n ->
    n + data <= len ->
    n + data <= payload_data h off data len ->
    payloadBytesIn h off n = n.
Proof.
  unfold payloadBytesIn.
  induction 1 as [|blk rest (Hsz & Hval) _ IH];
    intros off data len n Hoff Hdata Hlen Hn Hnl Hle.
  - simpl in *. lia.
  - simpl in Hle. simpl htx_runs.
    destruct (Z.eqb_spec n 0) as [->|Hn0]; [reflexivity|].
    destruct (htx_get_blk_type blk) eqn:Htype; simpl in Hle; try lia.
    specialize (Hval eq_refl). simpl.
    unfold INT_MAX, UINT_MOD in *.
    destruct (Z.geb_spec off (htx_get_blksz blk)) as [Hskip|Hin].
    + rewrite to_uint_small in Hle |- * by (unfold UINT_MOD; lia).
      apply (IH _ data len); lia.
    + rewrite to_uint_small in Hle by (unfold UINT_MOD; lia).
      unfold htx_slice, ist_bytes. simpl.
      rewrite to_size_small by (unfold SIZE_MOD; lia).
      destruct (Z.gtb_spec (ist_len (htx_get_blk_value blk) - off) n) as [Hcut|Hall].
      * rewrite ist_len_slice by lia.
        replace (n - n) with 0 by lia.
        change (to_uint 0) with 0.
        assert (Hnil : htx_runs rest 0 0 = []) by (destruct rest; reflexivity).
        rewrite Hnil. simpl. lia.
      * rewrite ist_len_slice by lia.
        destruct (Z.gtb_spec (data + (htx_get_blksz blk - off)) len) as [Hfull|Hmore];
          [lia|].
        rewrite to_uint_small by (unfold UINT_MOD; lia).
        rewrite (IH 0 (data + (htx_get_blksz blk - off)) len); lia.
Qed.

(* ===================================================================== *)
(** * The layout of a dump *)
(* ===================================================================== *)

Lemma append_assoc (a b c : string) : (a ++ b) ++ c = a ++ (b ++ c).
Proof. induction a as [|x a IH]; simpl; [reflexivity|rewrite IH; reflexivity]. Qed.

Lemma append_nil_r (a : string) : a ++ "" = a.
Proof. induction a as [|x a IH]; simpl; [reflexivity|rewrite IH; reflexivity]. Qed.

(** A loop whose test holds for exactly [n] iterations prints these. *)
Lemma for_loop_cat_range cond body n :
  forall fuel i,
    (n <= fuel)%nat ->
    (forall j, i <= j < i + Z.of_nat n -> cond j = true) ->
    fuel = n \/ cond (i + Z.of_nat n) = false ->
    for_loop fuel cond body i = cat_range n body i.
Proof.
  induction n as [|n IH]; intros fuel i Hfuel Htrue Hstop.
  - destruct fuel as [|fuel]; [reflexivity|]. simpl.
    destruct Hstop as [?|Hstop]; [discriminate|].
    rewrite Z.add_0_r in Hstop. rewrite Hstop. reflexivity.
  - destruct fuel as [|fuel]; [lia|]. simpl.
    rewrite Htrue by lia. f_equal.
    apply IH.
    + lia.
    + intros j Hj. apply Htrue. lia.
    + destruct Hstop as [Hstop|Hstop]; [left; lia|right].
      rewrite <- Hstop. f_equal. lia.
Qed.

Lemma cat_range_split body n m :
  forall i,
    cat_range (n + m) body i
    = cat_range n body i ++ cat_range m body (i + Z.of_nat n).
Proof.
  induction n as [|n IH]; intros i.
  - simpl. rewrite Z.add_0_r. reflexivity.
  - simpl Nat.add. simpl cat_range. rewrite IH, append_assoc.
    do 3 f_equal. lia.
Qed.

Lemma cat_range_ext body body' n :
  forall i,
    (forall j, i <= j < i + Z.of_nat n -> body j = body' j) ->
    cat_range n body i = cat_range n body' i.
Proof.
  induction n as [|n IH]; intros i H; simpl; [reflexivity|].
  rewrite H by lia. f_equal. apply IH. intros j Hj. apply H. lia.
Qed.

Lemma skipn_succ_tl (A : Type) (l : list A) k :
  skipn (S k) l = tl (skipn k l).
Proof.
  revert l. induction k as [|k IH]; intros [|x l].
  - reflexivity.
  - reflexivity.
  - rewrite !skipn_nil. reflexivity.
  - change (skipn (S (S k)) (x :: l)) with (skipn (S k) l).
    change (skipn (S k) (x :: l)) with (skipn k l). apply IH.
Qed.

(** The suffix of the bytes from the index [a] on tells whether [a] is in
    range and which byte is there. *)
Lemma suffix_nil (s : ist) a :
  0 <= a -> skipn (Z.to_nat a) s = [] -> (a <? ist_len s) = false.
Proof.
  intros Ha H. apply Z.ltb_ge. unfold ist_len.
  apply (f_equal (@List.length byte)) in H. rewrite length_skipn in H.
  simpl in H. lia.
Qed.

Lemma suffix_cons (s : ist) a b t :
  0 <= a -> skipn (Z.to_nat a) s = b :: t ->
  (a <? ist_len s) = true /\ ist_at s a = b /\ skipn (Z.to_nat (a + 1)) s = t.
Proof.
  intros Ha H. split; [|split].
  - apply Z.ltb_lt. unfold ist_len.
    apply (f_equal (@List.length byte)) in H. rewrite length_skipn in H.
    simpl in H. lia.
  - unfold ist_at. rewrite <- (firstn_skipn (Z.to_nat a) s) at 1.
    assert (Hlen : (Z.to_nat a <= List.length s)%nat).
    { apply (f_equal (@List.length byte)) in H. rewrite length_skipn in H.
      simpl in H. lia. }
    rewrite app_nth2; rewrite length_firstn, Nat.min_l by exact Hlen; [|lia].
    rewrite Nat.sub_diag, H. reflexivity.
  - replace (Z.to_nat (a + 1)) with (S (Z.to_nat a)) by lia.
    rewrite skipn_succ_tl, H. reflexivity.
Qed.

(** The cells of a stretch of a row: the bytes present, then blank
    cells. *)
Lemma cells_of_suffix (s : ist) n :
  forall a t,
    0 <= a -> skipn (Z.to_nat a) s = t ->
    cat_range n (hexdump_cell s) a
    = concat_str (map fmt_byte (firstn n t))
      ++ blanks (n - List.length (firstn n t)).
Proof.
  induction n as [|n IH]; intros a t Ha Ht; [reflexivity|].
  simpl cat_range. unfold hexdump_cell at 1.
  destruct t as [|b t].
  - rewrite (suffix_nil s a Ha Ht).
    rewrite (IH (a + 1) []); [|lia|].
    + rewrite !firstn_nil. simpl List.length. rewrite !Nat.sub_0_r. reflexivity.
    + replace (Z.to_nat (a + 1)) with (S (Z.to_nat a)) by lia.
      rewrite skipn_succ_tl, Ht. reflexivity.
  - destruct (suffix_cons s a b t Ha Ht) as (-> & -> & Hnext).
    rewrite (IH (a + 1) t) by (try lia; exact Hnext).
    simpl firstn. simpl map. simpl List.length.
    change (S n - S (List.length (firstn n t)))%nat
      with (n - List.length (firstn n t))%nat.
    change (concat_str (fmt_byte b :: map fmt_byte (firstn n t)))
      with (fmt_byte b ++ concat_str (map fmt_byte (firstn n t))).
    rewrite append_assoc. reflexivity.
Qed.

(** The ASCII column of the row that ends at [i]: the bytes of the row
    that are present. *)
Lemma ascii_of_suffix (s : ist) i fuel :
  forall j t,
    0 <= j -> skipn (Z.to_nat j) s = t -> j + Z.of_nat fuel = i + 1 ->
    for_loop fuel (fun j => (j <=? i) && (j <? ist_len s))
      (fun j => String (fmt_char (ist_at s j)) "") j
    = ascii_column (firstn fuel t).
Proof.
  unfold ascii_column.
  induction fuel as [|fuel IH]; intros j t Hj Ht Hend; [reflexivity|].
  simpl for_loop.
  destruct (Z.leb_spec j i) as [_|?]; [|lia]. simpl andb.
  destruct t as [|b t].
  - rewrite (suffix_nil s j Hj Ht). reflexivity.
  - destruct (suffix_cons s j b t Hj Ht) as (-> & -> & Hnext).
    rewrite (IH (j + 1) t) by (try lia; exact Hnext). reflexivity.
Qed.

Ltac mod_lia := Z.div_mod_to_equations; lia.

(** One iteration is a cell, with the offset before the first cell of a
    row, two spaces before the ninth and the ASCII column after the
    last. *)
Lemma hexdump_step_first s k :
  hexdump_step s (16 * k)
  = String TAB ("0x" ++ fmt_0x 6 (16 * k) ++ ": ") ++ hexdump_cell s (16 * k).
Proof.
  unfold hexdump_step. fold (hexdump_cell s (16 * k)).
  destruct (Z.eqb_spec ((16 * k) mod 16) 0) as [_|H]; [|mod_lia].
  destruct (Z.eqb_spec ((16 * k) mod 16) 15) as [H|_]; [mod_lia|].
  rewrite append_nil_r. reflexivity.
Qed.

Lemma hexdump_step_middle s k i :
  16 * k < i < 16 * k + 15 -> i <> 16 * k + 8 ->
  hexdump_step s i = hexdump_cell s i.
Proof.
  intros Hi H8. unfold hexdump_step. fold (hexdump_cell s i).
  destruct (Z.eqb_spec (i mod 16) 0) as [H|_]; [mod_lia|].
  destruct (Z.eqb_spec (i mod 8) 0) as [H|_]; [mod_lia|].
  destruct (Z.eqb_spec (i mod 16) 15) as [H|_]; [mod_lia|].
  rewrite append_nil_r. reflexivity.
Qed.

Lemma hexdump_step_ninth s k :
  hexdump_step s (16 * k + 8) = "  " ++ hexdump_cell s (16 * k + 8).
Proof.
  unfold hexdump_step. fold (hexdump_cell s (16 * k + 8)).
  destruct (Z.eqb_spec ((16 * k + 8) mod 16) 0) as [H|_]; [mod_lia|].
  destruct (Z.eqb_spec ((16 * k + 8) mod 8) 0) as [_|H]; [|mod_lia].
  destruct (Z.eqb_spec ((16 * k + 8) mod 16) 15) as [H|_]; [mod_lia|].
  rewrite append_nil_r. reflexivity.
Qed.

Lemma hexdump_step_last s k :
  hexdump_step s (16 * k + 15)
  = hexdump_cell s (16 * k + 15)
    ++ "  |" ++ hexdump_ascii s (16 * k + 15) ++ String "|" (String NL "").
Proof.
  unfold hexdump_step. fold (hexdump_cell s (16 * k + 15)).
  destruct (Z.eqb_spec ((16 * k + 15) mod 16) 0) as [H|_]; [mod_lia|].
  destruct (Z.eqb_spec ((16 * k + 15) mod 8) 0) as [H|_]; [mod_lia|].
  destruct (Z.eqb_spec ((16 * k + 15) mod 16) 15) as [_|H]; [|mod_lia].
  reflexivity.
Qed.

Lemma cat_range_one body i : cat_range 1 body i = body i.
Proof. simpl. apply append_nil_r. Qed.

(** The sixteen iterations of a row print the row. *)
Lemma hexdump_row s k t :
  0 <= k -> skipn (Z.to_nat (16 * k)) s = t ->
  cat_range 16 (hexdump_step s) (16 * k) = dump_row (16 * k) (firstn 16 t).
Proof.
  intros Hk Ht.
  change 16%nat with (1 + (7 + (1 + (6 + 1))))%nat at 1.
  rewrite !cat_range_split. simpl Z.of_nat.
  replace (16 * k + 1 + 7) with (16 * k + 8) by lia.
  replace (16 * k + 8 + 1 + 6) with (16 * k + 15) by lia.
  rewrite (cat_range_ext (hexdump_step s) (hexdump_cell s) 7 (16 * k + 1))
    by (intros j Hj; apply (hexdump_step_middle s k); lia).
  rewrite (cat_range_ext (hexdump_step s) (hexdump_cell s) 6 (16 * k + 8 + 1))
    by (intros j Hj; apply (hexdump_step_middle s k); lia).
  rewrite !cat_range_one.
  rewrite hexdump_step_first, hexdump_step_ninth, hexdump_step_last.
  (* the two halves of the row *)
  assert (Hleft :
    hexdump_cell s (16 * k) ++ cat_range 7 (hexdump_cell s) (16 * k + 1)
    = half_row (firstn 8 (firstn 16 t))).
  { change (hexdump_cell s (16 * k) ++ cat_range 7 (hexdump_cell s) (16 * k + 1))
      with (cat_range 8 (hexdump_cell s) (16 * k)).
    rewrite (cells_of_suffix s 8 (16 * k) t) by (try lia; exact Ht).
    rewrite firstn_firstn. reflexivity. }
  assert (Hright :
    hexdump_cell s (16 * k + 8)
    ++ cat_range 6 (hexdump_cell s) (16 * k + 8 + 1)
    ++ hexdump_cell s (16 * k + 15)
    = half_row (skipn 8 (firstn 16 t))).
  { transitivity (cat_range (1 + (6 + 1)) (hexdump_cell s) (16 * k + 8)).
    - rewrite !cat_range_split, !cat_range_one. simpl Z.of_nat.
      replace (16 * k + 8 + 1 + 6) with (16 * k + 15) by lia. reflexivity.
    - change (1 + (6 + 1))%nat with 8%nat.
      rewrite (cells_of_suffix s 8 (16 * k + 8) (skipn 8 t)).
      + rewrite skipn_firstn_comm. reflexivity.
      + lia.
      + rewrite <- Ht, skipn_skipn. f_equal. lia. }
  assert (Hascii : hexdump_ascii s (16 * k + 15) = ascii_column (firstn 16 t)).
  { unfold hexdump_ascii. apply ascii_of_suffix; [lia| |lia].
    rewrite <- Ht. f_equal. lia. }
  unfold dump_row. rewrite <- Hleft, <- Hright, Hascii.
  rewrite !append_assoc. reflexivity.
Qed.

(** The rows one after the other. *)
Lemma hexdump_rows s m :
  forall fuel k t,
    (m <= fuel)%nat -> 0 <= k -> skipn (Z.to_nat (16 * k)) s = t ->
    (List.length t <= 16 * m)%nat ->
    (m = 0%nat \/ 16 * (m - 1) < List.length t)%nat ->
    cat_range (16 * m) (hexdump_step s) (16 * k)
    = concat_str (map (fun row => dump_row (fst row) (snd row))
                      (rows_of fuel (16 * k) t)).
Proof.
  induction m as [|m IH]; intros fuel k t Hfuel Hk Ht Hle Hceil.
  - destruct t; [|simpl in Hle; lia]. destruct fuel; reflexivity.
  - destruct fuel as [|fuel]; [lia|].
    destruct t as [|b t']; [simpl in Hceil; lia|].
    remember (b :: t') as t eqn:Et.
    assert (Hrows : rows_of (S fuel) (16 * k) t
                    = (16 * k, firstn 16 t)
                      :: rows_of fuel (16 * k + 16) (skipn 16 t))
      by (rewrite Et; reflexivity).
    rewrite Hrows, map_cons.
    change (concat_str (?x :: ?l)) with (x ++ concat_str l).
    cbv beta. unfold fst at 1, snd at 1.
    replace (16 * S m)%nat with (16 + 16 * m)%nat by lia.
    rewrite cat_range_split, (hexdump_row s k t Hk Ht).
    f_equal.
    replace (16 * k + Z.of_nat 16) with (16 * (k + 1)) by lia.
    replace (16 * k + 16) with (16 * (k + 1)) by lia.
    apply IH.
    + lia.
    + lia.
    + rewrite <- Ht, skipn_skipn. f_equal. lia.
    + rewrite length_skipn. lia.
    + rewrite length_skipn. lia.
Qed.

(** The text of [trace_hexdump], row by row. *)
Lemma trace_hexdump_rows (s : list byte) :
  trace_hexdump s
  = concat_str (map (fun row => dump_row (fst row) (snd row))
                    (rows_of (List.length s) 0 s)).
Proof.
  unfold trace_hexdump.
  set (len := ist_len s).
  set (padding := if len mod 16 =? 0 then 0 else 16 - len mod 16).
  assert (Hlen : 0 <= len) by (unfold len, ist_len; lia).
  set (m := Z.to_nat ((len + 15) / 16)).
  assert (Hm : len + padding = Z.of_nat (16 * m)).
  { unfold padding, m. destruct (Z.eqb_spec (len mod 16) 0); mod_lia. }
  rewrite (for_loop_cat_range _ _ (Z.to_nat (len + padding))).
  - rewrite Hm, Nat2Z.id.
    apply (hexdump_rows s m (List.length s) 0 s);
      try reflexivity; unfold m, len, ist_len; mod_lia.
  - lia.
  - intros j Hj. apply Z.ltb_lt. lia.
  - left. reflexivity.
Qed.

(** The digits that [printf] writes are those of the layout. *)
Lemma hex_digit_digit_char n : hex_digit (n mod 16) = digit_char (n mod 16).
Proof.
  assert (H : (n mod 16 < 16)%N) by (apply N.mod_lt; discriminate).
  destruct (n mod 16)%N as [|p]; [reflexivity|].
  do 4 (try destruct p as [p|p|]); try reflexivity; exfalso; lia.
Qed.

Lemma hex_digits_acc fuel :
  forall n acc, hex_digits fuel n acc = hex_digits fuel n "" ++ acc.
Proof.
  induction fuel as [|fuel IH]; intros n acc; cbn [hex_digits]; [reflexivity|].
  cbv zeta. destruct (n / 16 =? 0)%N; [reflexivity|].
  rewrite IH, (IH _ (String _ "")), append_assoc. reflexivity.
Qed.

Lemma length_append (a b : string) :
  String.length (a ++ b) = (String.length a + String.length b)%nat.
Proof. induction a as [|x a IH]; simpl; [reflexivity|rewrite IH; reflexivity]. Qed.

Lemma zeros_snoc k : zeros k ++ "0" = zeros (S k).
Proof. induction k as [|k IH]; [reflexivity|]. cbn [zeros append]. rewrite IH. reflexivity. Qed.

Lemma hex_fixed_zero k : hex_fixed k 0 = zeros k.
Proof.
  induction k as [|k IH]; [reflexivity|].
  cbn [hex_fixed]. change (0 / 16)%N with 0%N. rewrite IH.
  change (String (digit_char (0 mod 16)) "") with "0". apply zeros_snoc.
Qed.

Lemma hex_digits_fixed k :
  forall fuel n,
    (n < 16 ^ N.of_nat (S k))%N -> (n < 16 ^ N.of_nat fuel)%N ->
    (0 < fuel)%nat ->
    (String.length (hex_digits fuel n "") <= S k)%nat /\
    zeros (S k - String.length (hex_digits fuel n "")) ++ hex_digits fuel n ""
    = hex_fixed (S k) n.
Proof.
  induction k as [|k IH]; intros fuel n Hn Hfuel Hpos.
  - destruct fuel as [|fuel]; [lia|].
    assert (Hq : (n / 16 = 0)%N) by (apply N.div_small; exact Hn).
    cbn [hex_digits hex_fixed]. cbv zeta. rewrite Hq. cbn [N.eqb].
    rewrite hex_digit_digit_char. split; reflexivity.
  - destruct fuel as [|fuel]; [lia|].
    cbn [hex_digits]. cbv zeta. rewrite hex_digit_digit_char.
    destruct (N.eqb_spec (n / 16) 0) as [Hq|Hq].
    + change (hex_fixed (S (S k)) n)
        with (hex_fixed (S k) (n / 16) ++ String (digit_char (n mod 16)) "").
      rewrite Hq, hex_fixed_zero. cbn [String.length].
      split; [lia|].
      replace (S (S k) - 1)%nat with (S k) by lia. reflexivity.
    + assert (Hqk : (n / 16 < 16 ^ N.of_nat (S k))%N).
      { apply N.Div0.div_lt_upper_bound.
        rewrite <- N.pow_succ_r', <- Nnat.Nat2N.inj_succ. exact Hn. }
      assert (Hqf : (n / 16 < 16 ^ N.of_nat fuel)%N).
      { apply N.Div0.div_lt_upper_bound.
        rewrite <- N.pow_succ_r', <- Nnat.Nat2N.inj_succ. exact Hfuel. }
      assert (Hf : (0 < fuel)%nat).
      { destruct fuel as [|fuel]; [|lia].
        change (16 ^ N.of_nat 0)%N with 1%N in Hqf.
        apply N.lt_1_r in Hqf. contradiction. }
      destruct (IH fuel (n / 16)%N Hqk Hqf Hf) as (Hlen & Heq).
      rewrite hex_digits_acc, length_append. cbn [String.length].
      split; [lia|].
      replace (S (S k) - (String.length (hex_digits fuel (n / 16) "") + 1))%nat
        with (S k - String.length (hex_digits fuel (n / 16) ""))%nat by lia.
      rewrite <- append_assoc, Heq. reflexivity.
Qed.

Lemma pos_lt_pow_size p : (N.pos p < 2 ^ N.of_nat (Pos.size_nat p))%N.
Proof.
  induction p as [p IH|p IH|]; cbn [Pos.size_nat];
    rewrite ?Nnat.Nat2N.inj_succ, ?N.pow_succ_r'; lia.
Qed.

Lemma N_lt_pow16_size v : (v < 16 ^ N.of_nat (S (N.size_nat v)))%N.
Proof.
  rewrite Nnat.Nat2N.inj_succ, N.pow_succ_r'.
  assert (H2 : (v < 2 ^ N.of_nat (N.size_nat v) \/ v = 0)%N).
  { destruct v as [|p]; [right; reflexivity|left; apply pos_lt_pow_size]. }
  assert (Hle : (2 ^ N.of_nat (N.size_nat v) <= 16 ^ N.of_nat (N.size_nat v))%N)
    by (apply N.pow_le_mono_l; lia).
  assert (Hpos : (0 < 16 ^ N.of_nat (N.size_nat v))%N)
    by (apply N.neq_0_lt_0, N.pow_nonzero; discriminate).
  destruct H2 as [H2| ->]; lia.
Qed.

Lemma fmt_0x_fixed n :
  0 <= n < 16777216 -> fmt_0x 6 n = hex_fixed 6 (Z.to_N n).
Proof.
  intros Hn. unfold fmt_0x. cbv zeta.
  assert (Hu : to_uint n = n) by (unfold to_uint, UINT_MOD; apply Z.mod_small; lia).
  rewrite Hu.
  apply (hex_digits_fixed 5).
  - change (16 ^ N.of_nat 6)%N with 16777216%N. lia.
  - apply N_lt_pow16_size.
  - lia.
Qed.

(** A cell and a character of the ASCII column, as the layout has
    them. *)
Lemma fmt_byte_layout b : fmt_byte b = layout_cell b.
Proof. destruct b; reflexivity. Qed.

Lemma fmt_char_layout b : fmt_char b = layout_char b.
Proof. destruct b; reflexivity. Qed.

Lemma half_row_layout bs : half_row bs = layout_cells bs.
Proof.
  unfold half_row, layout_cells. f_equal.
  - f_equal. apply map_ext. exact fmt_byte_layout.
  - induction (8 - List.length bs)%nat as [|k IH]; [reflexivity|].
    cbn [blanks repeat concat_str]. rewrite IH. reflexivity.
Qed.

Lemma dump_row_layout base chunk :
  0 <= base < 16777216 ->
  dump_row base chunk = layout_row_with "  " base chunk.
Proof.
  intros Hbase. unfold dump_row, layout_row_with, ascii_column.
  rewrite fmt_0x_fixed by exact Hbase. rewrite !half_row_layout.
  rewrite (map_ext _ _ fmt_char_layout). reflexivity.
Qed.

(** A row starts at the offset of one of the bytes. *)
Lemma rows_of_offsets fuel :
  forall base s b chunk,
    In (b, chunk) (rows_of fuel base s) ->
    base <= b < base + Z.of_nat (List.length s).
Proof.
  induction fuel as [|fuel IH]; intros base s b chunk Hin; [destruct Hin|].
  destruct s as [|x s]; [destruct Hin|].
  cbn [rows_of] in Hin. destruct Hin as [[= <- _]|Hin].
  - cbn [List.length]. lia.
  - apply IH in Hin. rewrite length_skipn in Hin. cbn [List.length] in *. lia.
Qed.

(** C6, as the source has it.  The dump of a byte sequence (of at most
    16^6 bytes, for which the offsets have six digits) is made of rows of
    sixteen bytes.  A row begins with a tab and the offset of its first
    byte, written as [0x] and six hex digits in lower case, a colon and a
    space.  Then comes a cell for each byte, the two hex digits of the
    byte in lower case and a space, with two more spaces before the ninth
    cell: three spaces stand between the digits of the eighth byte and
    those of the ninth.  Two spaces and the ASCII column between two bars
    close the row: a byte from the space to the tilde is shown as it is,
    every other one as a dot.  A short last row is filled with blank cells
    of three spaces up to sixteen, and its ASCII column holds the bytes
    present only. *)
Theorem trace_hexdump_layout (s : list byte) :
  ist_len s <= 16777216 -> trace_hexdump s = layout_spec s.
Proof.
  intros Hlen. rewrite trace_hexdump_rows.
  unfold layout_spec, layout_with. f_equal.
  apply map_ext_in. intros (b, chunk) Hin. cbn [fst snd].
  apply rows_of_offsets in Hin. apply dump_row_layout.
  unfold ist_len in Hlen. lia.
Qed.

(** Ten bytes: one short row. *)
Lemma trace_hexdump_layout_witness :
  trace_hexdump (bytes "GET / HTTP")
  = String TAB
      ("0x000000: 47 45 54 20 2f 20 48 54   54 50                   "
       ++ "  |GET / HTTP|" ++ String NL "").
Proof.
  refine (eq_trans (trace_hexdump_layout (bytes "GET / HTTP") _) _).
  - discriminate.
  - reflexivity.
Defined.

(** C6, as the spec words it, fails on a row of nine bytes: with one
    more space before the ninth byte the row would be one character
    shorter than the row that [trace_hexdump] writes, which has two. *)
Lemma trace_hexdump_one_space_counterexample :
  trace_hexdump (bytes "ABCDEFGHI")
  = String TAB
      ("0x000000: 41 42 43 44 45 46 47 48   49                      "
       ++ "  |ABCDEFGHI|" ++ String NL "") /\
  layout_one_space (bytes "ABCDEFGHI")
  = String TAB
      ("0x000000: 41 42 43 44 45 46 47 48  49                      "
       ++ "  |ABCDEFGHI|" ++ String NL "") /\
  trace_hexdump (bytes "ABCDEFGHI") <> layout_one_space (bytes "ABCDEFGHI").
Proof.
  split; [reflexivity|]. split; [reflexivity|]. discriminate.
Qed.

(** A dump of ten bytes: one row, six blank cells, ten characters in the
    ASCII column. *)
Example trace_hexdump_ten_bytes :
  trace_hexdump (bytes "GET / HTTP")
  = String TAB
      ("0x000000: 47 45 54 20 2f 20 48 54   54 50                   "
       ++ "  |GET / HTTP|" ++ String NL "").
Proof. reflexivity. Qed.

(** A dump of seventeen bytes, the last of which does not print. *)
Example trace_hexdump_two_rows :
  trace_hexdump (bytes "0123456789abcdef" ++ [x0a])%list
  = String TAB
      ("0x000000: 30 31 32 33 34 35 36 37   38 39 61 62 63 64 65 66 "
       ++ "  |0123456789abcdef|" ++ String NL "")
    ++ String TAB
      ("0x000010: 0a                                                "
       ++ "  |.|" ++ String NL "").
Proof. reflexivity. Qed.

(* ===================================================================== *)
(** * The walk of [trace_htx_hexdump] *)
(* ===================================================================== *)

(** The dump of a structured window is the dumps of its runs, one after
    the other. *)
Lemma trace_htx_hexdump_runs h :
  forall offset len,
    trace_htx_hexdump h offset len
    = concat_str (map trace_hexdump (htx_runs h offset len)).
Proof.
  induction h as [|blk rest IH]; intros offset len; simpl; [reflexivity|].
  destruct (len =? 0); [reflexivity|].
  destruct (offset >=? htx_get_blksz blk); [apply IH|].
  rewrite IH. destruct (is_data (htx_get_blk_type blk)); reflexivity.
Qed.

(** A block that ends at or before the offset is passed over, whatever its
    type, and its size is taken off the offset. *)
Lemma htx_runs_skip blk rest offset len :
  len <> 0 -> htx_get_blksz blk <= offset ->
  htx_runs (blk :: rest) offset len
  = htx_runs rest (to_uint (offset - htx_get_blksz blk)) len.
Proof.
  intros Hlen Hsz. simpl.
  destruct (Z.eqb_spec len 0); [contradiction|].
  destruct (Z.geb_spec offset (htx_get_blksz blk)); [reflexivity|lia].
Qed.

(** Blocks that are no payload give no run. *)
Lemma htx_runs_no_payload h :
  Forall (fun blk => is_data (htx_get_blk_type blk) = false) h ->
  forall offset len, htx_runs h offset len = [].
Proof.
  induction 1 as [|blk rest Hblk _ IH]; intros offset len; simpl; [reflexivity|].
  destruct (len =? 0); [reflexivity|].
  destruct (offset >=? htx_get_blksz blk); [apply IH|].
  rewrite Hblk, IH. reflexivity.
Qed.

(** The runs never hold more than [len] bytes: the walk stops when [len]
    bytes were walked, or at the end of the message. *)
Lemma payloadBytesIn_le h :
  forall offset len,
    0 <= len < UINT_MOD -> 0 <= payloadBytesIn h offset len <= len.
Proof.
  unfold payloadBytesIn.
  induction h as [|blk rest IH]; intros offset len Hlen; cbn [htx_runs];
    [simpl; lia|].
  destruct (Z.eqb_spec len 0); [simpl; lia|].
  destruct (offset >=? htx_get_blksz blk); [apply IH; exact Hlen|].
  set (v := htx_slice blk offset len).
  assert (Hv : 0 <= snd v <= len).
  { unfold v, htx_slice. simpl.
    pose proof (Z.mod_pos_bound (ist_len (htx_get_blk_value blk) - offset)
                  SIZE_MOD eq_refl) as Hmod.
    fold (to_size (ist_len (htx_get_blk_value blk) - offset)) in Hmod.
    destruct (Z.gtb_spec (to_size (ist_len (htx_get_blk_value blk) - offset))
                len); lia. }
  rewrite (to_uint_small (len - snd v)) by lia.
  specialize (IH 0 (len - snd v)).
  assert (Hrun : 0 <= ist_len (ist_bytes v) <= snd v).
  { unfold ist_bytes, ist_len. rewrite length_firstn. lia. }
  destruct (is_data (htx_get_blk_type blk)); cbn [app fold_right]; lia.
Qed.

(** What a block in the window takes off the length: the bytes of its
    value behind the offset, at most the length left; the whole length
    left when the offset lies behind the value, where [v.len -= offset]
    wraps around. *)
Lemma htx_slice_len blk offset len :
  0 <= offset < UINT_MOD -> 0 <= len < UINT_MOD ->
  ist_len (htx_get_blk_value blk) < SIZE_MOD ->
  snd (htx_slice blk offset len)
  = (if offset <=? ist_len (htx_get_blk_value blk)
     then Z.min len (ist_len (htx_get_blk_value blk) - offset)
     else len).
Proof.
  intros Hoff Hlen Hv. unfold htx_slice. cbn [snd].
  assert (H0 : 0 <= ist_len (htx_get_blk_value blk))
    by (unfold ist_len; lia).
  unfold UINT_MOD, SIZE_MOD in *.
  destruct (Z.leb_spec offset (ist_len (htx_get_blk_value blk))) as [Hin|Hout].
  - rewrite to_size_small by (unfold SIZE_MOD; lia).
    destruct (Z.gtb_spec (ist_len (htx_get_blk_value blk) - offset) len); lia.
  - assert (Hwrap : to_size (ist_len (htx_get_blk_value blk) - offset)
                    = ist_len (htx_get_blk_value blk) - offset
                      + 18446744073709551616).
    { unfold to_size, SIZE_MOD.
      rewrite <- (Z.mod_add _ 1) by lia.
      rewrite Z.mod_small by lia. lia. }
    rewrite Hwrap.
    destruct (Z.gtb_spec (ist_len (htx_get_blk_value blk) - offset
                          + 18446744073709551616) len); lia.
Qed.

(** C4, as the source has it.  The walk of [trace_htx_hexdump] yields
    payload runs only, but neither its offset nor its length is measured
    over payload alone.  A block whose size is at most the offset is
    passed over and takes its size off the offset, whatever its type.  A
    block that the offset falls in, and every block behind it, takes
    [n] off the length, whatever its type: [n] is the length of its value
    behind the offset, cut at the length left, and the whole length left
    when the offset lies behind the value; a payload block yields these
    [n] bytes as a run, another block yields nothing.  The walk ends with
    the blocks or when the length is used up, the dump is the dumps of the
    runs, and the runs hold at most [len] bytes.  For the blocks
    [HEADER, DATA "abc", DATA "defgh", END] the window of six bytes that
    starts one byte behind the header is ["bc"] then ["defg"], six bytes
    in all. *)
Theorem htx_window_counts_every_block (blk : htx_blk) (rest : htx) offset len :
  let sz := htx_get_blksz blk in
  let v := htx_get_blk_value blk in
  let n := if offset <=? ist_len v then Z.min len (ist_len v - offset)
           else len in
  0 <= offset < UINT_MOD -> 0 < len < UINT_MOD ->
  0 <= sz -> ist_len v < SIZE_MOD ->
  (sz <= offset ->
   htx_runs (blk :: rest) offset len = htx_runs rest (offset - sz) len)
  /\
  (offset < sz ->
   0 <= n <= len /\
   htx_runs (blk :: rest) offset len
   = ((if is_data (htx_get_blk_type blk)
       then [firstn (Z.to_nat n) (skipn (Z.to_nat offset) v)] else [])
      ++ htx_runs rest 0 (len - n))%list)
  /\
  htx_runs [] offset len = [] /\ htx_runs (blk :: rest) offset 0 = []
  /\
  (forall h o l,
     trace_htx_hexdump h o l
     = concat_str (map trace_hexdump (htx_runs h o l)))
  /\
  (forall h o l, 0 <= l < UINT_MOD -> 0 <= payloadBytesIn h o l <= l)
  /\
  (forall hdr,
     0 <= htx_get_blksz hdr < UINT_MOD - 1 ->
     htx_runs [hdr; data_blk (bytes "abc"); data_blk (bytes "defgh");
               sample_eom] (htx_get_blksz hdr + 1) 6
     = [bytes "bc"; bytes "defg"] /\
     ist_len (bytes "bc") + ist_len (bytes "defg") = 6).
Proof.
  intros sz v n Hoff Hlen Hsz Hv.
  assert (Hn : snd (htx_slice blk offset len) = n)
    by (apply htx_slice_len; [exact Hoff|lia|exact Hv]).
  assert (Hv0 : 0 <= ist_len v) by (unfold ist_len; lia).
  assert (Hrange : 0 <= n <= len)
    by (unfold n; destruct (Z.leb_spec offset (ist_len v)); lia).
  split; [|split; [|split; [|split; [|split; [|split]]]]].
  - intros Hskip. rewrite htx_runs_skip by (fold sz; lia).
    fold sz. rewrite to_uint_small by lia. reflexivity.
  - intros Hin. split; [exact Hrange|].
    cbn [htx_runs]. fold sz.
    destruct (Z.eqb_spec len 0) as [|_]; [lia|].
    destruct (Z.geb_spec offset sz) as [|_]; [lia|].
    rewrite Hn. unfold ist_bytes. rewrite Hn.
    unfold htx_slice. cbn [fst]. fold v.
    rewrite to_uint_small by lia. reflexivity.
  - reflexivity.
  - reflexivity.
  - intros h o l. apply trace_htx_hexdump_runs.
  - intros h o l. apply payloadBytesIn_le.
  - intros hdr Hhdr. split; [|reflexivity].
    rewrite htx_runs_skip by lia.
    replace (htx_get_blksz hdr + 1 - htx_get_blksz hdr) with 1 by lia.
    reflexivity.
Qed.

(** The sample message at the offset zero: the header ["h: v"] has the
    size two and a value of one byte; it yields no run and takes one byte
    off the six asked for, so that the runs are those of five bytes of
    payload. *)
Lemma htx_window_counts_every_block_witness :
  htx_runs sample_htx 0 6 = htx_runs (tl sample_htx) 0 5 /\
  htx_runs sample_htx 0 6 = [bytes "abc"; bytes "de"].
Proof.
  assert (Hoff : 0 <= 0 < UINT_MOD) by (split; [discriminate|reflexivity]).
  assert (Hlen : 0 < 6 < UINT_MOD) by (split; reflexivity).
  assert (Hsz : 0 <= htx_get_blksz sample_header) by discriminate.
  assert (Hv : ist_len (htx_get_blk_value sample_header) < SIZE_MOD)
    by reflexivity.
  assert (Hin : 0 < htx_get_blksz sample_header) by reflexivity.
  pose proof (proj2 (proj1 (proj2 (htx_window_counts_every_block
                                     sample_header (tl sample_htx) 0 6
                                     Hoff Hlen Hsz Hv)) Hin)) as Hrun.
  split; [exact Hrun|].
  exact (eq_trans Hrun eq_refl).
Defined.

(** C4, as the spec words it, fails on the sample message: at the offset
    one the window starts inside the header, which takes none of the six
    bytes here, and the runs are ["abc"] and ["def"]; and the two runs of
    the spec hold six bytes, not five. *)
Lemma htx_window_skipping_counterexample :
  htx_runs sample_htx 1 6 = [bytes "abc"; bytes "def"] /\
  htx_runs sample_htx 1 6 <> [bytes "bc"; bytes "defg"] /\
  ist_len (bytes "bc") + ist_len (bytes "defg") <> 5.
Proof.
  split; [reflexivity|]. split; discriminate.
Qed.

(** The same for every header of one byte or more, whatever its value:
    the first run is never ["bc"]. *)
Lemma htx_window_header_counts (hdr : htx_blk) rest :
  htx_get_blk_type hdr = HTX_BLK_HDR -> 1 <= htx_get_blksz hdr ->
  forall run runs,
    htx_runs (hdr :: data_blk (bytes "abc") :: rest) 1 6 = run :: runs ->
    nth 0 run x00 = "a"%byte.
Proof.
  intros Htype Hsz run runs.
  assert (Hdata : forall n,
            0 < n ->
            htx_runs (data_blk (bytes "abc") :: rest) 0 n = run :: runs ->
            nth 0 run x00 = "a"%byte).
  { intros n Hn. cbn [htx_runs].
    destruct (Z.eqb_spec n 0); [lia|].
    change (0 >=? htx_get_blksz (data_blk (bytes "abc"))) with false.
    cbv iota. cbn [data_blk htx_get_blk_type is_data app].
    intros [= <- _]. unfold ist_bytes, htx_slice. cbn [fst snd].
    change (skipn (Z.to_nat 0) (htx_get_blk_value (data_blk (bytes "abc"))))
      with (bytes "abc").
    change (to_size (ist_len (htx_get_blk_value (data_blk (bytes "abc"))) - 0))
      with 3.
    destruct (Z.gtb_spec 3 n) as [Hcut|_]; [|reflexivity].
    destruct (Z.to_nat n) eqn:E; [lia|reflexivity]. }
  destruct (Z_le_gt_dec (htx_get_blksz hdr) 1) as [Hone|Hin].
  - rewrite htx_runs_skip by lia.
    replace (htx_get_blksz hdr) with 1 by lia.
    apply Hdata. reflexivity.
  - cbn [htx_runs]. change (6 =? 0) with false. cbv iota.
    destruct (Z.geb_spec 1 (htx_get_blksz hdr)); [lia|].
    rewrite Htype. cbn [is_data app].
    set (n := to_uint (6 - snd (htx_slice hdr 1 6))).
    destruct (Z.eq_dec n 0) as [E|E].
    + rewrite E. cbn [htx_runs]. change (0 =? 0) with true. cbv iota.
      discriminate.
    + apply Hdata. pose proof (to_uint_range (6 - snd (htx_slice hdr 1 6))).
      fold n in H. lia.
Qed.

(* ===================================================================== *)
(** * The dump of a window of a ring buffer *)
(* ===================================================================== *)

Lemma firstn_skipn_nth (l : list byte) n :
  forall a,
    (a + n <= List.length l)%nat ->
    firstn n (skipn a l) = map (fun k => nth (a + k) l x00) (seq 0 n).
Proof.
  induction n as [|n IH]; intros a Hle; [reflexivity|].
  destruct (skipn a l) as [|x t] eqn:E.
  - apply (f_equal (@List.length byte)) in E. rewrite length_skipn in E.
    simpl in E. lia.
  - assert (Hx : nth a l x00 = x).
    { rewrite <- (firstn_skipn a l) at 1.
      rewrite app_nth2; rewrite length_firstn, Nat.min_l by lia; [|lia].
      rewrite Nat.sub_diag, E. reflexivity. }
    assert (Ht : skipn (S a) l = t) by (rewrite skipn_succ_tl, E; reflexivity).
    cbn [firstn seq map]. rewrite Nat.add_0_r, Hx. f_equal.
    rewrite <- Ht, (IH (S a)) by lia.
    rewrite <- seq_shift, map_map.
    apply map_ext. intros k. f_equal. lia.
Qed.

Lemma memcpy_inside area ofs n :
  0 <= ofs -> 0 <= n -> ofs + n <= Z.of_nat (List.length area) ->
  memcpy area ofs n
  = Some (firstn (Z.to_nat n) (skipn (Z.to_nat ofs) area)).
Proof.
  intros Ho Hn Hle. unfold memcpy.
  destruct (Z.leb_spec 0 ofs); [|lia].
  destruct (Z.leb_spec 0 n); [|lia].
  destruct (Z.leb_spec (ofs + n) (Z.of_nat (List.length area))); [|lia].
  reflexivity.
Qed.

Lemma seq_shiftn a n : seq a n = map (fun k => (a + k)%nat) (seq 0 n).
Proof.
  revert a. induction n as [|n IH]; intros a; [reflexivity|].
  cbn [seq map]. rewrite Nat.add_0_r. f_equal.
  rewrite (IH (S a)), (IH 1%nat), map_map.
  apply map_ext. intros k. lia.
Qed.

(** X1.  At the offset zero the dump is the dump of the window, wrapped or
    not: the first span is read from the head, the second one from the
    origin. *)
Lemma trace_raw_hexdump_at_head b len :
  buffer_wf b -> 0 <= len <= b_data b ->
  trace_raw_hexdump b len 0 = Some (trace_hexdump (b_window b 0 len)).
Proof.
  intros (Harea & Hhead & Hdata & Hsize) Hlen.
  unfold trace_raw_hexdump, INT_MAX in *.
  destruct (Z.ltb_spec len 0) as [?|_]; [lia|].
  change (to_size 0) with 0.
  rewrite (to_size_small len) by (unfold SIZE_MOD; lia).
  assert (Hc : b_contig_data b 0 = Z.min (b_size b - b_head b) (b_data b)).
  { unfold b_contig_data, b_peek, b_wrap. rewrite Z.add_0_r, Z.sub_0_r.
    destruct (Z.geb_spec (b_head b) (b_size b)) as [?|_]; [lia|].
    rewrite !to_size_small by (unfold SIZE_MOD; lia).
    destruct (Z.gtb_spec (b_size b - b_head b) (b_data b)); lia. }
  rewrite Hc.
  set (block1 := if len >? Z.min (b_size b - b_head b) (b_data b)
                 then to_int (Z.min (b_size b - b_head b) (b_data b)) else len).
  assert (Hb1 : block1 = Z.min len (b_size b - b_head b)).
  { unfold block1.
    destruct (Z.gtb_spec len (Z.min (b_size b - b_head b) (b_data b))).
    - rewrite to_int_small by (unfold INT_MAX; lia). lia.
    - lia. }
  rewrite (to_int_small (len - block1)) by (unfold INT_MAX; lia).
  rewrite (to_size_small block1), (to_size_small (len - block1))
    by (unfold SIZE_MOD; lia).
  unfold b_orig.
  rewrite !memcpy_inside by lia.
  do 2 f_equal.
  unfold b_window.
  replace (Z.to_nat len) with (Z.to_nat block1 + Z.to_nat (len - block1))%nat
    by lia.
  rewrite seq_app, map_app.
  change (0 + Z.to_nat block1)%nat with (Z.to_nat block1). f_equal.
  - rewrite firstn_skipn_nth by lia.
    apply map_ext_in. intros k Hk. apply in_seq in Hk. f_equal.
    unfold b_peek.
    destruct (Z.geb_spec (b_head b + (0 + Z.of_nat k)) (b_size b)); lia.
  - change (Z.to_nat 0) with 0%nat.
    rewrite firstn_skipn_nth by lia.
    rewrite (seq_shiftn (Z.to_nat block1) (Z.to_nat (len - block1))), map_map.
    apply map_ext_in. intros k Hk. apply in_seq in Hk. f_equal.
    unfold b_peek.
    destruct (Z.geb_spec (b_head b + (0 + Z.of_nat (Z.to_nat block1 + k)))
                (b_size b)); lia.
Qed.

(** C5 at the offset two of the sample buffer, which holds ["ABCDEFGH"]
    from its origin on: the window of three bytes is ["CDE"]; the source
    measures the first span from the offset ([b_contig_data(buf, out)]) and
    copies it from the head ([b_head(buf)]), so that the dump is the dump of
    ["ABC"]. *)
Theorem trace_raw_hexdump_reads_from_head :
  b_window sample_buffer 2 3 = bytes "CDE" /\
  trace_raw_hexdump sample_buffer 3 2 = Some (trace_hexdump (bytes "ABC")) /\
  trace_raw_hexdump sample_buffer 3 2
  <> Some (trace_hexdump (b_window sample_buffer 2 3)).
Proof.
  split; [reflexivity|]. split; [reflexivity|]. discriminate.
Qed.

(** The call that makes this dump: the forwarding hook on the sample
    channel, whose two bytes of output put the window at the offset two. *)
Example trace_tcp_forward_data_dumps_head :
  exists w',
    trace_tcp_forward_data sample_stream (sample_filter false false true) 3 0
      sample_world = Some (3, w') /\
    dumps (w_diag w') = [trace_hexdump (bytes "ABC")].
Proof. eexists. split; reflexivity. Qed.

(** In the wrapped buffer the window of five bytes at the offset three is
    ["defgh"]; the first span, measured from the offset and read from the
    head, leaves the storage area. *)
Example trace_raw_hexdump_wrapped_overrun :
  buffer_wf wrapped_buffer /\
  b_window wrapped_buffer 3 5 = bytes "defgh" /\
  trace_raw_hexdump wrapped_buffer 5 3 = None.
Proof.
  split; [|split; reflexivity].
  repeat split; try discriminate; reflexivity.
Qed.

(** At the offset zero the wrapped window is dumped as its unwrapped
    copy: two bytes from the head, three from the origin. *)
Lemma trace_raw_hexdump_at_head_witness :
  trace_raw_hexdump wrapped_buffer 5 0 = Some (trace_hexdump (bytes "abcde")).
Proof.
  assert (Hwf : buffer_wf wrapped_buffer)
    by (repeat split; try discriminate; reflexivity).
  assert (Hlen : 0 <= 5 <= b_data wrapped_buffer) by (split; discriminate).
  exact (trace_raw_hexdump_at_head wrapped_buffer 5 Hwf Hlen).
Defined.

(* ===================================================================== *)
(** * The parser of the keyword *)
(* ===================================================================== *)

Lemma arg_keyword (pre : list string) kw l :
  arg (pre ++ kw :: l) (List.length pre) = kw.
Proof.
  unfold arg. rewrite app_nth2 by lia. rewrite Nat.sub_diag. reflexivity.
Qed.

Lemma arg_after_keyword (pre : list string) kw l i :
  arg (pre ++ kw :: l) (List.length pre + 1 + i) = nth i l "".
Proof.
  unfold arg. rewrite app_nth2 by lia.
  replace (List.length pre + 1 + i - List.length pre)%nat with (S i) by lia.
  reflexivity.
Qed.

Lemma is_flag_cases tok :
  is_flag tok = true ->
  tok = "random-parsing" \/ tok = "random-forwarding" \/ tok = "hexdump".
Proof.
  unfold is_flag. intros H.
  apply orb_true_iff in H. destruct H as [H|H].
  - apply orb_true_iff in H. destruct H as [H|H].
    + left. apply String.eqb_eq. exact H.
    + right. left. apply String.eqb_eq. exact H.
  - right. right. apply String.eqb_eq. exact H.
Qed.

(** The loop over a run of flags: each one sets its field, and the loop
    goes on behind the run. *)
Lemma parse_loop_flags alloc_ok args kw flags :
  forall fuel st,
    (List.length flags < fuel)%nat ->
    Forall (fun tok => is_flag tok = true) flags ->
    (forall i, (i < List.length flags)%nat ->
               arg args (ps_pos st + i) = nth i flags "") ->
    parse_loop alloc_ok fuel args kw st
    = parse_loop alloc_ok (fuel - List.length flags) args kw
        {| ps_pos := ps_pos st + List.length flags;
           ps_conf := fold_left apply_flag flags (ps_conf st);
           ps_name := ps_name st; ps_heap := ps_heap st |}.
Proof.
  induction flags as [|tok flags IH]; intros fuel st Hfuel Hflags Hargs.
  - simpl. rewrite Nat.sub_0_r, Nat.add_0_r. destruct st; reflexivity.
  - destruct fuel as [|fuel]; [simpl in Hfuel; lia|].
    inversion Hflags as [|? ? Htok Hrest]; subst.
    assert (Ha : arg args (ps_pos st) = tok).
    { specialize (Hargs 0%nat). rewrite Nat.add_0_r in Hargs.
      apply Hargs. simpl. lia. }
    assert (Hnext : forall st',
              ps_pos st' = (ps_pos st + 1)%nat ->
              forall i, (i < List.length flags)%nat ->
                        arg args (ps_pos st' + i) = nth i flags "").
    { intros st' Hpos i Hi. rewrite Hpos.
      replace (ps_pos st + 1 + i)%nat with (ps_pos st + S i)%nat by lia.
      apply (Hargs (S i)). simpl. lia. }
    cbn [parse_loop List.length fold_left].
    replace (S fuel - S (List.length flags))%nat
      with (fuel - List.length flags)%nat by lia.
    simpl in Hfuel.
    destruct (is_flag_cases tok Htok) as [E | [E | E]];
      rewrite E in Ha |- *; rewrite Ha;
      cbn [String.eqb Ascii.eqb Bool.eqb andb]; cbv iota;
      (rewrite IH; [|lia|exact Hrest|apply Hnext; reflexivity]);
      cbn [ps_pos ps_conf ps_name ps_heap at_pos with_conf];
      unfold apply_flag; cbn [String.eqb Ascii.eqb Bool.eqb andb]; cbv iota;
      do 2 f_equal; lia.
Qed.


(* ===================================================================== *)
(** * More on the data hooks *)
(* ===================================================================== *)

(** X3.  A data hook wakes the task up only when it has to: a call that
    returns the whole count leaves the wake-ups as they were, for
    [trace_http_data], [trace_tcp_data], [trace_http_payload] and
    [trace_tcp_forward_data].  [trace_http_forward_data] has a second
    reason: it also wakes the task up, once, after forwarding everything
    when the filter's next offset is not its forward offset plus the count
    returned. *)
Theorem full_return_does_not_wake s f msg offset len r w :
  0 <= len < UINT_MOD ->
  (forall d w',
     trace_http_data s f msg r w = Some (d, w') ->
     d = http_data_avail f msg (w_chn w) -> w_wakeups w' = w_wakeups w)
  /\
  (forall d w',
     trace_tcp_data s f r w = Some (d, w') ->
     d = tcp_data_avail f (w_chn w) -> w_wakeups w' = w_wakeups w)
  /\
  (forall d w',
     trace_http_payload s f offset len r w = Some (d, w') \/
     trace_tcp_forward_data s f len r w = Some (d, w') ->
     d = to_int len -> w_wakeups w' = w_wakeups w)
  /\
  (forall d w',
     trace_http_forward_data s f len r w = Some (d, w') ->
     d = to_int len ->
     w_wakeups w'
     = if FLT_NXT f (w_chn w) =? to_uint (FLT_FWD f (w_chn w) + d)
       then w_wakeups w else S (w_wakeups w)).
Proof.
  intros Hlen.
  assert (Hfull : (to_uint (to_int len) =? len) = true).
  { apply Z.eqb_eq. rewrite to_uint_to_int. apply to_uint_small. exact Hlen. }
  split; [|split; [|split]].
  - intros d w'. rewrite trace_http_data_run. cbv zeta.
    destruct (decideConsume _ _ _) as [d0|]; [|discriminate].
    intros [= <- <-] ->. simpl. rewrite Z.eqb_refl. reflexivity.
  - intros d w'. rewrite trace_tcp_data_run. cbv zeta.
    destruct (decideConsume _ _ _) as [d0|]; [|discriminate].
    intros [= <- <-] ->. simpl. rewrite Z.eqb_refl. reflexivity.
  - intros d w' [Hrun|Hrun] ->; revert Hrun.
    + rewrite trace_http_payload_run. cbv zeta.
      destruct (if negb _ && _ then _ else _) as [d0|]; [|discriminate].
      intros [= -> <-]. simpl. rewrite Hfull. reflexivity.
    + rewrite trace_tcp_forward_data_run. cbv zeta.
      destruct (decideConsume _ _ _) as [d0|]; [|discriminate].
      destruct (hexdump _).
      * destruct (trace_raw_hexdump _ _ _); [|discriminate].
        intros [= -> <-]. simpl. rewrite Hfull. reflexivity.
      * intros [= -> <-]. simpl. rewrite Hfull. reflexivity.
  - intros d w' Hrun ->. revert Hrun.
    rewrite trace_http_forward_data_run. cbv zeta.
    destruct (decideConsume _ _ _) as [d0|]; [|discriminate].
    destruct (hexdump _).
    + destruct (trace_raw_hexdump _ _ _); [|discriminate].
      intros [= -> <-]. cbn [w_wakeups]. rewrite Hfull. cbn [negb orb].
      unfold woken. destruct (FLT_NXT f (w_chn w) =? _); reflexivity.
    + intros [= -> <-]. cbn [w_wakeups]. rewrite Hfull. cbn [negb orb].
      unfold woken. destruct (FLT_NXT f (w_chn w) =? _); reflexivity.
Qed.

(** On the sample channel the filter has inspected three bytes and
    forwarded none: [trace_tcp_forward_data] forwards four bytes and wakes
    nobody; [trace_http_forward_data] forwards them too and wakes the task
    up, for the next offset, three, is not zero plus four. *)
Lemma full_return_does_not_wake_witness :
  (exists w',
     trace_tcp_forward_data sample_stream (sample_filter false false false) 4 7
       sample_world = Some (4, w') /\ w_wakeups w' = 0%nat) /\
  (exists w',
     trace_http_forward_data sample_stream (sample_filter false false false)
       4 7 sample_world = Some (4, w') /\ w_wakeups w' = 1%nat).
Proof.
  assert (Hlen : 0 <= 4 < UINT_MOD) by (split; [discriminate|reflexivity]).
  destruct (full_return_does_not_wake sample_stream
              (sample_filter false false false) sample_msg 0 4 7 sample_world
              Hlen) as (_ & _ & Htcp & Hhttp).
  split.
  - eexists. split; [vm_compute; reflexivity|].
    apply (Htcp 4); [right; vm_compute; reflexivity|reflexivity].
  - eexists. split; [vm_compute; reflexivity|].
    refine (eq_trans (Hhttp 4 _ _ eq_refl) _);
      [vm_compute; reflexivity|reflexivity].
Defined.

(** What a dump of a raw window is made of: as many bytes as asked for. *)
Lemma trace_raw_hexdump_length buf len out text :
  len <= INT_MAX ->
  trace_raw_hexdump buf len out = Some text ->
  exists p, text = trace_hexdump p /\ ist_len p = len /\ 0 <= len.
Proof.
  intros Hmax. unfold trace_raw_hexdump.
  destruct (Z.ltb_spec len 0) as [?|Hlen]; [discriminate|].
  set (contig := b_contig_data buf (to_size out)).
  assert (Hc : 0 <= contig).
  { assert (Hs : forall x, 0 <= to_size x)
      by (intros x; unfold to_size; apply Z.mod_pos_bound; reflexivity).
    unfold contig, b_contig_data. cbv zeta. destruct (_ >? _); apply Hs. }
  unfold INT_MAX in Hmax.
  rewrite (to_size_small len) by (unfold SIZE_MOD; lia).
  set (block1 := if len >? contig then to_int contig else len).
  assert (Hb1 : 0 <= block1 <= len).
  { unfold block1. destruct (Z.gtb_spec len contig).
    - rewrite to_int_small by (unfold INT_MAX; lia). lia.
    - lia. }
  rewrite (to_int_small (len - block1)) by (unfold INT_MAX; lia).
  rewrite (to_size_small block1), (to_size_small (len - block1))
    by (unfold SIZE_MOD; lia).
  unfold memcpy.
  destruct (_ && _ && (b_head buf + block1 <=? _)) eqn:H1; [|discriminate].
  destruct (_ && _ && (b_orig buf + (len - block1) <=? _)) eqn:H2;
    [|discriminate].
  intros [= <-]. eexists. split; [reflexivity|]. split; [|exact Hlen].
  apply andb_prop in H1. destruct H1 as (H1 & H1').
  apply andb_prop in H2. destruct H2 as (H2 & H2').
  apply andb_prop in H1. destruct H1 as (H1 & _).
  apply Z.leb_le in H1, H1', H2'. unfold b_orig in *.
  unfold ist_len. rewrite length_app, !length_firstn, !length_skipn. lia.
Qed.

(** X4.  A call of a data hook prints one line of [STRM_TRACE] and then,
    for the hooks that dump, one dump when dumps are on, after the line.
    [trace_http_data] and [trace_tcp_data] never dump, whatever the
    flag.  [trace_http_payload] dumps the window asked for;
    [trace_http_forward_data] and [trace_tcp_forward_data] dump as many
    bytes as they return. *)
Theorem one_line_then_one_dump s f msg offset len r w :
  (forall d w',
     trace_http_data s f msg r w = Some (d, w') \/
     trace_tcp_data s f r w = Some (d, w') ->
     printed w w' [])
  /\
  (forall d w',
     trace_http_payload s f offset len r w = Some (d, w') ->
     printed w w'
       (if hexdump (FLT_CONF f)
        then [trace_htx_hexdump (htxbuf (chn_buf (w_chn w))) offset len]
        else []))
  /\
  (forall d w',
     trace_http_forward_data s f len r w = Some (d, w') \/
     trace_tcp_forward_data s f len r w = Some (d, w') ->
     if hexdump (FLT_CONF f)
     then exists p, ist_len p = d /\ printed w w' [trace_hexdump p]
     else printed w w' []).
Proof.
  split; [|split].
  - intros d w' [Hrun|Hrun]; revert Hrun.
    + rewrite trace_http_data_run. cbv zeta.
      destruct (decideConsume _ _ _); [|discriminate].
      intros [= _ <-]. eexists. split; [|reflexivity]. reflexivity.
    + rewrite trace_tcp_data_run. cbv zeta.
      destruct (decideConsume _ _ _); [|discriminate].
      intros [= _ <-]. eexists. split; [|reflexivity]. reflexivity.
  - intros d w'. rewrite trace_http_payload_run. cbv zeta.
    destruct (if negb _ && _ then _ else _); [|discriminate].
    intros [= _ <-].
    destruct (hexdump _); (eexists; split; [|reflexivity]; reflexivity).
  - assert (Hint : INT_MIN <= to_int len <= INT_MAX) by apply to_int_range.
    intros d w' [Hrun|Hrun]; revert Hrun.
    + rewrite trace_http_forward_data_run. cbv zeta.
      destruct (decideConsume _ _ _) as [d0|] eqn:Hd0; [|discriminate].
      pose proof (decideConsume_int _ _ _ _ Hint Hd0) as Hd0i.
      destruct (hexdump _).
      * destruct (trace_raw_hexdump _ _ _) as [text|] eqn:Htext; [|discriminate].
        intros [= <- <-].
        destruct (trace_raw_hexdump_length _ _ _ _ (proj2 Hd0i) Htext)
          as (p & -> & Hp & _).
        exists p. split; [exact Hp|].
        eexists. split; [|reflexivity]. reflexivity.
      * intros [= _ <-]. eexists. split; [|reflexivity]. reflexivity.
    + rewrite trace_tcp_forward_data_run. cbv zeta.
      destruct (decideConsume _ _ _) as [d0|] eqn:Hd0; [|discriminate].
      pose proof (decideConsume_int _ _ _ _ Hint Hd0) as Hd0i.
      destruct (hexdump _).
      * destruct (trace_raw_hexdump _ _ _) as [text|] eqn:Htext; [|discriminate].
        intros [= <- <-].
        destruct (trace_raw_hexdump_length _ _ _ _ (proj2 Hd0i) Htext)
          as (p & -> & Hp & _).
        exists p. split; [exact Hp|].
        eexists. split; [|reflexivity]. reflexivity.
      * intros [= _ <-]. eexists. split; [|reflexivity]. reflexivity.
Qed.

(** The sample channel with dumps on: [trace_tcp_data] prints its line
    only. *)
Lemma one_line_then_one_dump_witness :
  exists d w',
    trace_tcp_data sample_stream (sample_filter false false true) 7
      sample_world = Some (d, w') /\
    printed sample_world w' [].
Proof.
  eexists. eexists. split; [vm_compute; reflexivity|].
  apply (proj1 (one_line_then_one_dump sample_stream
                  (sample_filter false false true) sample_msg 0 4 7
                  sample_world) 3).
  right. vm_compute. reflexivity.
Defined.




(** The count [data] of [trace_http_payload] lies between what it starts
    from and [len]. *)
Lemma payload_data_bounds h :
  forall off data len,
    0 <= data <= len -> 0 <= payload_data h off data len <= len.
Proof.
  induction h as [|blk rest IH]; intros off data len Hdata; simpl; [exact Hdata|].
  destruct (negb _); [exact Hdata|].
  destruct (off >=? htx_get_blksz blk); [apply IH; exact Hdata|].
  destruct (Z.gtb_spec (to_uint (data + (htx_get_blksz blk - off))) len);
    [lia|].
  apply IH. pose proof (to_uint_range (data + (htx_get_blksz blk - off))). lia.
Qed.

(** X6.  The payload hook of structured messages never returns a count
    strictly between the payload it has counted and the length asked for:
    the count returned is [len], or it is at most [data], the count of
    payload bytes that the hook took from the leading payload blocks
    behind [offset]; and [data] is at most [len]. *)
Theorem payload_count_is_len_or_within_data s f offset len r w :
  let data := payload_data (htxbuf (chn_buf (w_chn w))) offset 0 len in
  0 <= r <= RAND_MAX -> count_ok (rand_forwarding (FLT_CONF f)) len ->
  exists d w',
    trace_http_payload s f offset len r w = Some (d, w') /\
    (d = len \/ 0 <= d <= data) /\ 0 <= data <= len.
Proof.
  intros data Hr Hok.
  assert (Hdata : 0 <= data <= len).
  { apply payload_data_bounds. destruct Hok as (H & _). lia. }
  rewrite trace_http_payload_run. cbv zeta. fold data.
  rewrite (count_ok_to_int _ _ Hok).
  destruct (decideConsume_bounds len _ r Hr Hok) as (d & Hd & Hb).
  unfold decideConsume in Hd.
  destruct (negb (len =? 0) && rand_forwarding (FLT_CONF f)).
  - rewrite Hd.
    rewrite (to_uint_small d)
      by (destruct Hok as (H & _); unfold UINT_MOD, INT_MAX in *; lia).
    eexists. eexists. split; [reflexivity|]. split; [|exact Hdata].
    destruct (Z.gtb_spec d data); [left; reflexivity|right; lia].
  - eexists. eexists. split; [reflexivity|]. split; [left; reflexivity|].
    exact Hdata.
Qed.

(** The sample message behind its header, offset two: no payload is
    counted, and the draw 7 gives four of four bytes. *)
Lemma payload_count_is_len_or_within_data_witness :
  exists d w',
    trace_http_payload sample_stream (sample_filter false true false) 2 4 7
      sample_world = Some (d, w') /\
    (d = 4 \/ 0 <= d <= 0).
Proof.
  destruct (payload_count_is_len_or_within_data sample_stream
              (sample_filter false true false) 2 4 7 sample_world)
    as (d & w' & Hrun & Hd & _).
  - split; discriminate.
  - split; [split; discriminate|reflexivity].
  - exists d, w'. split; [exact Hrun|exact Hd].
Defined.

(* ===================================================================== *)
(** * More on the walks over the blocks *)
(* ===================================================================== *)

Lemma leading_payload_nonneg h : htx_wf h -> 0 <= leading_payload h.
Proof.
  induction 1 as [|blk rest (Hsz & _) _ IH]; simpl; [lia|].
  destruct (is_data _); lia.
Qed.

(** The count of [trace_http_payload] with something counted already. *)
Lemma payload_data_closed_form h :
  htx_wf h ->
  forall off data len,
    0 <= off < UINT_MOD -> 0 <= data <= len -> len <= INT_MAX ->
    payload_data h off data len
    = Z.min len (data + Z.max 0 (leading_payload h - off)).
Proof.
  induction 1 as [|blk rest (Hsz & _) Hrest IH];
    intros off data len Hoff Hdata Hlen; simpl.
  - lia.
  - pose proof (leading_payload_nonneg rest Hrest) as Hlead.
    destruct (is_data (htx_get_blk_type blk)); simpl; [|lia].
    unfold INT_MAX, UINT_MOD in *.
    destruct (Z.geb_spec off (htx_get_blksz blk)).
    + rewrite to_uint_small by (unfold UINT_MOD; lia).
      rewrite IH by lia. f_equal. f_equal. lia.
    + rewrite to_uint_small by (unfold UINT_MOD; lia).
      destruct (Z.gtb_spec (data + (htx_get_blksz blk - off)) len); [lia|].
      rewrite IH by lia. lia.
Qed.

(** X7.  The count [data] that [trace_http_payload] takes before its draw is
    the payload of the leading payload blocks behind [offset], cut at
    [len]: [min(len, max(0, leading - offset))], where [leading] is the
    size of the blocks up to the first one that is no payload.  Payload
    behind a header, a trailer or a marker is not counted. *)
Theorem payload_data_is_leading_payload h offset len :
  htx_wf h -> 0 <= offset < UINT_MOD -> 0 <= len <= INT_MAX ->
  payload_data h offset 0 len
  = Z.min len (Z.max 0 (leading_payload h - offset)).
Proof.
  intros Hwf Hoff Hlen.
  rewrite (payload_data_closed_form h Hwf) by lia. reflexivity.
Qed.

(** Two payload blocks of three and five bytes before the end of the
    message: behind the offset one, seven bytes, of which six are asked
    for. *)
Lemma payload_data_is_leading_payload_witness :
  payload_data (tl sample_htx) 1 0 6 = 6 /\
  leading_payload (tl sample_htx) = 8.
Proof.
  split; [|reflexivity].
  rewrite (payload_data_is_leading_payload (tl sample_htx) 1 6).
  - reflexivity.
  - repeat constructor; try discriminate.
  - split; [discriminate|reflexivity].
  - split; discriminate.
Defined.

Lemma htx_runs_zero h offset : htx_runs h offset 0 = [].
Proof. destruct h; reflexivity. Qed.

(** The runs of a message made of payload blocks, put end to end. *)
Lemma htx_runs_data_slice h :
  all_data h -> htx_wf h ->
  forall offset len,
    0 <= offset < UINT_MOD -> 0 <= len < UINT_MOD ->
    List.concat (htx_runs h offset len)
    = firstn (Z.to_nat len) (skipn (Z.to_nat offset) (htx_body h)).
Proof.
  unfold htx_body.
  induction 1 as [|blk rest Hdata _ IH]; intros Hwf offset len Hoff Hlen.
  - simpl. rewrite skipn_nil, firstn_nil. reflexivity.
  - inversion Hwf as [|? ? (Hsz & Hval) Hwf']; subst.
    specialize (Hval Hdata). specialize (IH Hwf').
    cbn [htx_runs map List.concat].
    destruct (Z.eqb_spec len 0) as [->|Hne]; [reflexivity|].
    unfold ist_len in Hval. unfold INT_MAX, UINT_MOD in *.
    rewrite skipn_app.
    destruct (Z.geb_spec offset (htx_get_blksz blk)) as [Hskip|Hin].
    + rewrite IH by (rewrite ?to_uint_small by (unfold UINT_MOD; lia);
                     unfold UINT_MOD; lia).
      rewrite to_uint_small by (unfold UINT_MOD; lia).
      rewrite (skipn_all2 (htx_get_blk_value blk)) by lia. cbn [app].
      do 2 f_equal. lia.
    + rewrite Hdata. cbn [is_data app List.concat].
      unfold htx_slice, ist_bytes, ist_len. cbn [fst snd].
      rewrite to_size_small by (unfold SIZE_MOD; lia).
      replace (Z.to_nat offset - List.length (htx_get_blk_value blk))%nat
        with 0%nat by lia.
      cbn [skipn]. rewrite firstn_app, length_skipn.
      destruct (Z.gtb_spec
                  (Z.of_nat (List.length (htx_get_blk_value blk)) - offset)
                  len) as [Hcut|Hall].
      * replace (len - len) with 0 by lia. change (to_uint 0) with 0.
        rewrite htx_runs_zero. cbn [List.concat].
        replace (Z.to_nat len
                 - (List.length (htx_get_blk_value blk) - Z.to_nat offset))%nat
          with 0%nat by lia.
        reflexivity.
      * rewrite to_uint_small by (unfold UINT_MOD; lia).
        rewrite IH by (unfold UINT_MOD; lia).
        change (Z.to_nat 0) with 0%nat. cbn [skipn].
        rewrite (firstn_all2 (n := Z.to_nat len))
          by (rewrite length_skipn; lia).
        rewrite (firstn_all2 (n := Z.to_nat (_ - offset)))
          by (rewrite length_skipn; lia).
        do 2 f_equal. lia.
Qed.

(** X8.  On a message made of payload blocks only, the runs that
    [trace_htx_hexdump] dumps are, put end to end, the bytes
    [offset, offset + len) of the body, cut where the body ends: no byte is
    dropped or taken twice where blocks meet. *)
Theorem htx_runs_slice_body h :
  all_data h -> htx_wf h ->
  forall offset len,
    0 <= offset < UINT_MOD -> 0 <= len < UINT_MOD ->
    List.concat (htx_runs h offset len)
    = firstn (Z.to_nat len) (skipn (Z.to_nat offset) (htx_body h)).
Proof. exact (htx_runs_data_slice h). Qed.

(** The two payload blocks ["abc"] and ["defgh"] and the window of six
    bytes behind the first one. *)
Lemma htx_runs_slice_body_witness :
  List.concat (htx_runs [data_blk (bytes "abc"); data_blk (bytes "defgh")] 1 6)
  = bytes "bcdefg".
Proof.
  rewrite (htx_runs_slice_body
             [data_blk (bytes "abc"); data_blk (bytes "defgh")]).
  - reflexivity.
  - repeat constructor.
  - repeat constructor; discriminate.
  - split; [discriminate|reflexivity].
  - split; [discriminate|reflexivity].
Defined.

(** X9.  A window that starts at or behind the end of the message gives
    no run and no dump: an offset of at least the sizes of all the blocks
    passes every block over. *)
Theorem htx_window_behind_the_end h :
  htx_wf h ->
  forall offset len,
    htx_size h <= offset < UINT_MOD ->
    htx_runs h offset len = [] /\ trace_htx_hexdump h offset len = "".
Proof.
  unfold htx_size.
  induction 1 as [|blk rest (Hsz & _) Hrest IH]; intros offset len Hoff.
  - split; reflexivity.
  - cbn [fold_right] in Hoff.
    assert (Hnn : 0 <= fold_right (fun blk acc => htx_get_blksz blk + acc) 0 rest).
    { clear -Hrest. induction Hrest as [|b l (Hb & _) _ IHl]; simpl; lia. }
    cbn [htx_runs trace_htx_hexdump].
    destruct (len =? 0); [split; reflexivity|].
    destruct (Z.geb_spec offset (htx_get_blksz blk)) as [_|?]; [|lia].
    apply IH. unfold UINT_MOD in *.
    rewrite to_uint_small by (unfold UINT_MOD; lia). lia.
Qed.

(** The sample message has eleven bytes of blocks in all. *)
Lemma htx_window_behind_the_end_witness :
  htx_size sample_htx = 11 /\ trace_htx_hexdump sample_htx 11 6 = "".
Proof.
  split; [reflexivity|].
  apply (htx_window_behind_the_end sample_htx).
  - repeat constructor; try discriminate.
  - split; [discriminate|reflexivity].
Defined.

(* ===================================================================== *)
(** * More on the parser *)
(* ===================================================================== *)

Lemma parse_loop_stops alloc_ok args kw fuel st :
  is_keyword (arg args (ps_pos st)) = false ->
  parse_loop alloc_ok (S fuel) args kw st = (None, st).
Proof.
  unfold is_keyword, is_flag. intros H.
  apply orb_false_iff in H. destruct H as [Hn H].
  apply orb_false_iff in H. destruct H as [H Hh].
  apply orb_false_iff in H. destruct H as [Hp Hf].
  cbn [parse_loop]. cbv zeta.
  destruct (String.eqb (arg args (ps_pos st)) ""); [reflexivity|].
  rewrite Hn, Hp, Hf, Hh. reflexivity.
Qed.

(** The loop over a run of options, when memory is served for the names
    of the run: each flag sets its field, each [name] takes a block for
    its value and lets go of the block of the name before, and the loop
    goes on behind the run. *)
Lemma parse_loop_opts_served alloc_ok args kw :
  forall opts fuel st,
    (forall n, (hp_next (ps_heap st) <= n
                < hp_next (ps_heap st) + names opts)%nat ->
               alloc_ok n = true) ->
    (List.length (flat_map opt_tokens opts) < fuel)%nat ->
    Forall (fun o => opt_ok o = true) opts ->
    (forall i, (i < List.length (flat_map opt_tokens opts))%nat ->
               arg args (ps_pos st + i) = nth i (flat_map opt_tokens opts) "") ->
    exists fuel',
      (0 < fuel')%nat /\
      parse_loop alloc_ok fuel args kw st
      = parse_loop alloc_ok fuel' args kw
          {| ps_pos := ps_pos st + List.length (flat_map opt_tokens opts);
             ps_conf := fold_left apply_opt opts (ps_conf st);
             ps_name := match names opts with
                        | O => ps_name st
                        | S k => Some (hp_next (ps_heap st) + k)%nat
                        end;
             ps_heap := {| hp_next := hp_next (ps_heap st) + names opts;
                           hp_live := (blocks_from (ps_heap st) (names opts)
                                       ++ hp_live (ps_heap st))%list |} |}.
Proof.
  induction opts as [|o opts IH]; intros fuel st Hmem Hfuel Hok Hargs.
  - exists fuel. split; [simpl in Hfuel; lia|].
    cbn [flat_map List.length fold_left names blocks_from seq rev app].
    rewrite !Nat.add_0_r. destruct st as [? ? ? []]; reflexivity.
  - inversion Hok as [|? ? Ho Hrest]; subst.
    cbn [flat_map] in Hfuel, Hargs |- *.
    rewrite length_app in Hfuel, Hargs |- *.
    destruct o as [v|tok]; cbn [opt_tokens List.length opt_ok] in *.
    + destruct fuel as [|fuel]; [lia|].
      assert (Ha : arg args (ps_pos st) = "name").
      { rewrite <- (Nat.add_0_r (ps_pos st)). rewrite Hargs by lia.
        reflexivity. }
      assert (Hv : arg args (ps_pos st + 1) = v).
      { rewrite Hargs by lia. reflexivity. }
      apply negb_true_iff in Ho.
      cbn [parse_loop]. cbv zeta. rewrite Ha, Hv, Ho.
      cbn [String.eqb Ascii.eqb Bool.eqb andb]. cbv iota.
      unfold alloc. rewrite Hmem by (cbn [names]; lia).
      match goal with
      | |- context [parse_loop _ fuel _ _ ?s] => set (st1 := s)
      end.
      destruct (IH fuel st1) as (fuel' & Hpos & Heq).
      * intros n Hn. subst st1. cbn [ps_heap at_pos hp_next] in Hn.
        apply Hmem. cbn [names]. lia.
      * lia.
      * exact Hrest.
      * intros i Hi. subst st1. cbn [ps_pos at_pos].
        replace (ps_pos st + 1 + 1 + i)%nat with (ps_pos st + (2 + i))%nat
          by lia.
        rewrite Hargs by lia. reflexivity.
      * exists fuel'. split; [exact Hpos|].
        rewrite Heq. subst st1.
        cbn [ps_pos ps_conf ps_name ps_heap at_pos hp_next hp_live
             fold_left apply_opt names].
        f_equal. f_equal.
        -- lia.
        -- destruct (names opts); f_equal; lia.
        -- unfold blocks_from. cbn [hp_next seq rev].
           rewrite <- app_assoc. cbn [app].
           f_equal; lia.
    + assert (Hstep := parse_loop_flags alloc_ok args kw [tok] fuel st).
      cbn [List.length fold_left] in Hstep.
      rewrite Hstep; clear Hstep.
      * match goal with
        | |- context [parse_loop _ (fuel - 1) _ _ ?s] => set (st1 := s)
        end.
        destruct (IH (fuel - 1)%nat st1) as (fuel' & Hpos & Heq).
        -- intros n Hn. subst st1. cbn [ps_heap] in Hn.
           apply Hmem. cbn [names]. exact Hn.
        -- lia.
        -- exact Hrest.
        -- intros i Hi. subst st1. cbn [ps_pos].
           replace (ps_pos st + 1 + i)%nat with (ps_pos st + (1 + i))%nat
             by lia.
           rewrite Hargs by lia. reflexivity.
        -- exists fuel'. split; [exact Hpos|].
           rewrite Heq. subst st1.
           cbn [ps_pos ps_conf ps_name ps_heap fold_left apply_opt names].
           f_equal. f_equal. lia.
      * lia.
      * constructor; [exact Ho|constructor].
      * intros i Hi. rewrite Hargs by lia.
        destruct i as [|i]; [reflexivity|lia].
Qed.

(** The same when memory never runs out. *)
Lemma parse_loop_opts alloc_ok args kw :
  (forall n, alloc_ok n = true) ->
  forall opts fuel st,
    (List.length (flat_map opt_tokens opts) < fuel)%nat ->
    Forall (fun o => opt_ok o = true) opts ->
    (forall i, (i < List.length (flat_map opt_tokens opts))%nat ->
               arg args (ps_pos st + i) = nth i (flat_map opt_tokens opts) "") ->
    exists fuel',
      (0 < fuel')%nat /\
      parse_loop alloc_ok fuel args kw st
      = parse_loop alloc_ok fuel' args kw
          {| ps_pos := ps_pos st + List.length (flat_map opt_tokens opts);
             ps_conf := fold_left apply_opt opts (ps_conf st);
             ps_name := match names opts with
                        | O => ps_name st
                        | S k => Some (hp_next (ps_heap st) + k)%nat
                        end;
             ps_heap := {| hp_next := hp_next (ps_heap st) + names opts;
                           hp_live := (blocks_from (ps_heap st) (names opts)
                                       ++ hp_live (ps_heap st))%list |} |}.
Proof.
  intros Hmem opts fuel st. apply parse_loop_opts_served.
  intros n _. apply Hmem.
Qed.

(** The call on the line [... trace <options> <rest>], when memory is
    served and [rest] begins with no word of the keyword: the whole
    outcome. *)
Lemma parse_trace_flt_options_run alloc_ok (pre : list string) opts rest
    px fconf h :
  let args := (pre ++ "trace" :: flat_map opt_tokens opts ++ rest)%list in
  (forall n, alloc_ok n = true) ->
  Forall (fun o => opt_ok o = true) opts ->
  is_keyword (nth 0 rest "") = false ->
  parse_trace_flt alloc_ok args (List.length pre) px fconf h
  = {| pr_ret := 0; pr_err := None;
       pr_cur_arg := List.length pre + 1
                     + List.length (flat_map opt_tokens opts);
       pr_fconf :=
         {| fc_id := Some trace_flt_id; fc_ops := Some "trace_ops";
            fc_conf := Some (hp_next h,
                             fold_left apply_opt opts
                               (set_proxy zeroed_config px)) |};
       pr_heap := {| hp_next := hp_next h + S (names opts);
                     hp_live := (blocks_from h (S (names opts))
                                 ++ hp_live h)%list |} |}.
Proof.
  intros args Hmem Hok Hrest.
  assert (Hkw : arg args (List.length pre) = "trace")
    by apply arg_keyword.
  assert (Hlen : List.length args
                 = (List.length pre + 1
                    + List.length (flat_map opt_tokens opts)
                    + List.length rest)%nat).
  { unfold args. rewrite length_app. cbn [List.length].
    rewrite length_app. lia. }
  unfold parse_trace_flt, alloc. rewrite Hmem. cbv zeta. rewrite !Hkw.
  cbn [String.eqb Ascii.eqb Bool.eqb andb]. cbv iota.
  match goal with
  | |- context [parse_loop _ _ _ _ ?s] => set (st := s)
  end.
  destruct (parse_loop_opts alloc_ok args "trace" Hmem opts
              (S (List.length args)) st) as (fuel' & Hpos & Heq).
  - lia.
  - exact Hok.
  - intros i Hi. subst st. cbn [ps_pos]. unfold args.
    rewrite arg_after_keyword. apply app_nth1. exact Hi.
  - rewrite Heq. destruct fuel' as [|fuel']; [lia|].
    rewrite parse_loop_stops.
    + subst st. cbn [ps_pos ps_conf ps_name ps_heap hp_next hp_live].
      f_equal. f_equal.
      * lia.
      * unfold blocks_from. cbn [hp_next].
        cbn [seq rev]. rewrite <- app_assoc. reflexivity.
    + subst st. cbn [ps_pos]. unfold args.
      replace (List.length pre + 1 + List.length (flat_map opt_tokens opts))%nat
        with (List.length pre + 1
              + (List.length (flat_map opt_tokens opts) + 0))%nat by lia.
      rewrite arg_after_keyword, app_nth2 by lia.
      replace (List.length (flat_map opt_tokens opts) + 0
               - List.length (flat_map opt_tokens opts))%nat with 0%nat by lia.
      exact Hrest.
Qed.

(** X10.  The parser takes the options of [trace] in any order and any
    number: on a line [... trace <options> <rest>] where every [name] has
    a value, [rest] begins with no word of the keyword (or is empty) and
    memory is served, it returns 0 without a message, leaves [*cur_arg] on
    [rest] and hands over the configuration in which every flag met is set
    and the name is the value of the last [name].  The word behind [name]
    is its value whatever it is, a flag included. *)
Theorem parse_trace_flt_accepts_options alloc_ok (pre : list string) opts
    rest px fconf h :
  let args := (pre ++ "trace" :: flat_map opt_tokens opts ++ rest)%list in
  let res := parse_trace_flt alloc_ok args (List.length pre) px fconf h in
  (forall n, alloc_ok n = true) ->
  Forall (fun o => opt_ok o = true) opts ->
  is_keyword (nth 0 rest "") = false ->
  pr_ret res = 0 /\ pr_err res = None /\
  pr_cur_arg res
  = (List.length pre + 1 + List.length (flat_map opt_tokens opts))%nat /\
  pr_fconf res
  = {| fc_id := Some trace_flt_id; fc_ops := Some "trace_ops";
       fc_conf := Some (hp_next h,
                        fold_left apply_opt opts
                          (set_proxy zeroed_config px)) |}.
Proof.
  intros args res Hmem Hok Hrest. subst res args.
  rewrite parse_trace_flt_options_run by assumption.
  repeat split.
Qed.

(** The line [filter trace name hexdump name demo random-parsing]: the
    first [name] takes the word [hexdump] as its value, the second one
    wins, and the flag [hexdump] is not set. *)
Lemma parse_trace_flt_accepts_options_witness :
  let r := parse_trace_flt plenty
             ["filter"; "trace"; "name"; "hexdump"; "name"; "demo";
              "random-parsing"] 1 "fe" empty_fconf empty_heap in
  pr_ret r = 0 /\ pr_err r = None /\ pr_cur_arg r = 7%nat /\
  pr_fconf r
  = {| fc_id := Some trace_flt_id; fc_ops := Some "trace_ops";
       fc_conf := Some (0%nat,
                        {| conf_proxy := "fe"; conf_name := Some "demo";
                           rand_parsing := true; rand_forwarding := false;
                           hexdump := false |}) |}.
Proof.
  assert (Hok : Forall (fun o => opt_ok o = true)
                  [opt_name "hexdump"; opt_name "demo";
                   opt_flag "random-parsing"])
    by (repeat constructor).
  exact (parse_trace_flt_accepts_options plenty ["filter"]
           [opt_name "hexdump"; opt_name "demo"; opt_flag "random-parsing"]
           [] "fe" empty_fconf empty_heap (fun _ => eq_refl) Hok eq_refl).
Defined.

(** X11.  Every [name] on the line takes a block of its own and the
    parser gives none back when it succeeds: behind [n] options [name]
    the heap holds [n + 1] blocks more, the configuration and one per
    [name], although the configuration holds the last name only.  The
    blocks of the names before the last one are lost. *)
Theorem parse_trace_flt_keeps_every_name_block alloc_ok (pre : list string)
    opts rest px fconf h :
  let args := (pre ++ "trace" :: flat_map opt_tokens opts ++ rest)%list in
  let res := parse_trace_flt alloc_ok args (List.length pre) px fconf h in
  (forall n, alloc_ok n = true) ->
  Forall (fun o => opt_ok o = true) opts ->
  is_keyword (nth 0 rest "") = false ->
  pr_ret res = 0 /\
  hp_live (pr_heap res)
  = (blocks_from h (S (names opts)) ++ hp_live h)%list /\
  List.length (hp_live (pr_heap res))
  = (List.length (hp_live h) + 1 + names opts)%nat.
Proof.
  intros args res Hmem Hok Hrest. subst res args.
  rewrite parse_trace_flt_options_run by assumption.
  cbn [pr_ret pr_heap hp_live].
  split; [reflexivity|]. split; [reflexivity|].
  unfold blocks_from. rewrite length_app, length_rev, length_seq. lia.
Qed.

(** The line [filter trace name a name b]: three blocks are left, the
    configuration (0) and the two names (1, 2). *)
Lemma parse_trace_flt_keeps_every_name_block_witness :
  let r := parse_trace_flt plenty
             ["filter"; "trace"; "name"; "a"; "name"; "b"] 1 "fe"
             empty_fconf empty_heap in
  pr_ret r = 0 /\ hp_live (pr_heap r) = [2; 1; 0]%nat /\
  List.length (hp_live (pr_heap r)) = 3%nat.
Proof.
  assert (Hok : Forall (fun o => opt_ok o = true) [opt_name "a"; opt_name "b"])
    by (repeat constructor).
  exact (parse_trace_flt_keeps_every_name_block plenty ["filter"]
           [opt_name "a"; opt_name "b"] [] "fe" empty_fconf empty_heap
           (fun _ => eq_refl) Hok eq_refl).
Defined.

Lemma filter_absent (l : list nat) n :
  ~ In n l -> List.filter (fun q => negb (Nat.eqb n q)) l = l.
Proof.
  induction l as [|q l IH]; intros H; [reflexivity|].
  cbn [List.filter].
  destruct (Nat.eqb_spec n q) as [E|_].
  - exfalso. apply H. left. symmetry. exact E.
  - cbn [negb]. f_equal. apply IH. intros Hin. apply H. right. exact Hin.
Qed.

(** X12.  When [name] comes without a value behind other options, the
    parser returns -1 with its message and leaves [fconf] and [*cur_arg]
    as they were, and it frees the configuration and the last name only:
    of [n] names taken before, the blocks of the first [n - 1] stay on the
    heap.  The heap is as before the call when [name] was given at most
    once. *)
Theorem parse_trace_flt_error_frees_last_name alloc_ok (pre : list string)
    opts rest px fconf h :
  let args := (pre ++ "trace" :: flat_map opt_tokens opts
                   ++ "name" :: rest)%list in
  let res := parse_trace_flt alloc_ok args (List.length pre) px fconf h in
  (forall n, alloc_ok n = true) ->
  Forall (fun o => opt_ok o = true) opts ->
  nth 0 rest "" = "" ->
  heap_wf h ->
  pr_ret res = -1 /\
  pr_err res = Some "'trace' : 'name' option without value" /\
  pr_cur_arg res = List.length pre /\ pr_fconf res = fconf /\
  hp_live (pr_heap res)
  = (rev (seq (S (hp_next h)) (names opts - 1)) ++ hp_live h)%list.
Proof.
  intros args res Hmem Hok Hrest Hwf. subst res.
  assert (Hkw : arg args (List.length pre) = "trace")
    by apply arg_keyword.
  assert (Hlen : List.length args
                 = (List.length pre + 1
                    + List.length (flat_map opt_tokens opts)
                    + S (List.length rest))%nat).
  { unfold args. rewrite length_app. cbn [List.length].
    rewrite length_app. cbn [List.length]. lia. }
  assert (Hat : forall i,
             arg args (List.length pre + 1
                       + List.length (flat_map opt_tokens opts) + i)
             = nth i ("name" :: rest) "").
  { intros i. unfold args.
    replace (List.length pre + 1
             + List.length (flat_map opt_tokens opts) + i)%nat
      with (List.length pre + 1
            + (List.length (flat_map opt_tokens opts) + i))%nat by lia.
    rewrite arg_after_keyword, app_nth2 by lia. f_equal. lia. }
  unfold parse_trace_flt, alloc. rewrite Hmem. cbv zeta. rewrite !Hkw.
  cbn [String.eqb Ascii.eqb Bool.eqb andb]. cbv iota.
  match goal with
  | |- context [parse_loop _ _ _ _ ?s] => set (st := s)
  end.
  destruct (parse_loop_opts alloc_ok args "trace" Hmem opts
              (S (List.length args)) st) as (fuel' & Hpos & Heq).
  - lia.
  - exact Hok.
  - intros i Hi. subst st. cbn [ps_pos]. unfold args.
    rewrite arg_after_keyword. apply app_nth1. exact Hi.
  - rewrite Heq. destruct fuel' as [|fuel']; [lia|].
    subst st. cbn [parse_loop ps_pos ps_conf ps_name ps_heap]. cbv zeta.
    assert (Ha := Hat 0%nat). rewrite Nat.add_0_r in Ha. cbn [nth] in Ha.
    assert (Hv := Hat 1%nat). cbn [nth] in Hv. rewrite Hrest in Hv.
    rewrite !Ha, Hv.
    cbn [String.eqb Ascii.eqb Bool.eqb andb]. cbv iota.
    cbn [pr_ret pr_err pr_cur_arg pr_fconf pr_heap ps_name ps_heap].
    repeat (split; [reflexivity|]).
    assert (Hfresh : ~ In (hp_next h) (hp_live h)).
    { intros Hin. apply Hwf in Hin. lia. }
    destruct (names opts) as [|k].
    + unfold blocks_from. cbn [hp_next hp_live seq rev app Nat.sub].
      unfold free. cbn [hp_live List.filter].
      rewrite Nat.eqb_refl. cbn [negb].
      apply filter_absent. exact Hfresh.
    + unfold blocks_from. cbn [hp_next hp_live].
      rewrite seq_S, rev_app_distr. cbn [rev app].
      replace (S k - 1)%nat with k by lia.
      unfold free. cbn [hp_live hp_next List.filter].
      rewrite Nat.eqb_refl. cbn [negb].
      rewrite !filter_app. cbn [List.filter].
      rewrite (filter_absent (rev (seq (S (hp_next h)) k))
                 (S (hp_next h) + k)).
      2: { rewrite <- in_rev, in_seq. lia. }
      destruct (Nat.eqb_spec (S (hp_next h) + k) (hp_next h)) as [E|_];
        [lia|].
      cbn [negb].
      rewrite (filter_absent (hp_live h) (S (hp_next h) + k)).
      2: { intros Hin. apply Hwf in Hin. lia. }
      cbn [List.filter].
      rewrite Nat.eqb_refl. cbn [negb].
      rewrite (filter_absent (rev (seq (S (hp_next h)) k)) (hp_next h)).
      2: { rewrite <- in_rev, in_seq. lia. }
      rewrite (filter_absent (hp_live h) (hp_next h)) by exact Hfresh.
      reflexivity.
Qed.

(** The line [filter trace name a name b name]: the block of the name [a]
    (1) is left on the heap. *)
Lemma parse_trace_flt_error_frees_last_name_witness :
  let r := parse_trace_flt plenty
             ["filter"; "trace"; "name"; "a"; "name"; "b"; "name"] 1 "fe"
             empty_fconf empty_heap in
  pr_ret r = -1 /\
  pr_err r = Some "'trace' : 'name' option without value" /\
  pr_cur_arg r = 1%nat /\ pr_fconf r = empty_fconf /\
  hp_live (pr_heap r) = [1%nat].
Proof.
  assert (Hok : Forall (fun o => opt_ok o = true) [opt_name "a"; opt_name "b"])
    by (repeat constructor).
  assert (Hwf : heap_wf empty_heap) by (intros p []).
  exact (parse_trace_flt_error_frees_last_name plenty ["filter"]
           [opt_name "a"; opt_name "b"] [] "fe" empty_fconf empty_heap
           (fun _ => eq_refl) Hok eq_refl Hwf).
Defined.

(* ===================================================================== *)
(** * The dump holds every byte *)
(* ===================================================================== *)

Lemma lacks_app c (a b : string) :
  lacks c (a ++ b) = lacks c a && lacks c b.
Proof.
  induction a as [|x a IH]; simpl; [reflexivity|].
  rewrite IH, andb_assoc. reflexivity.
Qed.

Lemma skip_to_lacks c (a b : string) :
  lacks c a = true -> skip_to c (a ++ String c b) = b.
Proof.
  induction a as [|x a IH]; simpl; intros H.
  - rewrite Ascii.eqb_refl. reflexivity.
  - apply andb_true_iff in H. destruct H as [Hx Ha].
    apply negb_true_iff in Hx. rewrite Hx. apply IH. exact Ha.
Qed.

Lemma hex_digit_no_colon d : Ascii.eqb (hex_digit d) ":" = false.
Proof.
  destruct d as [|p]; [reflexivity|].
  do 4 (try destruct p as [p|p|]); reflexivity.
Qed.

Lemma hex_digits_no_colon fuel :
  forall n acc,
    lacks ":" acc = true -> lacks ":" (hex_digits fuel n acc) = true.
Proof.
  induction fuel as [|fuel IH]; intros n acc Hacc; cbn [hex_digits];
    [exact Hacc|].
  assert (H : lacks ":" (String (hex_digit (n mod 16)) acc) = true).
  { cbn [lacks]. rewrite hex_digit_no_colon, Hacc. reflexivity. }
  cbv zeta. destruct (n / 16 =? 0)%N; [exact H|apply IH; exact H].
Qed.

Lemma fmt_0x_no_colon w n : lacks ":" (fmt_0x w n) = true.
Proof.
  unfold fmt_0x. cbv zeta. rewrite lacks_app.
  rewrite hex_digits_no_colon by reflexivity.
  rewrite andb_true_r.
  induction (w - _)%nat as [|k IH]; [reflexivity|exact IH].
Qed.

Lemma ascii_column_no_newline bs : lacks NL (ascii_column bs) = true.
Proof.
  unfold ascii_column.
  induction bs as [|b bs IH]; [reflexivity|].
  cbn [map string_of_list_ascii lacks]. rewrite IH, andb_true_r.
  destruct b; reflexivity.
Qed.

Lemma read_cell_byte b (rest : string) :
  read_cell (fmt_byte b ++ rest) = (Some b, rest).
Proof. destruct b; reflexivity. Qed.

Lemma read_cell_blank (rest : string) :
  read_cell ("   " ++ rest) = (None, rest).
Proof. reflexivity. Qed.

Lemma read_cells_blanks k (rest : string) :
  read_cells k (blanks k ++ rest) = ([], rest).
Proof.
  induction k as [|k IH]; [reflexivity|].
  cbn [blanks read_cells]. rewrite append_assoc, read_cell_blank, IH.
  reflexivity.
Qed.

(** Eight cells read back: the bytes shown, up to the first blank cell. *)
Lemma read_cells_half_row bs (rest : string) :
  (List.length bs <= 8)%nat ->
  read_cells 8 (half_row bs ++ rest) = (bs, rest).
Proof.
  unfold half_row. generalize 8%nat as n.
  induction bs as [|b bs IH]; intros n Hn.
  - cbn [map concat_str List.length append]. rewrite Nat.sub_0_r.
    apply read_cells_blanks.
  - destruct n as [|n]; [simpl in Hn; lia|].
    cbn [map concat_str List.length Nat.sub read_cells].
    rewrite !append_assoc, read_cell_byte.
    rewrite <- append_assoc, IH by (simpl in Hn; lia).
    reflexivity.
Qed.

(** A row read back: its bytes, and the text behind it. *)
Lemma undump_row_dump_row base chunk (rest : string) :
  (List.length chunk <= 16)%nat ->
  undump_row (dump_row base chunk ++ rest) = (chunk, rest).
Proof.
  intros Hlen.
  assert (Hshape :
    dump_row base chunk ++ rest
    = (String TAB ("0x" ++ fmt_0x 6 base))
      ++ String ":"
           (String " "
              (half_row (firstn 8 chunk)
               ++ String " " (String " "
                    (half_row (skipn 8 chunk)
                     ++ ("  |" ++ ascii_column chunk ++ "|")
                     ++ String NL rest))))).
  { unfold dump_row. cbn [append].
    repeat (rewrite !append_assoc; cbn [append]). reflexivity. }
  rewrite Hshape. unfold undump_row.
  rewrite skip_to_lacks.
  2: { cbn [lacks append]. rewrite fmt_0x_no_colon. reflexivity. }
  cbn [skip].
  rewrite read_cells_half_row by (rewrite length_firstn; lia).
  cbn [skip].
  rewrite read_cells_half_row by (rewrite length_skipn; lia).
  rewrite skip_to_lacks.
  2: { cbn [lacks append]. rewrite lacks_app, ascii_column_no_newline.
       reflexivity. }
  rewrite firstn_skipn. reflexivity.
Qed.

(** The rows read back one after the other. *)
Lemma undump_rows :
  forall fuel' base s fuel,
    (List.length s <= fuel')%nat -> (List.length s <= fuel)%nat ->
    undump fuel
      (concat_str (map (fun row => dump_row (fst row) (snd row))
                       (rows_of fuel' base s)))
    = s.
Proof.
  induction fuel' as [|fuel' IH]; intros base s fuel Hs Hfuel.
  - destruct s; [|simpl in Hs; lia]. destruct fuel; reflexivity.
  - destruct s as [|b t]; [destruct fuel; reflexivity|].
    destruct fuel as [|fuel]; [simpl in Hfuel; lia|].
    cbn [rows_of map concat_str fst snd].
    set (s := b :: t) in *.
    assert (Hcons : exists a text,
               dump_row base (firstn 16 s)
               ++ concat_str (map (fun row => dump_row (fst row) (snd row))
                                  (rows_of fuel' (base + 16) (skipn 16 s)))
               = String a text).
    { unfold dump_row. cbn [append]. eexists. eexists. reflexivity. }
    destruct Hcons as (a & text & Hcons).
    cbn [undump]. rewrite Hcons. rewrite <- Hcons.
    rewrite undump_row_dump_row by (rewrite length_firstn; lia).
    assert (Hskip : (List.length (skipn 16 s) < List.length s)%nat).
    { rewrite length_skipn. subst s. cbn [List.length]. lia. }
    rewrite IH by lia.
    apply firstn_skipn.
Qed.

(** X13.  The text that [trace_hexdump] writes holds every byte of the
    window: the bytes are read back from the hex cells of its rows, so that
    two windows with the same dump are the same bytes.  (The ASCII column
    alone would not do: it shows every byte that is not printable as a
    dot.) *)
Theorem trace_hexdump_reads_back (s : list byte) :
  undump (List.length s) (trace_hexdump s) = s /\
  (forall s', trace_hexdump s' = trace_hexdump s -> s' = s).
Proof.
  assert (Hback : forall (p : list byte) fuel,
             (List.length p <= fuel)%nat ->
             undump fuel (trace_hexdump p) = p).
  { intros p fuel Hfuel. rewrite trace_hexdump_rows.
    apply undump_rows; [apply Nat.le_refl|exact Hfuel]. }
  split; [apply Hback; apply Nat.le_refl|].
  intros s' Heq.
  rewrite <- (Hback s' (List.length s' + List.length s)%nat) by lia.
  rewrite <- (Hback s (List.length s' + List.length s)%nat) at 2 by lia.
  rewrite Heq. reflexivity.
Qed.

(* ===================================================================== *)
(** * The outcomes of the parser *)
(* ===================================================================== *)

(** Freeing the block of the configuration, when the blocks taken after
    it are still there. *)
Lemma free_conf_block h (l : list nat) m :
  heap_wf h -> (forall p, In p l -> (hp_next h < p)%nat) ->
  hp_live (free (hp_next h)
             {| hp_next := m; hp_live := (l ++ hp_next h :: hp_live h)%list |})
  = (l ++ hp_live h)%list.
Proof.
  intros Hwf Hl. unfold free. cbn [hp_live].
  rewrite filter_app. cbn [List.filter].
  rewrite Nat.eqb_refl. cbn [negb].
  rewrite (filter_absent l).
  2: { intros Hin. apply Hl in Hin. lia. }
  rewrite (filter_absent (hp_live h)).
  2: { intros Hin. apply Hwf in Hin. lia. }
  reflexivity.
Qed.

(** Freeing the block taken last. *)
Lemma free_last_block (l : list nat) p m :
  ~ In p l ->
  free p {| hp_next := m; hp_live := p :: l |}
  = {| hp_next := m; hp_live := l |}.
Proof.
  intros Hp. unfold free. cbn [hp_next hp_live List.filter].
  rewrite Nat.eqb_refl. cbn [negb]. rewrite filter_absent by exact Hp.
  reflexivity.
Qed.

(** The call on the line [... trace <options> <rest>], when memory is
    served for the configuration and for the names of the options: the
    loop stands on [rest] with the options taken. *)
Lemma parse_trace_flt_behind_options alloc_ok (pre : list string) opts rest
    px fconf h :
  let args := (pre ++ "trace" :: flat_map opt_tokens opts ++ rest)%list in
  let st := {| ps_pos := List.length pre + 1
                         + List.length (flat_map opt_tokens opts);
               ps_conf := fold_left apply_opt opts
                            (set_proxy zeroed_config px);
               ps_name := match names opts with
                          | O => None
                          | S k => Some (S (hp_next h) + k)%nat
                          end;
               ps_heap :=
                 {| hp_next := S (hp_next h) + names opts;
                    hp_live := (rev (seq (S (hp_next h)) (names opts))
                                ++ hp_next h :: hp_live h)%list |} |} in
  (forall k, (hp_next h <= k <= hp_next h + names opts)%nat ->
             alloc_ok k = true) ->
  Forall (fun o => opt_ok o = true) opts ->
  (exists fuel,
     parse_trace_flt alloc_ok args (List.length pre) px fconf h
     = match parse_loop alloc_ok (S fuel) args "trace" st with
       | (Some msg, st') =>
           {| pr_ret := -1; pr_err := Some msg;
              pr_cur_arg := List.length pre; pr_fconf := fconf;
              pr_heap := free (hp_next h)
                           match ps_name st' with
                           | Some pn => free pn (ps_heap st')
                           | None => ps_heap st'
                           end |}
       | (None, st') =>
           {| pr_ret := 0; pr_err := None; pr_cur_arg := ps_pos st';
              pr_fconf := {| fc_id := Some trace_flt_id;
                             fc_ops := Some "trace_ops";
                             fc_conf := Some (hp_next h, ps_conf st') |};
              pr_heap := ps_heap st' |}
       end) /\
  (forall i, arg args (ps_pos st + i) = nth i rest "").
Proof.
  intros args st Hmem Hok.
  assert (Hkw : arg args (List.length pre) = "trace")
    by apply arg_keyword.
  assert (Hlen : List.length args
                 = (List.length pre + 1
                    + List.length (flat_map opt_tokens opts)
                    + List.length rest)%nat).
  { unfold args. rewrite length_app. cbn [List.length].
    rewrite length_app. lia. }
  split.
  - unfold parse_trace_flt, alloc. rewrite Hmem by lia. cbv zeta.
    rewrite !Hkw.
    cbn [String.eqb Ascii.eqb Bool.eqb andb]. cbv iota.
    match goal with
    | |- context [parse_loop _ _ _ _ ?s] => set (st0 := s)
    end.
    destruct (parse_loop_opts_served alloc_ok args "trace" opts
                (S (List.length args)) st0) as (fuel' & Hpos & Heq).
    + intros k Hk. subst st0. cbn [ps_heap hp_next] in Hk.
      apply Hmem. lia.
    + lia.
    + exact Hok.
    + intros i Hi. subst st0. cbn [ps_pos]. unfold args.
      rewrite arg_after_keyword. apply app_nth1. exact Hi.
    + destruct fuel' as [|fuel]; [lia|]. exists fuel.
      rewrite Heq. subst st0 st.
      cbn [ps_pos ps_conf ps_name ps_heap hp_next hp_live].
      unfold blocks_from. cbn [hp_next]. reflexivity.
  - intros i. subst st. cbn [ps_pos]. unfold args.
    replace (List.length pre + 1
             + List.length (flat_map opt_tokens opts) + i)%nat
      with (List.length pre + 1
            + (List.length (flat_map opt_tokens opts) + i))%nat by lia.
    rewrite arg_after_keyword, app_nth2 by lia. f_equal. lia.
Qed.

(** C8, as the source has it.  On a line [... trace <options> <rest>],
    where the options are flags and names with their values in any order,
    the parser fails in three cases, with a message that names the
    keyword: when no memory is left for the configuration
    (["trace: out of memory"]), when [rest] begins with [name] and no
    value follows (["'trace' : 'name' option without value"]), and when no
    memory is left for the value of that [name]
    (["trace: out of memory"]).  It then returns -1 and leaves [fconf] and
    [*cur_arg] as they were.  What it frees is the configuration and the
    name that the configuration holds at that moment, no more: of the [n]
    names taken before a missing value the blocks of the first [n - 1]
    stay on the heap, and all [n] stay when the value finds no memory,
    [conf->name] being null then.  The heap is as before the call when
    at most one name, respectively none, was taken before.  At a word of
    [rest] that is none of the keyword's the parser stops without an
    error: it returns 0 with the configuration built so far in [fconf]
    and [*cur_arg] on that word. *)
Theorem parse_trace_flt_outcomes alloc_ok (pre : list string) opts rest
    px fconf h :
  let args := (pre ++ "trace" :: flat_map opt_tokens opts ++ rest)%list in
  let cur_arg := List.length pre in
  let n := names opts in
  let r := parse_trace_flt alloc_ok args cur_arg px fconf h in
  Forall (fun o => opt_ok o = true) opts -> heap_wf h ->
  (alloc_ok (hp_next h) = false ->
   pr_ret r = -1 /\ pr_err r = Some "trace: out of memory" /\
   pr_fconf r = fconf /\ pr_cur_arg r = cur_arg /\
   hp_live (pr_heap r) = hp_live h)
  /\
  ((forall k, (hp_next h <= k <= hp_next h + n)%nat -> alloc_ok k = true) ->
   (nth 0 rest "" = "name" -> nth 1 rest "" = "" ->
    pr_ret r = -1 /\
    pr_err r = Some "'trace' : 'name' option without value" /\
    pr_fconf r = fconf /\ pr_cur_arg r = cur_arg /\
    hp_live (pr_heap r)
    = (rev (seq (S (hp_next h)) (n - 1)) ++ hp_live h)%list)
   /\
   (nth 0 rest "" = "name" -> nth 1 rest "" <> "" ->
    alloc_ok (S (hp_next h) + n)%nat = false ->
    pr_ret r = -1 /\ pr_err r = Some "trace: out of memory" /\
    pr_fconf r = fconf /\ pr_cur_arg r = cur_arg /\
    hp_live (pr_heap r)
    = (rev (seq (S (hp_next h)) n) ++ hp_live h)%list)
   /\
   (is_keyword (nth 0 rest "") = false ->
    pr_ret r = 0 /\ pr_err r = None /\
    pr_cur_arg r
    = (cur_arg + 1 + List.length (flat_map opt_tokens opts))%nat /\
    arg args (pr_cur_arg r) = nth 0 rest "" /\
    pr_fconf r = {| fc_id := Some trace_flt_id; fc_ops := Some "trace_ops";
                    fc_conf := Some (hp_next h,
                                     fold_left apply_opt opts
                                       (set_proxy zeroed_config px)) |} /\
    hp_live (pr_heap r)
    = (rev (seq (hp_next h) (S n)) ++ hp_live h)%list)).
Proof.
  intros args cur_arg n r Hok Hwf. split.
  - intros Hno.
    assert (Hkw : arg args cur_arg = "trace") by apply arg_keyword.
    unfold r, parse_trace_flt, alloc. rewrite Hno. cbv zeta. rewrite Hkw.
    cbn [pr_ret pr_err pr_fconf pr_cur_arg pr_heap hp_live].
    repeat split; reflexivity.
  - intros Hmem.
    destruct (parse_trace_flt_behind_options alloc_ok pre opts rest px fconf
                h Hmem Hok) as ((fuel & Hrun) & Hargs).
    fold args in Hrun, Hargs. fold cur_arg in Hrun. fold r in Hrun.
    fold n in Hrun, Hargs.
    cbn [ps_pos] in Hargs. fold cur_arg in Hargs.
    assert (Ha := Hargs 0%nat). rewrite Nat.add_0_r in Ha.
    assert (Hv := Hargs 1%nat).
    assert (Hnames : forall p, In p (rev (seq (S (hp_next h)) n)) ->
                               (hp_next h < p)%nat).
    { intros p Hp. apply in_rev, in_seq in Hp. lia. }
    split; [|split].
    + intros Hname Hval. rewrite Hrun.
      cbn [parse_loop ps_pos ps_conf ps_name ps_heap]. cbv zeta.
      rewrite !Ha, Hv, Hname, Hval.
      cbn [String.eqb Ascii.eqb Bool.eqb andb]. cbv iota.
      cbn [pr_ret pr_err pr_cur_arg pr_fconf pr_heap ps_name ps_heap].
      repeat (split; [reflexivity|]).
      destruct n as [|k].
      * cbn [seq rev app Nat.sub].
        apply (free_conf_block h []); [exact Hwf|intros p []].
      * replace (S k - 1)%nat with k by lia.
        rewrite seq_S, rev_app_distr. cbn [rev app].
        rewrite free_last_block.
        -- apply free_conf_block; [exact Hwf|].
           intros p Hp. apply in_rev, in_seq in Hp. lia.
        -- intros Hin. apply in_app_or in Hin. destruct Hin as [Hin|[Hin|Hin]].
           ++ apply in_rev, in_seq in Hin. lia.
           ++ lia.
           ++ apply Hwf in Hin. lia.
    + intros Hname Hval Hno. rewrite Hrun.
      cbn [parse_loop ps_pos ps_conf ps_name ps_heap]. cbv zeta.
      rewrite !Ha, Hv, Hname.
      cbn [String.eqb Ascii.eqb Bool.eqb andb]. cbv iota.
      destruct (String.eqb_spec (nth 1 rest "") ""); [contradiction|].
      unfold alloc. cbn [hp_next hp_live]. rewrite Hno.
      cbn [pr_ret pr_err pr_cur_arg pr_fconf pr_heap ps_name ps_heap].
      repeat (split; [reflexivity|]).
      apply free_conf_block; assumption.
    + intros Hstop. rewrite Hrun. rewrite parse_loop_stops.
      * cbn [pr_ret pr_err pr_cur_arg pr_fconf pr_heap ps_pos ps_conf
             ps_heap hp_live].
        repeat (split; [reflexivity|]).
        split; [exact Ha|]. split; [reflexivity|].
        cbn [seq rev]. rewrite <- app_assoc. reflexivity.
      * cbn [ps_pos]. rewrite Ha. exact Hstop.
Qed.

(** The line [filter trace name a hexdump name b name]: the error of
    [name] without a value behind two names; the block of the name [a]
    (1) is left on the heap. *)
Lemma parse_trace_flt_outcomes_witness :
  let r := parse_trace_flt plenty
             ["filter"; "trace"; "name"; "a"; "hexdump"; "name"; "b"; "name"]
             1 "fe" empty_fconf empty_heap in
  pr_ret r = -1 /\
  pr_err r = Some "'trace' : 'name' option without value" /\
  pr_fconf r = empty_fconf /\ pr_cur_arg r = 1%nat /\
  hp_live (pr_heap r) = [1%nat].
Proof.
  assert (Hok : Forall (fun o => opt_ok o = true)
                  [opt_name "a"; opt_flag "hexdump"; opt_name "b"])
    by (repeat constructor).
  assert (Hwf : heap_wf empty_heap) by (intros p []).
  exact (proj1 (proj2 (parse_trace_flt_outcomes plenty ["filter"]
                         [opt_name "a"; opt_flag "hexdump"; opt_name "b"]
                         ["name"] "fe" empty_fconf empty_heap Hok Hwf)
                  (fun _ _ => eq_refl))
           eq_refl eq_refl).
Defined.

(** C8, as the spec words it, fails on the line
    [filter trace hexdump bogus]: the token [bogus] is no error for the
    parser, which returns 0, leaves no message and hands the configuration
    over, with [*cur_arg] on the token. *)
Lemma parse_trace_flt_unknown_token_counterexample :
  let r := parse_trace_flt plenty ["filter"; "trace"; "hexdump"; "bogus"] 1
             "fe" empty_fconf empty_heap in
  pr_ret r = 0 /\ pr_ret r <> -1 /\ pr_err r = None /\
  pr_cur_arg r = 3%nat /\
  fc_conf (pr_fconf r)
  = Some (0%nat, set_hexdump (set_proxy zeroed_config "fe")).
Proof.
  cbv zeta. split; [reflexivity|]. split; [discriminate|].
  repeat split; reflexivity.
Qed.

(* ===================================================================== *)
(** * The cap of the payload hook *)
(* ===================================================================== *)

(** What [trace_http_payload] returns with random forwarding: the draw
    reduced below [len + 1], or [len] when the reduced draw is above the
    count [data] of the payload at the head of the message. *)
Lemma trace_http_payload_drawn s f offset len r w :
  let h := htxbuf (chn_buf (w_chn w)) in
  let data := Z.min len (Z.max 0 (leading_payload h - offset)) in
  let amount := Z.rem r (len + 1) in
  rand_forwarding (FLT_CONF f) = true ->
  0 <= r <= RAND_MAX -> 0 <= len < INT_MAX -> 0 <= offset < UINT_MOD ->
  htx_wf h ->
  payload_data h offset 0 len = data /\
  0 <= amount <= len /\
  exists w',
    trace_http_payload s f offset len r w
    = Some ((if amount >? data then len else amount), w').
Proof.
  intros h data amount Hon Hr Hlen Hoff Hwf.
  assert (Hdata : payload_data h offset 0 len = data).
  { unfold data. rewrite (payload_data_closed_form h Hwf) by lia.
    reflexivity. }
  split; [exact Hdata|].
  rewrite trace_http_payload_run. cbv zeta. fold h.
  rewrite Hdata, Hon, (to_int_small len) by lia.
  destruct (Z.eqb_spec len 0) as [Hz|Hnz]; cbn [negb andb].
  - subst len. unfold amount. change (0 + 1) with 1. rewrite Z.rem_1_r.
    split; [lia|].
    assert (Hd : data = 0) by (unfold data; lia).
    rewrite Hd. eexists. reflexivity.
  - destruct (rand_mod_bounds r len Hr) as (d & -> & Hd & Hb); [lia|].
    fold amount in Hd. subst d. split; [exact Hb|].
    rewrite (to_uint_small amount) by (unfold UINT_MOD, INT_MAX in *; lia).
    eexists. reflexivity.
Qed.

(** C3, as the source has it.  In the payload hook of structured messages
    with random forwarding, the cap is not taken after the draw and does
    not depend on the amount drawn: it is the count [data] that the hook
    takes before the draw, over [offset] and [len] and over the payload
    blocks at the head of the message only, up to the first block of
    another type: [data = min(len, max(0, leading - offset))].  After the
    draw [amount = random() mod (len + 1)] the hook returns [len] when
    [amount] is above [data] and [amount] when it is not.  Whenever
    [amount] is above [payloadBytesIn(view, offset, amount)] it is above
    [data] too, and the hook returns [len]; the hook returns [len] as well
    where [amount] is within that cap and above [data]. *)
Theorem forward_cap_falls_back_to_len s f offset len r w :
  let h := htxbuf (chn_buf (w_chn w)) in
  let data := Z.min len (Z.max 0 (leading_payload h - offset)) in
  let amount := Z.rem r (len + 1) in
  rand_forwarding (FLT_CONF f) = true ->
  0 <= r <= RAND_MAX -> 0 <= len < INT_MAX -> 0 <= offset < UINT_MOD ->
  htx_wf h ->
  payload_data h offset 0 len = data /\
  (exists w',
     trace_http_payload s f offset len r w
     = Some ((if amount >? data then len else amount), w')) /\
  (payloadBytesIn h offset amount < amount -> data < amount).
Proof.
  intros h data amount Hon Hr Hlen Hoff Hwf.
  destruct (trace_http_payload_drawn s f offset len r w Hon Hr Hlen Hoff Hwf)
    as (Hdata & Hamount & Hrun).
  fold h in Hdata, Hrun. fold data in Hdata, Hrun. fold amount in Hamount, Hrun.
  split; [exact Hdata|]. split; [exact Hrun|].
  intros Hcap.
  destruct (Z_lt_le_dec data amount) as [Hlt|Hle]; [exact Hlt|].
  rewrite (payloadBytesIn_within_data h Hwf offset 0 len amount) in Hcap;
    lia.
Qed.

(** The message ["abc"], ["defgh"], end, asked for six bytes behind the
    offset five: three bytes of payload are counted; the draw 4 is above
    them and gives six, the draw 2 gives two. *)
Lemma forward_cap_falls_back_to_len_witness :
  payload_data payload_htx 5 0 6 = 3 /\
  (exists w', trace_http_payload sample_stream (sample_filter false true false)
                5 6 4 (world_of payload_htx) = Some (6, w')) /\
  (exists w', trace_http_payload sample_stream (sample_filter false true false)
                5 6 2 (world_of payload_htx) = Some (2, w')).
Proof.
  assert (Hlen : 0 <= 6 < INT_MAX) by (split; [discriminate|reflexivity]).
  assert (Hoff : 0 <= 5 < UINT_MOD) by (split; [discriminate|reflexivity]).
  assert (Hwf : htx_wf (htxbuf (chn_buf (w_chn (world_of payload_htx)))))
    by (repeat constructor; discriminate).
  assert (H4 : 0 <= 4 <= RAND_MAX) by (split; discriminate).
  assert (H2 : 0 <= 2 <= RAND_MAX) by (split; discriminate).
  split; [|split].
  - exact (proj1 (forward_cap_falls_back_to_len sample_stream
                    (sample_filter false true false) 5 6 4
                    (world_of payload_htx) eq_refl H4 Hlen Hoff Hwf)).
  - exact (proj1 (proj2 (forward_cap_falls_back_to_len sample_stream
                           (sample_filter false true false) 5 6 4
                           (world_of payload_htx) eq_refl H4 Hlen Hoff Hwf))).
  - exact (proj1 (proj2 (forward_cap_falls_back_to_len sample_stream
                           (sample_filter false true false) 5 6 2
                           (world_of payload_htx) eq_refl H2 Hlen Hoff Hwf))).
Defined.

(** C3, as the spec words it, fails on the sample message, which begins
    with a header: asked for four bytes behind the offset two, the draw 7
    gives the amount 2; the window of two bytes at the offset holds two
    payload bytes, so that the amount is within the cap of the spec, and
    the hook returns four, not two, because it has counted no payload. *)
Lemma forward_cap_counterexample :
  Z.rem 7 (4 + 1) = 2 /\
  payloadBytesIn sample_htx 2 2 = 2 /\
  payload_data sample_htx 2 0 4 = 0 /\
  (exists w', trace_http_payload sample_stream (sample_filter false true false)
                2 4 7 sample_world = Some (4, w')) /\
  4 <> 2.
Proof.
  split; [reflexivity|]. split; [reflexivity|]. split; [reflexivity|].
  split; [eexists; vm_compute; reflexivity|discriminate].
Qed.

(** X2.  Behind a first block that is no payload the count [data] is zero,
    and the payload hook with random forwarding forwards all or nothing: it
    returns [len] for every draw that is not reduced to zero, and zero for
    the others, whatever payload follows. *)
Theorem payload_hook_all_or_nothing s f offset len r w blk rest :
  htxbuf (chn_buf (w_chn w)) = blk :: rest ->
  is_data (htx_get_blk_type blk) = false ->
  rand_forwarding (FLT_CONF f) = true ->
  0 <= r <= RAND_MAX -> 0 < len < INT_MAX ->
  payload_data (blk :: rest) offset 0 len = 0 /\
  exists w',
    trace_http_payload s f offset len r w
    = Some ((if Z.rem r (len + 1) =? 0 then 0 else len), w').
Proof.
  intros Hh Hblk Hon Hr Hlen.
  assert (Hdata : payload_data (blk :: rest) offset 0 len = 0).
  { cbn [payload_data]. rewrite Hblk. reflexivity. }
  split; [exact Hdata|].
  rewrite trace_http_payload_run. cbv zeta.
  rewrite Hh, Hdata, Hon, (to_int_small len) by lia.
  destruct (Z.eqb_spec len 0) as [?|_]; [lia|]. cbn [negb andb].
  destruct (rand_mod_bounds r len Hr Hlen) as (d & -> & Hd & Hb).
  rewrite (to_uint_small d) by (unfold UINT_MOD, INT_MAX in *; lia).
  rewrite <- Hd.
  destruct (Z.gtb_spec d 0), (Z.eqb_spec d 0); try lia;
    eexists; try reflexivity.
  subst d. rewrite e. reflexivity.
Qed.

(** The sample message starts with its header: of the four bytes asked
    for, the draw 7, reduced to 2, gives four and the draw 5, reduced to
    0, gives none. *)
Lemma payload_hook_all_or_nothing_witness :
  payload_data sample_htx 2 0 4 = 0 /\
  (exists w', trace_http_payload sample_stream (sample_filter false true false)
                2 4 7 sample_world = Some (4, w')) /\
  (exists w', trace_http_payload sample_stream (sample_filter false true false)
                2 4 5 sample_world = Some (0, w')).
Proof.
  assert (Hlen : 0 < 4 < INT_MAX) by (split; reflexivity).
  assert (H7 : 0 <= 7 <= RAND_MAX) by (split; discriminate).
  assert (H5 : 0 <= 5 <= RAND_MAX) by (split; discriminate).
  split; [|split].
  - exact (proj1 (payload_hook_all_or_nothing sample_stream
                    (sample_filter false true false) 2 4 7 sample_world
                    sample_header (tl sample_htx) eq_refl eq_refl eq_refl
                    H7 Hlen)).
  - exact (proj2 (payload_hook_all_or_nothing sample_stream
                    (sample_filter false true false) 2 4 7 sample_world
                    sample_header (tl sample_htx) eq_refl eq_refl eq_refl
                    H7 Hlen)).
  - exact (proj2 (payload_hook_all_or_nothing sample_stream
                    (sample_filter false true false) 2 4 5 sample_world
                    sample_header (tl sample_htx) eq_refl eq_refl eq_refl
                    H5 Hlen)).
Defined.

(* ===================================================================== *)
(** * What the dump of the payload hook covers *)
(* ===================================================================== *)








